(** * gardener-extension-provider-kubevirt: worker pools to machine classes

    A shallow embedding of the worker delegate (pkg/controller/worker/machines.go),
    the provider-config extractors (package helper), the kubeconfig helper
    (pkg/kubevirt/util.go) and the shoot and secret admission validators,
    followed by the properties the specification states about them.

    Go values are modelled as follows.
    - [string] is a Go string, [bytes] a Go []byte.
    - A pointer that the code tests against nil is an [option]; dereferencing
      a nil pointer is the outcome [Panic].
    - A function returning [(T, error)] returns [result T].
    - A Go map is a [gmap]; a slice is a [list], except the two slices of the
      delegate that the code compares with nil, which are [option (list _)].
    - Collaborators that live outside these sources (API client, decoders,
      hash, chart applier, ...) are fields of an environment record. *)

From Stdlib Require Import ZArith String List Bool Lia DecimalString.
From Stdlib Require DecimalNat.
From Stdlib Require Import Ascii.
From stdpp Require Import base option list gmap strings fin_maps.

Local Open Scope string_scope.
Local Open Scope list_scope.
Local Open Scope Z_scope.

(** ** Errors and outcomes *)

(** field.Path and field.Error of apimachinery's validation package. *)
Inductive Path : Type :=
| NewPath (name : string)
| Child (parent : Path) (name : string)
| Index (parent : Path) (index : nat).

Record FieldError : Type := mkFieldError {
  feType : string;
  feField : Path;
  feDetail : string;
}.

Definition ErrorList : Type := list FieldError.

(** An error value: either produced by a collaborator, or built in these
    sources: [errors.New msg], [fmt.Errorf] of a format and its [%q] or
    [%T] arguments, [fmt.Errorf] that also wraps an error with [%w], or
    the aggregate of a non-empty list of field errors. *)
Inductive error : Type :=
| ExternalError (msg : string)
| ErrorNew (msg : string)
| Errorf (format : string) (args : list string)
| Errorw (format : string) (args : list string) (wrapped : error)
| AggregateError (errs : list FieldError).

(** The outcome of a call: a value, an error return, or a run-time panic. *)
Inductive result (A : Type) : Type :=
| Ok (a : A)
| Err (e : error)
| Panic.
Arguments Ok {A} a.
Arguments Err {A} e.
Arguments Panic {A}.

#[export] Instance result_bind : MBind result := fun A B k r =>
  match r with
  | Ok a => k a
  | Err e => Err e
  | Panic => Panic
  end.
#[export] Instance result_ret : MRet result := fun A a => Ok a.

(** What a collaborator outside these sources returns for [(T, error)]:
    an error or a value. *)
Definition fallible (A : Type) : Type := error + A.

Definition call {A : Type} (r : fallible A) : result A :=
  match r with
  | inl e => Err e
  | inr a => Ok a
  end.

(** [wrap format args r] is the idiom
    [if err != nil { return fmt.Errorf(format, args..., err) }]. *)
Definition wrap {A : Type} (format : string) (args : list string) (r : result A) : result A :=
  match r with
  | Ok a => Ok a
  | Err e => Err (Errorw format args e)
  | Panic => Panic
  end.

Definition is_ok {A : Type} (r : result A) : bool :=
  match r with Ok _ => true | _ => false end.

Definition is_err {A : Type} (r : result A) : bool :=
  match r with Err _ => true | _ => false end.

(** [for _, x := range xs { acc, err = body(acc, x); if err != nil { return err } }] *)
Fixpoint foldM {A St : Type} (body : St -> A -> result St) (xs : list A) (acc : St)
    : result St :=
  match xs with
  | [] => Ok acc
  | x :: rest => acc' ← body acc x; foldM body rest acc'
  end.

(** [for i, x := range xs { acc, err = body(i, x, acc); if err != nil { return err } }],
    counting from [i]. *)
Fixpoint rangeFoldM {A St : Type} (body : nat -> A -> St -> result St) (i : nat) (xs : list A)
    (acc : St) : result St :=
  match xs with
  | [] => Ok acc
  | x :: rest => acc' ← body i x acc; rangeFoldM body (S i) rest acc'
  end.

(** ErrorList.ToAggregate: nil for an empty list. *)
Definition ToAggregate (errs : ErrorList) : result unit :=
  match errs with
  | [] => Ok tt
  | _ => Err (AggregateError errs)
  end.

(** ** Shared API types *)

Definition bytes : Type := list Byte.byte.

(** runtime.RawExtension; [Raw] is a byte slice that may be nil. *)
Record RawExtension : Type := mkRaw { Raw : option bytes }.

Record ObjectMeta : Type := mkMeta { Namespace : string; Name : string }.

(** gardener's kutil.ObjectName: [namespace/name], or [name] alone for a
    cluster-scoped object. It only feeds error messages. *)
Definition ObjectName (m : ObjectMeta) : string :=
  if String.eqb (Namespace m) "" then Name m else Namespace m +:+ "/" +:+ Name m.

(** resource.Quantity, only copied and compared here. *)
Record Quantity : Type := mkQuantity { quantityValue : Z }.

(** A value the code only carries along (devices, DNS settings, taints...). *)
Definition Opaque : Type := option string.

(** intstr.IntOrString as the worker pool carries it: an absolute count,
    or a percentage (the string form ["50%"], taken here as the number it
    denotes, as in the specification's [int-or-percent]). *)
Inductive IntOrPercent : Type :=
| IntVal (n : Z)
| PercentVal (p : Z).

#[export] Instance Path_eq_dec : EqDecision Path.
Proof. solve_decision. Defined.
#[export] Instance FieldError_eq_dec : EqDecision FieldError.
Proof. solve_decision. Defined.
#[export] Instance byte_eq_dec : EqDecision Byte.byte := Byte.byte_eq_dec.
#[export] Instance error_eq_dec : EqDecision error.
Proof. solve_decision. Defined.
#[export] Instance RawExtension_eq_dec : EqDecision RawExtension.
Proof. solve_decision. Defined.
#[export] Instance Quantity_eq_dec : EqDecision Quantity.
Proof. solve_decision. Defined.
#[export] Instance IntOrPercent_eq_dec : EqDecision IntOrPercent.
Proof. solve_decision. Defined.

(** int32(x) of a Go int: two's-complement truncation to 32 bits. *)
Definition int32 (z : Z) : Z := (z + 2 ^ 31) `mod` 2 ^ 32 - 2 ^ 31.

(** ** Provider API types (package apis/kubevirt)

    These types are declared outside the sources at hand; the fields are
    the ones the specification lists and the code reads. *)

Record WorkerConfig : Type := mkWorkerConfig {
  Devices : Opaque;
  CPU : Opaque;
  Memory : Opaque;
  DNSPolicy : string;
  DNSConfig : Opaque;
  OvercommitGuestOverhead : bool;
  DisablePreAllocatedDataVolumes : bool;
}.

Record NetworkStatus : Type := mkNetworkStatus {
  netName : string;
  netDefault : bool;
  netSHA : string;
}.

Record InfrastructureStatus : Type := mkInfrastructureStatus {
  Networks : list NetworkStatus;
}.

Record ResourcesLimits : Type := mkLimits {
  limCPU : Quantity;
  limMemory : Quantity;
}.

(** apiskubevirt.MachineType: the sparse override layer of the cloud
    profile config, keyed by machine type name. *)
Record MachineTypeExtension : Type := mkMachineTypeExtension {
  mteName : string;
  mteLimits : option ResourcesLimits;
}.

Record MachineImage : Type := mkMachineImage {
  imgName : string;
  imgVersion : string;
  imgSourceURL : string;
}.

Record CloudProfileConfig : Type := mkCloudProfileConfig {
  cpcMachineTypes : list MachineTypeExtension;
  cpcRest : Opaque;
}.

Record InfrastructureConfig : Type := mkInfrastructureConfig { icContent : Opaque }.
Record ControlPlaneConfig : Type := mkControlPlaneConfig { cpContent : Opaque }.
Record WorkerStatus : Type := mkWorkerStatus { wsMachineImages : list MachineImage }.

(** The Go zero values ([&T{}]). *)
Definition zeroWorkerConfig : WorkerConfig := mkWorkerConfig None None None "" None false false.
Definition zeroInfrastructureStatus : InfrastructureStatus := mkInfrastructureStatus [].
Definition zeroCloudProfileConfig : CloudProfileConfig := mkCloudProfileConfig [] None.
Definition zeroInfrastructureConfig : InfrastructureConfig := mkInfrastructureConfig None.
Definition zeroControlPlaneConfig : ControlPlaneConfig := mkControlPlaneConfig None.
Definition zeroWorkerStatus : WorkerStatus := mkWorkerStatus [].

#[export] Instance WorkerConfig_eq_dec : EqDecision WorkerConfig.
Proof. solve_decision. Defined.
#[export] Instance NetworkStatus_eq_dec : EqDecision NetworkStatus.
Proof. solve_decision. Defined.
#[export] Instance InfrastructureConfig_eq_dec : EqDecision InfrastructureConfig.
Proof. solve_decision. Defined.
#[export] Instance ControlPlaneConfig_eq_dec : EqDecision ControlPlaneConfig.
Proof. solve_decision. Defined.

(** ** Gardener API types, as far as the code reads them *)

Record MachineTypeStorage : Type := mkStorage {
  stClass : string;
  stStorageSize : option Quantity;
}.

Record MachineType : Type := mkMachineType {
  mtName : string;
  mtCPU : Quantity;
  mtMemory : Quantity;
  mtStorage : option MachineTypeStorage;
}.

Record VolumeType : Type := mkVolumeType {
  vtName : string;
  vtClass : string;
}.

Record CloudProfile : Type := mkCloudProfile {
  cpMeta : ObjectMeta;
  cpMachineTypes : list MachineType;
  cpVolumeTypes : list VolumeType;
  cpProviderConfig : option RawExtension;
}.

(** extensionscontroller.Cluster; [clShoot] stands for the shoot and seed
    it also carries, which only the pool hash reads. *)
Record Cluster : Type := mkCluster {
  clCloudProfile : CloudProfile;
  clShoot : Opaque;
}.

(** extensionsv1alpha1.Volume and DataVolume; [Type] is a [*string]. *)
Record Volume : Type := mkVolume {
  volType : option string;
  volSize : string;
}.

Record DataVolume : Type := mkDataVolume {
  dvName : string;
  dvType : option string;
  dvSize : string;
}.

Record WorkerPool : Type := mkWorkerPool {
  poolName : string;
  poolMachineType : string;
  poolImageName : string;
  poolImageVersion : string;
  poolVolume : option Volume;
  poolDataVolumes : list DataVolume;
  poolZones : list string;
  poolMinimum : Z;
  poolMaximum : Z;
  poolMaxSurge : IntOrPercent;
  poolMaxUnavailable : IntOrPercent;
  poolLabels : gmap string string;
  poolAnnotations : gmap string string;
  poolTaints : list string;
  poolProviderConfig : option RawExtension;
  poolUserData : bytes;
}.

Record SecretReference : Type := mkSecretRef {
  refNamespace : string;
  refName : string;
}.

Record Worker : Type := mkWorker {
  wMeta : ObjectMeta;
  wRegion : string;
  wSecretRef : SecretReference;
  wSSHPublicKey : bytes;
  wInfrastructureProviderStatus : option RawExtension;
  wPools : list WorkerPool;
  wProviderStatus : option RawExtension;
}.

Record Infrastructure : Type := mkInfrastructure {
  infraMeta : ObjectMeta;
  infraProviderConfig : option RawExtension;
}.

Record ControlPlane : Type := mkControlPlane {
  cplMeta : ObjectMeta;
  cplProviderConfig : option RawExtension;
}.

(** corev1.Secret: only [Data] is read. *)
Record Secret : Type := mkSecret {
  secMeta : ObjectMeta;
  secData : gmap string bytes;
}.

(** ** Package helper: the provider-config extractors *)

(** runtime.Decoder, one entry per target type: [Decode(raw, nil, into)]
    with [into] a fresh zero value. *)
Record Decoder : Type := mkDecoder {
  decodeCloudProfileConfig : bytes -> fallible CloudProfileConfig;
  decodeInfrastructureConfig : bytes -> fallible InfrastructureConfig;
  decodeControlPlaneConfig : bytes -> fallible ControlPlaneConfig;
  decodeWorkerConfig : bytes -> fallible WorkerConfig;
  decodeInfrastructureStatus : bytes -> fallible InfrastructureStatus;
  decodeWorkerStatus : bytes -> fallible WorkerStatus;
}.

(** The payload an extractor hands to the decoder: present only when the
    [*RawExtension] is not nil and its [Raw] is not nil. *)
Definition payload (pc : option RawExtension) : option bytes :=
  match pc with
  | Some r => Raw r
  | None => None
  end.

Module helper.

Definition GetCloudProfileConfig (decoder : Decoder) (cloudProfile : CloudProfile)
  : result CloudProfileConfig :=
  let cloudProfileConfig := zeroCloudProfileConfig in
  match cpProviderConfig cloudProfile with
  | Some (mkRaw (Some raw)) =>
      wrap "could not decode providerConfig of cloudProfile %q %w"
        [ObjectName (cpMeta cloudProfile)] (call (decodeCloudProfileConfig decoder raw))
  | _ => Ok cloudProfileConfig
  end.

Definition GetInfrastructureConfig (decoder : Decoder) (infra : Infrastructure)
  : result InfrastructureConfig :=
  let config := zeroInfrastructureConfig in
  match infraProviderConfig infra with
  | Some (mkRaw (Some raw)) =>
      wrap "could not decode providerConfig of infrastructure %q %w"
        [ObjectName (infraMeta infra)] (call (decodeInfrastructureConfig decoder raw))
  | _ => Ok config
  end.

Definition GetControlPlaneConfig (decoder : Decoder) (cp : ControlPlane)
  : result ControlPlaneConfig :=
  let config := zeroControlPlaneConfig in
  match cplProviderConfig cp with
  | Some (mkRaw (Some raw)) =>
      wrap "could not decode providerConfig of controlplane %q %w"
        [ObjectName (cplMeta cp)] (call (decodeControlPlaneConfig decoder raw))
  | _ => Ok config
  end.

Definition GetWorkerConfig (decoder : Decoder) (p : WorkerPool) : result WorkerConfig :=
  let config := zeroWorkerConfig in
  match poolProviderConfig p with
  | Some (mkRaw (Some raw)) =>
      wrap "could not decode providerConfig of worker pool %q %w"
        [poolName p] (call (decodeWorkerConfig decoder raw))
  | _ => Ok config
  end.

Definition GetInfrastructureStatus (decoder : Decoder) (w : Worker)
  : result InfrastructureStatus :=
  let status := zeroInfrastructureStatus in
  match wInfrastructureProviderStatus w with
  | Some (mkRaw (Some raw)) =>
      wrap "could not decode infrastructureProviderStatus of worker %q %w"
        [ObjectName (wMeta w)] (call (decodeInfrastructureStatus decoder raw))
  | _ => Ok status
  end.

Definition GetWorkerStatus (decoder : Decoder) (w : Worker) : result WorkerStatus :=
  let status := zeroWorkerStatus in
  match wProviderStatus w with
  | Some (mkRaw (Some raw)) =>
      wrap "could not decode providerStatus of worker %q %w"
        [ObjectName (wMeta w)] (call (decodeWorkerStatus decoder raw))
  | _ => Ok status
  end.

End helper.

(** ** Package kubevirt (pkg/kubevirt/util.go) *)

Module kubevirt.

Definition KubeconfigSecretKey : string := "kubeconfig".

(** [GetSecretByReference] is the API client's; the rest is the lookup
    of the kubeconfig key in the secret's data. *)
Definition GetKubeConfig (GetSecretByReference : SecretReference -> fallible Secret)
    (secretRef : SecretReference) : result bytes :=
  secret ← wrap "could not get secret by reference %w" [] (call (GetSecretByReference secretRef));
  match secData secret !! KubeconfigSecretKey with
  | Some kubeconfig => Ok kubeconfig
  | None => Err (Errorf "missing %q field in secret" [KubeconfigSecretKey])
  end.

End kubevirt.

(** ** Output descriptors *)

Record PersistentVolumeClaimSpec : Type := mkPVCSpec {
  pvcAccessModes : list string;
  pvcRequests : gmap string Quantity;
  pvcStorageClassName : option string;
}.

Record DataVolumeSourcePVC : Type := mkSourcePVC {
  srcNamespace : string;
  srcName : string;
}.

Record DataVolumeSourceHTTP : Type := mkSourceHTTP { srcURL : string }.

(** cdi's DataVolumeSource: one pointer per kind of source. *)
Record DataVolumeSource : Type := mkSource {
  sourceHTTP : option DataVolumeSourceHTTP;
  sourcePVC : option DataVolumeSourcePVC;
  sourceBlank : option unit;
}.

Record DataVolumeSpec : Type := mkDataVolumeSpec {
  dvsPVC : option PersistentVolumeClaimSpec;
  dvsSource : DataVolumeSource;
}.

Record ResourceRequirements : Type := mkResources {
  resRequests : gmap string Quantity;
  resLimits : option (gmap string Quantity);
  resOvercommitGuestOverhead : bool;
}.

Record AdditionalVolume : Type := mkAdditionalVolume {
  avName : string;
  avDataVolume : DataVolumeSpec;
}.

(** The machine class values handed to the chart: a
    [map[string]interface{}] with a fixed set of keys. *)
Record MachineClass : Type := mkMachineClass {
  mcName : string;
  mcRegion : string;
  mcZone : string;
  mcResources : ResourceRequirements;
  mcDevices : Opaque;
  mcRootVolume : DataVolumeSpec;
  mcAdditionalVolumes : list AdditionalVolume;
  mcSSHKeys : list string;
  mcNetworks : list NetworkStatus;
  mcCPU : Opaque;
  mcMemory : Opaque;
  mcDNSPolicy : string;
  mcDNSConfig : Opaque;
  mcTags : gmap string string;
  mcSecretCloudConfig : string;
  mcSecretKubeconfig : string;
}.

Record MachineDeployment : Type := mkMachineDeployment {
  mdName : string;
  mdClassName : string;
  mdSecretName : string;
  mdMinimum : Z;
  mdMaximum : Z;
  mdMaxSurge : Z;
  mdMaxUnavailable : Z;
  mdLabels : gmap string string;
  mdAnnotations : gmap string string;
  mdTaints : list string;
  mdMachineConfiguration : Opaque;
}.

#[export] Instance PersistentVolumeClaimSpec_eq_dec : EqDecision PersistentVolumeClaimSpec.
Proof. solve_decision. Defined.
#[export] Instance DataVolumeSourcePVC_eq_dec : EqDecision DataVolumeSourcePVC.
Proof. solve_decision. Defined.
#[export] Instance DataVolumeSourceHTTP_eq_dec : EqDecision DataVolumeSourceHTTP.
Proof. solve_decision. Defined.
#[export] Instance DataVolumeSource_eq_dec : EqDecision DataVolumeSource.
Proof. solve_decision. Defined.
#[export] Instance DataVolumeSpec_eq_dec : EqDecision DataVolumeSpec.
Proof. solve_decision. Defined.
#[export] Instance MachineImage_eq_dec : EqDecision MachineImage.
Proof. solve_decision. Defined.

(** ** Zone Distributor (gardener's worker package) *)

Module distributor.

(** Modelled from the spec: worker.DistributeOverZones, which is code of
    the gardener library and not part of the sources at hand. The total is
    spread evenly over the zones and the zones of the earliest indices
    take one more each until the remainder is used up. *)
Definition DistributeOverZones (zoneIndex size zoneSize : Z) : Z :=
  size `div` zoneSize + (if bool_decide (zoneIndex < size `mod` zoneSize) then 1 else 0).

(** Modelled from the spec: the resolution of a bound against the
    reference, done once. An absolute count is itself; a percentage is
    that share of the reference. The specification leaves open in which
    direction an inexact percentage is rounded, so the direction is an
    argument. *)
Definition resolve (roundUp : bool) (v : IntOrPercent) (reference : Z) : Z :=
  match v with
  | IntVal n => n
  | PercentVal p =>
      if roundUp then (p * reference + 99) `div` 100 else (p * reference) `div` 100
  end.

(** Modelled from the spec: worker.DistributePositiveIntOrPercent, also
    code of the gardener library: [distribute(total, zoneIndex, zoneCount,
    reference)] resolves the bound and spreads the resolved total like
    [DistributeOverZones]. *)
Definition DistributePositiveIntOrPercent (roundUp : bool)
    (zoneIndex : Z) (intOrPercent : IntOrPercent) (zoneSize total : Z) : Z :=
  DistributeOverZones zoneIndex (resolve roundUp intOrPercent total) zoneSize.

End distributor.

(** ** Package worker (pkg/controller/worker/machines.go) *)

(** A Go slice that may be nil: [None] is nil, [Some []] is empty. *)
Definition goAppend {A : Type} (s : option (list A)) (x : A) : option (list A) :=
  match s with
  | None => Some [x]
  | Some l => Some (l ++ [x])
  end.

(** fmt's [%d] of a non-negative int. *)
Definition itoa (n : nat) : string := NilEmpty.string_of_uint (Nat.to_uint n).

(** strconv.FormatBool *)
Definition FormatBool (b : bool) : string := if b then "true" else "false".

(** [for i, x := range xs { acc = body(i, x, acc) }], counting from [i]. *)
Fixpoint rangeFold {A St : Type} (body : nat -> A -> St -> St) (i : nat) (xs : list A)
    (acc : St) : St :=
  match xs with
  | [] => acc
  | x :: rest => rangeFold body (S i) rest (body i x acc)
  end.

Module worker.

Record workerDelegate : Type := mkDelegate {
  worker : Worker;
  cluster : Cluster;
  cloudProfileConfig : option CloudProfileConfig;
  machineClasses : option (list MachineClass);
  machineDeployments : option (list MachineDeployment);
  machineImages : list MachineImage;
  machineClassVolumes : gmap string DataVolumeSpec;
}.

(** kubevirtv1alpha1.InfrastructureStatus, the target of the conversion. *)
Record InfrastructureStatusV1alpha1 : Type := mkStatusV1alpha1 {
  v1APIVersion : string;
  v1Kind : string;
  v1Networks : list NetworkStatus;
}.

(** The collaborators of the delegate. *)
Record Env : Type := mkEnv {
  (** the seed client, as used by GetSecretByReference *)
  GetSecretByReference : SecretReference -> fallible Secret;
  (** clientFactory.GetClient: the namespace of the kubeconfig's context *)
  clientFactoryGetClient : bytes -> fallible string;
  (** the decoder of package helper *)
  decoder : Decoder;
  SchemeGroupVersion : string;
  (** Scheme().Convert(in, out, nil) *)
  schemeConvert : InfrastructureStatus -> InfrastructureStatusV1alpha1 ->
                  fallible InfrastructureStatusV1alpha1;
  (** worker.WorkerPoolHash of the gardener library *)
  WorkerPoolHash : WorkerPool -> Cluster -> list string -> fallible string;
  (** the delegate's getMachineImageURL (machine_images.go) *)
  getMachineImageURL : workerDelegate -> string -> string -> fallible string;
  (** resource.ParseQuantity *)
  ParseQuantity : string -> fallible Quantity;
  (** genericworkeractuator.ReadMachineConfiguration *)
  ReadMachineConfiguration : WorkerPool -> Opaque;
  (** rounding of an inexact percentage by the zone distributor *)
  percentRoundUp : bool;
  (** seedChartApplier.Apply of a chart of InternalChartsPath *)
  chartApply : string -> string -> string -> option (list MachineClass) -> fallible unit;
  ClusterLabel : string;
  (** dataVolumeManager.CreateOrUpdateDataVolume *)
  CreateOrUpdateDataVolume : bytes -> string -> gmap string string -> DataVolumeSpec -> fallible unit;
}.

(** Modelled from the spec: appendMachineImage (machine_images.go, not
    among the sources at hand) keeps the list deduplicated by name and
    version; the entry inserted first stays. *)
Definition appendMachineImage (machineImages : list MachineImage) (machineImage : MachineImage)
  : list MachineImage :=
  if existsb (fun image => bool_decide (imgName image = imgName machineImage
                                        /\ imgVersion image = imgVersion machineImage))
             machineImages
  then machineImages
  else machineImages ++ [machineImage].

Definition pvcSpec (storageClassName : string) (storageSize : Quantity)
  : PersistentVolumeClaimSpec :=
  {| pvcAccessModes := ["ReadWriteOnce"];
     pvcRequests := {[ "storage" := storageSize ]};
     pvcStorageClassName := Some storageClassName |}.

Definition buildDataVolumeSpecWithPVCSource (storageClassName : string)
    (storageSize : Quantity) (namespace name : string) : DataVolumeSpec :=
  {| dvsPVC := Some (pvcSpec storageClassName storageSize);
     dvsSource := {| sourceHTTP := None;
                     sourcePVC := Some {| srcNamespace := namespace; srcName := name |};
                     sourceBlank := None |} |}.

Definition buildDataVolumeSpecWithHTTPSource (storageClassName : string)
    (storageSize : Quantity) (url : string) : DataVolumeSpec :=
  {| dvsPVC := Some (pvcSpec storageClassName storageSize);
     dvsSource := {| sourceHTTP := Some {| srcURL := url |};
                     sourcePVC := None;
                     sourceBlank := None |} |}.

Definition buildDataVolumeSpecWithBlankSource (storageClassName : string)
    (storageSize : Quantity) : DataVolumeSpec :=
  {| dvsPVC := Some (pvcSpec storageClassName storageSize);
     dvsSource := {| sourceHTTP := None;
                     sourcePVC := None;
                     sourceBlank := Some tt |} |}.

(** The values computed before the pool loop. *)
Record RunContext : Type := mkRunContext {
  rcKubeconfig : bytes;
  rcNamespace : string;
  rcNetworks : list NetworkStatus;
  rcNetworksData : list string;
}.

(** The local accumulators of generateMachineConfig. [machineClasses] is
    declared without a value, hence nil until the first append;
    [machineDeployments] starts as an empty, non-nil slice. *)
Record Acc : Type := mkAcc {
  accDeployments : list MachineDeployment;
  accClasses : option (list MachineClass);
  accImages : list MachineImage;
  accVolumes : gmap string DataVolumeSpec;
}.

Definition acc0 : Acc :=
  {| accDeployments := []; accClasses := None; accImages := []; accVolumes := ∅ |}.

(** The values computed per pool, before its zone loop. *)
Record PoolValues : Type := mkPoolValues {
  pvWorkerConfig : WorkerConfig;
  pvHash : string;
  pvImageSourceURL : string;
  pvResources : ResourceRequirements;
  pvRootVolumeClassName : string;
  pvRootVolumeSize : Quantity;
  pvAdditionalVolumes : list AdditionalVolume;
}.

Definition getMachineType (w : workerDelegate) (name : string) : result MachineType :=
  match find (fun mt => bool_decide (mtName mt = name))
             (cpMachineTypes (clCloudProfile (cluster w))) with
  | Some mt => Ok mt
  | None => Err (Errorf "machine type %q not found in cloud profile" [name])
  end.

Definition getVolumeType (w : workerDelegate) (name : string) : result VolumeType :=
  match find (fun vt => bool_decide (vtName vt = name))
             (cpVolumeTypes (clCloudProfile (cluster w))) with
  | Some vt => Ok vt
  | None => Err (Errorf "volume type %q not found in cloud profile" [name])
  end.

Definition getMachineTypeExtension (w : workerDelegate) (name : string)
  : option MachineTypeExtension :=
  match cloudProfileConfig w with
  | Some config => find (fun mt => bool_decide (mteName mt = name)) (cpcMachineTypes config)
  | None => None
  end.

Definition deploymentNameOf (w : workerDelegate) (pool : WorkerPool) (zoneIndex : nat) : string :=
  Namespace (wMeta (worker w)) +:+ "-" +:+ poolName pool +:+ "-z" +:+ itoa (zoneIndex + 1).

Definition classNameOf (w : workerDelegate) (pool : WorkerPool) (workerPoolHash : string)
    (zoneIndex : nat) : string :=
  deploymentNameOf w pool zoneIndex +:+ "-" +:+ workerPoolHash.

Definition resourceRequirementsOf (w : workerDelegate) (machineType : MachineType)
    (workerConfig : WorkerConfig) : ResourceRequirements :=
  {| resRequests := {[ "cpu" := mtCPU machineType; "memory" := mtMemory machineType ]};
     resLimits :=
       match getMachineTypeExtension w (mtName machineType) with
       | Some mt =>
           match mteLimits mt with
           | Some limits => Some {[ "cpu" := limCPU limits; "memory" := limMemory limits ]}
           | None => None
           end
       | None => None
       end;
     resOvercommitGuestOverhead := OvercommitGuestOverhead workerConfig |}.

Section Delegate.
Variable env : Env.

Definition getStorageClassNameAndSize (w : workerDelegate) (volumeTypeName volumeSize : string)
  : result (string * Quantity) :=
  volumeType ← getVolumeType w volumeTypeName;
  storageSize ← wrap "could not parse volume size %q as quantity %w" [volumeSize]
                     (call (ParseQuantity env volumeSize));
  Ok (vtClass volumeType, storageSize).

(** The root volume of a zone's machine class and the machine class
    volumes after it: the [if !workerConfig.DisablePreAllocatedDataVolumes]. *)
Definition rootVolumeOf (rc : RunContext) (pv : PoolValues) (className : string)
    (machineClassVolumes : gmap string DataVolumeSpec)
  : DataVolumeSpec * gmap string DataVolumeSpec :=
  if negb (DisablePreAllocatedDataVolumes (pvWorkerConfig pv)) then
    (buildDataVolumeSpecWithPVCSource (pvRootVolumeClassName pv) (pvRootVolumeSize pv)
       (rcNamespace rc) className,
     <[className := buildDataVolumeSpecWithHTTPSource (pvRootVolumeClassName pv)
                      (pvRootVolumeSize pv) (pvImageSourceURL pv)]> machineClassVolumes)
  else
    (buildDataVolumeSpecWithHTTPSource (pvRootVolumeClassName pv) (pvRootVolumeSize pv)
       (pvImageSourceURL pv),
     machineClassVolumes).

Definition machineClassOf (w : workerDelegate) (rc : RunContext) (pool : WorkerPool)
    (pv : PoolValues) (className zone : string) (rootVolume : DataVolumeSpec) : MachineClass :=
  {| mcName := className;
     mcRegion := wRegion (worker w);
     mcZone := zone;
     mcResources := pvResources pv;
     mcDevices := Devices (pvWorkerConfig pv);
     mcRootVolume := rootVolume;
     mcAdditionalVolumes := pvAdditionalVolumes pv;
     mcSSHKeys := [string_of_list_byte (wSSHPublicKey (worker w))];
     mcNetworks := rcNetworks rc;
     mcCPU := CPU (pvWorkerConfig pv);
     mcMemory := Memory (pvWorkerConfig pv);
     mcDNSPolicy := DNSPolicy (pvWorkerConfig pv);
     mcDNSConfig := DNSConfig (pvWorkerConfig pv);
     mcTags := {[ "mcm.gardener.cloud/cluster" := Namespace (wMeta (worker w));
                  "mcm.gardener.cloud/role" := "node";
                  "mcm.gardener.cloud/machineclass" := className ]};
     mcSecretCloudConfig := string_of_list_byte (poolUserData pool);
     mcSecretKubeconfig := string_of_list_byte (rcKubeconfig rc) |}.

Definition machineDeploymentOf (pool : WorkerPool) (deploymentName className : string)
    (zoneIdx zoneLen : Z) : MachineDeployment :=
  {| mdName := deploymentName;
     mdClassName := className;
     mdSecretName := className;
     mdMinimum := distributor.DistributeOverZones zoneIdx (poolMinimum pool) zoneLen;
     mdMaximum := distributor.DistributeOverZones zoneIdx (poolMaximum pool) zoneLen;
     mdMaxSurge := distributor.DistributePositiveIntOrPercent (percentRoundUp env)
                     zoneIdx (poolMaxSurge pool) zoneLen (poolMaximum pool);
     mdMaxUnavailable := distributor.DistributePositiveIntOrPercent (percentRoundUp env)
                           zoneIdx (poolMaxUnavailable pool) zoneLen (poolMinimum pool);
     mdLabels := poolLabels pool;
     mdAnnotations := poolAnnotations pool;
     mdTaints := poolTaints pool;
     mdMachineConfiguration := ReadMachineConfiguration env pool |}.

(** The body of [for zoneIndex, zone := range pool.Zones]. *)
Definition zoneBody (w : workerDelegate) (rc : RunContext) (pool : WorkerPool)
    (pv : PoolValues) (zoneIndex : nat) (zone : string) (acc : Acc) : Acc :=
  let zoneLen := int32 (Z.of_nat (length (poolZones pool))) in
  let zoneIdx := int32 (Z.of_nat zoneIndex) in
  let deploymentName := deploymentNameOf w pool zoneIndex in
  let className := classNameOf w pool (pvHash pv) zoneIndex in
  let rv := rootVolumeOf rc pv className (accVolumes acc) in
  {| accDeployments :=
       accDeployments acc ++ [machineDeploymentOf pool deploymentName className zoneIdx zoneLen];
     accClasses :=
       goAppend (accClasses acc) (machineClassOf w rc pool pv className zone (fst rv));
     accImages := accImages acc;
     accVolumes := snd rv |}.

(** The root volume storage class name and size: the [switch]. *)
Definition rootVolumeClassNameAndSize (w : workerDelegate) (pool : WorkerPool)
    (machineType : MachineType) : result (string * Quantity) :=
  match poolVolume pool with
  | Some volume =>
      match volType volume with
      | Some type => getStorageClassNameAndSize w type (volSize volume)
      | None => Panic
      end
  | None =>
      match mtStorage machineType with
      | Some storage =>
          match stStorageSize storage with
          | Some size => Ok (stClass storage, size)
          | None => Err (ErrorNew "missing volume in worker pool and storage in machine type")
          end
      | None => Err (ErrorNew "missing volume in worker pool and storage in machine type")
      end
  end.

(** The body of [for _, volume := range pool.DataVolumes]. *)
Definition additionalVolumeBody (w : workerDelegate) (additionalVolumes : list AdditionalVolume)
    (volume : DataVolume) : result (list AdditionalVolume) :=
  match dvType volume with
  | Some type =>
      '(storageClassName, size) ← getStorageClassNameAndSize w type (dvSize volume);
      Ok (additionalVolumes ++
            [{| avName := dvName volume;
                avDataVolume := buildDataVolumeSpecWithBlankSource storageClassName size |}])
  | None => Panic
  end.

(** The pool loop's body up to the zone loop: everything that can fail. *)
Definition poolValues (w : workerDelegate) (rc : RunContext) (pool : WorkerPool)
  : result PoolValues :=
  workerConfig ← wrap "could not get WorkerConfig from worker pool %q %w" [poolName pool]
                      (helper.GetWorkerConfig (decoder env) pool);
  machineType ← getMachineType w (poolMachineType pool);
  workerPoolHash ← wrap "could not compute hash for worker pool %q %w" [poolName pool]
                        (call (WorkerPoolHash env pool (cluster w) (rcNetworksData rc)));
  imageSourceURL ← call (getMachineImageURL env w (poolImageName pool) (poolImageVersion pool));
  let resourceRequirements := resourceRequirementsOf w machineType workerConfig in
  '(rootVolumeClassName, rootVolumeSize) ← rootVolumeClassNameAndSize w pool machineType;
  additionalVolumes ← foldM (additionalVolumeBody w) (poolDataVolumes pool) [];
  Ok {| pvWorkerConfig := workerConfig;
        pvHash := workerPoolHash;
        pvImageSourceURL := imageSourceURL;
        pvResources := resourceRequirements;
        pvRootVolumeClassName := rootVolumeClassName;
        pvRootVolumeSize := rootVolumeSize;
        pvAdditionalVolumes := additionalVolumes |}.

(** The body of [for _, pool := range w.worker.Spec.Pools]. The machine
    image is appended right after its URL is resolved; an error further
    down discards the accumulators, so the order is not observable. *)
Definition poolBody (w : workerDelegate) (rc : RunContext) (acc : Acc) (pool : WorkerPool)
  : result Acc :=
  pv ← poolValues w rc pool;
  let machineImages :=
    appendMachineImage (accImages acc)
      {| imgName := poolImageName pool;
         imgVersion := poolImageVersion pool;
         imgSourceURL := pvImageSourceURL pv |} in
  Ok (rangeFold (zoneBody w rc pool pv) 0%nat (poolZones pool)
        {| accDeployments := accDeployments acc;
           accClasses := accClasses acc;
           accImages := machineImages;
           accVolumes := accVolumes acc |}).

(** generateMachineConfig up to the pool loop. *)
Definition runContext (w : workerDelegate) : result RunContext :=
  kubeconfig ← wrap "could not get kubeconfig from worker secret reference %w" []
                    (kubevirt.GetKubeConfig (GetSecretByReference env) (wSecretRef (worker w)));
  namespace ← wrap "could not create client from kubeconfig %w" []
                   (call (clientFactoryGetClient env kubeconfig));
  infrastructureStatus ← wrap "could not get InfrastructureStatus from worker %w" []
                              (helper.GetInfrastructureStatus (decoder env) (worker w));
  infrastructureStatusV1alpha1 ←
    wrap "could not convert InfrastructureStatus to v1alpha1 %w" []
         (call (schemeConvert env infrastructureStatus
                  {| v1APIVersion := SchemeGroupVersion env;
                     v1Kind := "InfrastructureStatus";
                     v1Networks := [] |}));
  let networksData :=
    flat_map (fun network => [netName network; FormatBool (netDefault network); netSHA network])
             (Networks infrastructureStatus) in
  if bool_decide (length (wSSHPublicKey (worker w)) = 0%nat) then
    Err (ErrorNew "missing sshPublicKey in worker")
  else
    Ok {| rcKubeconfig := kubeconfig;
          rcNamespace := namespace;
          rcNetworks := v1Networks infrastructureStatusV1alpha1;
          rcNetworksData := networksData |}.

(** generateMachineConfig up to the assignment of the delegate's fields. *)
Definition generate (w : workerDelegate) : result Acc :=
  rc ← runContext w;
  foldM (poolBody w rc) (wPools (worker w)) acc0.

(** The delegate after the call, and what the call returns. The four
    fields are assigned only at the very end. *)
Definition generateMachineConfig (w : workerDelegate) : workerDelegate * result unit :=
  match generate w with
  | Ok acc =>
      ({| worker := worker w;
          cluster := cluster w;
          cloudProfileConfig := cloudProfileConfig w;
          machineClasses := accClasses acc;
          machineDeployments := Some (accDeployments acc);
          machineImages := accImages acc;
          machineClassVolumes := accVolumes acc |},
       Ok tt)
  | Err e => (w, Err e)
  | Panic => (w, Panic)
  end.

(** Go ranges over the map in no fixed order; the model takes the
    order of [map_to_list]. *)
Definition createOrUpdateMachineClassVolumes (w : workerDelegate) : result unit :=
  let labels : gmap string string := {[ ClusterLabel env := Namespace (wMeta (worker w)) ]} in
  kubeconfig ← wrap "could not get kubeconfig from worker secret reference %w" []
                    (kubevirt.GetKubeConfig (GetSecretByReference env) (wSecretRef (worker w)));
  foldM (fun (_ : unit) (entry : string * DataVolumeSpec) =>
           wrap "could not create or update data volume %q %w" [fst entry]
                (call (CreateOrUpdateDataVolume env kubeconfig (fst entry) labels
                         (snd entry))))
        (map_to_list (machineClassVolumes w)) tt.

(** DeployMachineClasses after the generation step. *)
Definition applyMachineClasses (w : workerDelegate) : result unit :=
  _ ← wrap "could not apply machine-class chart %w" []
           (call (chartApply env "machine-class" (Namespace (wMeta (worker w)))
                    "machine-class" (machineClasses w)));
  createOrUpdateMachineClassVolumes w.

Definition DeployMachineClasses (w : workerDelegate) : workerDelegate * result unit :=
  match machineClasses w with
  | None =>
      match generateMachineConfig w with
      | (w', Ok _) => (w', applyMachineClasses w')
      | (w', Err e) => (w', Err e)
      | (w', Panic) => (w', Panic)
      end
  | Some _ => (w, applyMachineClasses w)
  end.

Definition GenerateMachineDeployments (w : workerDelegate)
  : workerDelegate * result (option (list MachineDeployment)) :=
  match machineDeployments w with
  | None =>
      match generateMachineConfig w with
      | (w', Ok _) => (w', Ok (machineDeployments w'))
      | (w', Err e) => (w', Err e)
      | (w', Panic) => (w', Panic)
      end
  | Some _ => (w, Ok (machineDeployments w))
  end.

End Delegate.
End worker.

(** ** Package validator (admission webhooks) *)

Module validator.

(** core.Worker and core.Shoot as the validator reads them. *)
Record CoreWorker : Type := mkCoreWorker {
  cwName : string;
  cwProviderConfig : option RawExtension;
  cwDataVolumes : list DataVolume;
  cwRest : Opaque;
}.

Record Shoot : Type := mkShoot {
  shMeta : ObjectMeta;
  shCloudProfileName : string;
  shSecretBindingName : string;
  shNetworking : Opaque;
  shKubernetesVersion : string;
  shInfrastructureConfig : option RawExtension;
  shControlPlaneConfig : option RawExtension;
  shWorkers : list CoreWorker;
}.

(** A client.Object handed to a validator; the interface value nil is
    [None] of [option Object]. *)
Inductive Object : Type :=
| SecretObject (s : Secret)
| ShootObject (s : Shoot)
| OtherObject (typeName : string).

(** fmt's [%T] *)
Definition typeOf (o : option Object) : string :=
  match o with
  | None => "<nil>"
  | Some (SecretObject _) => "*v1.Secret"
  | Some (ShootObject _) => "*core.Shoot"
  | Some (OtherObject t) => t
  end.

(** The collaborators of the validators: the decoding helpers of package
    admission, the API client and the structural checks of package
    validation. *)
Record Env : Type := mkEnv {
  decoder : Decoder;
  lenientDecoder : Decoder;
  DecodeInfrastructureConfig : Decoder -> RawExtension -> fallible InfrastructureConfig;
  DecodeControlPlaneConfig : Decoder -> RawExtension -> fallible ControlPlaneConfig;
  DecodeWorkerConfig : Decoder -> RawExtension -> fallible WorkerConfig;
  DecodeCloudProfileConfig : Decoder -> RawExtension -> fallible CloudProfileConfig;
  GetCloudProfile : string -> fallible CloudProfile;
  LookupSecretBinding : string -> string -> fallible SecretReference;
  LookupSecret : string -> string -> fallible Secret;
  IsSecretInUseByShoot : Secret -> string -> fallible bool;
  kubevirtType : string;
  ValidateCloudProviderSecret : Secret -> fallible unit;
  ValidateNetworking : Opaque -> Path -> ErrorList;
  ValidateInfrastructureConfig : InfrastructureConfig -> Path -> ErrorList;
  ValidateControlPlaneConfig : ControlPlaneConfig -> string -> Path -> ErrorList;
  ValidateWorkers : list CoreWorker -> Path -> ErrorList;
  ValidateWorkerConfig : WorkerConfig -> list DataVolume -> Path -> ErrorList;
  ValidateInfrastructureConfigUpdate :
    InfrastructureConfig -> InfrastructureConfig -> Path -> ErrorList;
  ValidateControlPlaneConfigUpdate :
    ControlPlaneConfig -> ControlPlaneConfig -> Path -> ErrorList;
  ValidateWorkersUpdate : list CoreWorker -> list CoreWorker -> Path -> ErrorList;
  ValidateWorkerConfigUpdate : WorkerConfig -> WorkerConfig -> Path -> ErrorList;
}.

Definition specPath : Path := NewPath "spec".
Definition networkPath : Path := Child specPath "networking".
Definition providerPath : Path := Child specPath "provider".
Definition infrastructureConfigPath : Path := Child providerPath "infrastructureConfig".
Definition controlPlaneConfigPath : Path := Child providerPath "controlPlaneConfig".
Definition workersPath : Path := Child providerPath "workers".
Definition workerConfigPath (index : nat) : Path :=
  Child (Index workersPath index) "providerConfig".

Record workerConfigContext : Type := mkWorkerConfigContext {
  workerConfig : WorkerConfig;
  dataVolumes : list DataVolume;
}.

Record validationContext : Type := mkValidationContext {
  shoot : Shoot;
  infrastructureConfig : InfrastructureConfig;
  controlPlaneConfig : ControlPlaneConfig;
  workerConfigsContexts : list workerConfigContext;
  cloudProfile : CloudProfile;
  cloudProfileConfig : CloudProfileConfig;
}.

Section Validators.
Variable env : Env.

(** *** The secret validator: [(s *secret) Validate] *)

Definition secretValidate (newObj oldObj : option Object) : result unit :=
  match newObj with
  | Some (SecretObject secret) =>
      let checkInUse : result unit :=
        isInUse ← wrap "could not check if secret is in use by shoot %w" []
                       (call (IsSecretInUseByShoot env secret (kubevirtType env)));
        if negb isInUse then Ok tt
        else call (ValidateCloudProviderSecret env secret) in
      match oldObj with
      | Some old =>
          match old with
          | SecretObject oldSecret =>
              if bool_decide (secData secret = secData oldSecret) then Ok tt
              else checkInUse
          | _ => Err (Errorf "wrong object type %T for old object" [typeOf oldObj])
          end
      | None => checkInUse
      end
  | _ => Err (Errorf "wrong object type %T" [typeOf newObj])
  end.

(** *** The shoot validator *)

Definition validateContext (valContext : validationContext) : ErrorList :=
  let allErrors : ErrorList := [] in
  let allErrors := allErrors ++
    ValidateNetworking env (shNetworking (shoot valContext)) networkPath in
  let allErrors := allErrors ++
    ValidateInfrastructureConfig env (infrastructureConfig valContext)
      infrastructureConfigPath in
  let allErrors := allErrors ++
    ValidateControlPlaneConfig env (controlPlaneConfig valContext)
      (shKubernetesVersion (shoot valContext)) controlPlaneConfigPath in
  let allErrors := allErrors ++
    ValidateWorkers env (shWorkers (shoot valContext)) workersPath in
  rangeFold (fun i workerConfigContext allErrors =>
               allErrors ++
               ValidateWorkerConfig env (workerConfig workerConfigContext)
                 (dataVolumes workerConfigContext) (workerConfigPath i))
            0%nat (workerConfigsContexts valContext) allErrors.

Definition newValidationContext (shoot : Shoot) (decoder : Decoder)
  : result validationContext :=
  infrastructureConfig ←
    match shInfrastructureConfig shoot with
    | Some raw =>
        wrap "could not decode infrastructureConfig of shoot %q %w" [Name (shMeta shoot)]
             (call (DecodeInfrastructureConfig env decoder raw))
    | None => Ok zeroInfrastructureConfig
    end;
  controlPlaneConfig ←
    match shControlPlaneConfig shoot with
    | Some raw =>
        wrap "could not decode controlPlaneConfig of shoot %q %w" [Name (shMeta shoot)]
             (call (DecodeControlPlaneConfig env decoder raw))
    | None => Ok zeroControlPlaneConfig
    end;
  workerConfigsContexts ←
    foldM (fun (workerConfigsContexts : list workerConfigContext) (worker : CoreWorker) =>
             workerConfig ←
               match cwProviderConfig worker with
               | Some raw =>
                   wrap "could not decode providerConfig of worker %q %w" [cwName worker]
                        (call (DecodeWorkerConfig env decoder raw))
               | None => Ok zeroWorkerConfig
               end;
             Ok (workerConfigsContexts ++
                   [{| workerConfig := workerConfig;
                       dataVolumes := cwDataVolumes worker |}]))
          (shWorkers shoot) [];
  (* on failure the message names the still empty cloud profile object *)
  cloudProfile ← wrap "could not get cloud profile %q %w" [""]
                      (call (GetCloudProfile env (shCloudProfileName shoot)));
  match cpProviderConfig cloudProfile with
  | None => Err (Errorf "missing providerConfig in cloud profile %q" [Name (cpMeta cloudProfile)])
  | Some raw =>
      cloudProfileConfig ←
        wrap "could not decode providerConfig of cloud profile %q %w"
             [Name (cpMeta cloudProfile)]
             (call (DecodeCloudProfileConfig env decoder raw));
      Ok {| shoot := shoot;
            infrastructureConfig := infrastructureConfig;
            controlPlaneConfig := controlPlaneConfig;
            workerConfigsContexts := workerConfigsContexts;
            cloudProfile := cloudProfile;
            cloudProfileConfig := cloudProfileConfig |}
  end.

Definition validateShootSecret (shoot : Shoot) : result unit :=
  secretRef ← wrap "could not find secret binding %q %w"
                   [Namespace (shMeta shoot) +:+ "/" +:+ shSecretBindingName shoot]
                   (call (LookupSecretBinding env (Namespace (shMeta shoot))
                            (shSecretBindingName shoot)));
  secret ← wrap "could not find secret %q %w"
                [refNamespace secretRef +:+ "/" +:+ refName secretRef]
                (call (LookupSecret env (refNamespace secretRef) (refName secretRef)));
  call (ValidateCloudProviderSecret env secret).

Definition validateCreate (shoot : Shoot) : result unit :=
  validationContext ← newValidationContext shoot (decoder env);
  _ ← ToAggregate (validateContext validationContext);
  validateShootSecret shoot.

(** [shoot.Spec.Provider.Workers[i].Name]; an index out of range panics. *)
Definition workerNameAt (shoot : Shoot) (i : nat) : result string :=
  match shWorkers shoot !! i with
  | Some worker => Ok (cwName worker)
  | None => Panic
  end.

(** validateUpdate between the construction of the two contexts and the
    final [ToAggregate]. *)
Definition validateUpdateErrors (oldShoot shoot : Shoot)
    (oldValContext currentValContext : validationContext) : result ErrorList :=
  let oldInfrastructureConfig := infrastructureConfig oldValContext in
  let currentInfrastructureConfig := infrastructureConfig currentValContext in
  let oldControlPlaneConfig := controlPlaneConfig oldValContext in
  let currentControlPlaneConfig := controlPlaneConfig currentValContext in
  let allErrors : ErrorList := [] in
  let allErrors :=
    if bool_decide (oldInfrastructureConfig ≠ currentInfrastructureConfig) then
      allErrors ++ ValidateInfrastructureConfigUpdate env oldInfrastructureConfig
                     currentInfrastructureConfig infrastructureConfigPath
    else allErrors in
  let allErrors :=
    if bool_decide (oldControlPlaneConfig ≠ currentControlPlaneConfig) then
      allErrors ++ ValidateControlPlaneConfigUpdate env oldControlPlaneConfig
                     currentControlPlaneConfig controlPlaneConfigPath
    else allErrors in
  let allErrors := allErrors ++
    ValidateWorkersUpdate env (shWorkers (validator.shoot oldValContext))
      (shWorkers (validator.shoot currentValContext)) workersPath in
  allErrors ←
    rangeFoldM (fun i currentContext allErrors =>
      let currentWorkerConfig := workerConfig currentContext in
      rangeFoldM (fun j oldContext allErrors =>
        let oldWorkerConfig := workerConfig oldContext in
        currentName ← workerNameAt shoot i;
        oldName ← workerNameAt oldShoot j;
        if bool_decide (currentName = oldName)
           && bool_decide (oldWorkerConfig ≠ currentWorkerConfig) then
          Ok (allErrors ++ ValidateWorkerConfigUpdate env currentWorkerConfig
                             oldWorkerConfig (workerConfigPath i))
        else Ok allErrors)
        0%nat (workerConfigsContexts oldValContext) allErrors)
      0%nat (workerConfigsContexts currentValContext) allErrors;
  Ok (allErrors ++ validateContext currentValContext).

Definition validateUpdate (oldShoot shoot : Shoot) : result unit :=
  oldValContext ← newValidationContext oldShoot (lenientDecoder env);
  currentValContext ← newValidationContext shoot (decoder env);
  allErrors ← validateUpdateErrors oldShoot shoot oldValContext currentValContext;
  ToAggregate allErrors.

(** [(s *shoot) Validate] *)
Definition shootValidate (new old : option Object) : result unit :=
  match new with
  | Some (ShootObject shoot) =>
      match old with
      | Some o =>
          match o with
          | ShootObject oldShoot => validateUpdate oldShoot shoot
          | _ => Err (Errorf "wrong object type %T for old object" [typeOf old])
          end
      | None => validateCreate shoot
      end
  | _ => Err (Errorf "wrong object type %T" [typeOf new])
  end.

End Validators.
End validator.

(** ** A concrete cluster, used to exercise the definitions *)

Module example.

Definition b (s : string) : bytes := list_byte_of_string s.

(** Decodes two worker configs and rejects every other worker payload. *)
Definition decoder : Decoder :=
  {| decodeCloudProfileConfig := fun _ => inr zeroCloudProfileConfig;
     decodeInfrastructureConfig := fun _ => inr zeroInfrastructureConfig;
     decodeControlPlaneConfig := fun _ => inr zeroControlPlaneConfig;
     decodeWorkerConfig := fun raw =>
       if bool_decide (raw = b "disablePreAllocatedDataVolumes: true") then
         inr (mkWorkerConfig None None None "" None false true)
       else if bool_decide (raw = b "dnsPolicy: ClusterFirst") then
         inr (mkWorkerConfig None None None "ClusterFirst" None false false)
       else inl (ExternalError "unknown field");
     decodeInfrastructureStatus := fun raw =>
       if bool_decide (raw = b "networks: [default]") then
         inr (mkInfrastructureStatus [mkNetworkStatus "default" true "1f2e"])
       else inl (ExternalError "unknown field");
     decodeWorkerStatus := fun _ => inr zeroWorkerStatus |}.

Definition env : worker.Env :=
  {| worker.GetSecretByReference := fun _ =>
       inr (mkSecret (mkMeta "garden" "cloudprovider") {[ "kubeconfig" := b "kubeconfig-data" ]});
     worker.clientFactoryGetClient := fun _ => inr "provider-ns";
     worker.decoder := decoder;
     worker.SchemeGroupVersion := "kubevirt.provider.extensions.gardener.cloud/v1alpha1";
     worker.schemeConvert := fun status out =>
       inr (worker.mkStatusV1alpha1 (worker.v1APIVersion out) (worker.v1Kind out)
              (Networks status));
     worker.WorkerPoolHash := fun pool _ _ => inr ("h" +:+ poolMachineType pool);
     worker.getMachineImageURL := fun _ name version =>
       inr ("https://images.example/" +:+ name +:+ "-" +:+ version);
     worker.ParseQuantity := fun size =>
       if bool_decide (size = "20Gi") then inr (mkQuantity 20)
       else inl (ExternalError "quantities must match the regular expression");
     worker.ReadMachineConfiguration := fun _ => None;
     worker.percentRoundUp := true;
     worker.chartApply := fun _ _ _ _ => inr tt;
     worker.ClusterLabel := "kubevirt.provider.extensions.gardener.cloud/cluster";
     worker.CreateOrUpdateDataVolume := fun _ _ _ _ => inr tt |}.

Definition cloudProfile : CloudProfile :=
  {| cpMeta := mkMeta "" "kubevirt";
     cpMachineTypes :=
       [mkMachineType "standard-1" (mkQuantity 2) (mkQuantity 8)
          (Some (mkStorage "default" (Some (mkQuantity 8))));
        mkMachineType "standard-2" (mkQuantity 4) (mkQuantity 16) None];
     cpVolumeTypes := [mkVolumeType "default" "standard"];
     cpProviderConfig := None |}.

(** The pool of the specification's example scenario. *)
Definition poolA : WorkerPool :=
  {| poolName := "pool-a";
     poolMachineType := "standard-1";
     poolImageName := "ubuntu";
     poolImageVersion := "18.04";
     poolVolume := None;
     poolDataVolumes := [];
     poolZones := ["z1"; "z2"];
     poolMinimum := 4;
     poolMaximum := 6;
     poolMaxSurge := PercentVal 50;
     poolMaxUnavailable := IntVal 0;
     poolLabels := ∅;
     poolAnnotations := ∅;
     poolTaints := [];
     poolProviderConfig := None;
     poolUserData := b "#cloud-config" |}.

(** A pool with an explicit volume and pre-allocation switched off. *)
Definition poolB : WorkerPool :=
  {| poolName := "pool-b";
     poolMachineType := "standard-2";
     poolImageName := "ubuntu";
     poolImageVersion := "18.04";
     poolVolume := Some (mkVolume (Some "default") "20Gi");
     poolDataVolumes := [mkDataVolume "data" (Some "default") "20Gi"];
     poolZones := ["z1"];
     poolMinimum := 1;
     poolMaximum := 2;
     poolMaxSurge := IntVal 1;
     poolMaxUnavailable := IntVal 0;
     poolLabels := ∅;
     poolAnnotations := ∅;
     poolTaints := [];
     poolProviderConfig := Some (mkRaw (Some (b "disablePreAllocatedDataVolumes: true")));
     poolUserData := b "#cloud-config" |}.

(** A pool of machine type [standard-2] (no built-in storage) without a volume. *)
Definition poolNoVolume : WorkerPool :=
  {| poolName := "pool-c";
     poolMachineType := "standard-2";
     poolImageName := "ubuntu";
     poolImageVersion := "18.04";
     poolVolume := None;
     poolDataVolumes := [];
     poolZones := ["z1"];
     poolMinimum := 1;
     poolMaximum := 1;
     poolMaxSurge := IntVal 1;
     poolMaxUnavailable := IntVal 0;
     poolLabels := ∅;
     poolAnnotations := ∅;
     poolTaints := [];
     poolProviderConfig := None;
     poolUserData := [] |}.

(** A pool of a machine type the cloud profile does not have. *)
Definition poolUnknownType : WorkerPool :=
  {| poolName := "pool-d";
     poolMachineType := "standard-9";
     poolImageName := "ubuntu";
     poolImageVersion := "18.04";
     poolVolume := None;
     poolDataVolumes := [];
     poolZones := ["z1"];
     poolMinimum := 1;
     poolMaximum := 1;
     poolMaxSurge := IntVal 1;
     poolMaxUnavailable := IntVal 0;
     poolLabels := ∅;
     poolAnnotations := ∅;
     poolTaints := [];
     poolProviderConfig := None;
     poolUserData := [] |}.

Definition workerOf (sshPublicKey : bytes) (pools : list WorkerPool) : Worker :=
  {| wMeta := mkMeta "shoot--dev--demo" "demo";
     wRegion := "europe";
     wSecretRef := mkSecretRef "shoot--dev--demo" "cloudprovider";
     wSSHPublicKey := sshPublicKey;
     wInfrastructureProviderStatus := Some (mkRaw (Some (b "networks: [default]")));
     wPools := pools;
     wProviderStatus := None |}.

(** A delegate that has not generated anything yet. *)
Definition delegateOf (sshPublicKey : bytes) (pools : list WorkerPool) : worker.workerDelegate :=
  {| worker.worker := workerOf sshPublicKey pools;
     worker.cluster := mkCluster cloudProfile None;
     worker.cloudProfileConfig := None;
     worker.machineClasses := None;
     worker.machineDeployments := None;
     worker.machineImages := [];
     worker.machineClassVolumes := ∅ |}.

Definition delegate : worker.workerDelegate := delegateOf (b "ssh-rsa AAAA") [poolA; poolB].

End example.

(** ** Vocabulary of the properties *)

(** An absent payload: a nil [*RawExtension], or one whose [Raw] is nil. *)
Definition absent (pc : option RawExtension) : Prop :=
  pc = None \/ pc = Some (mkRaw None).

(** The two halves of the extractor contract, for an extractor [get] that
    reads the payload [pc o] of its argument and decodes it with [decode]:
    an absent payload gives the zero value, and an error comes only from a
    present payload that [decode] rejects. *)
Definition absent_gives_zero {O T : Type} (get : O -> result T) (pc : O -> option RawExtension)
    (zero : T) : Prop :=
  forall o, absent (pc o) -> get o = Ok zero.

Definition error_only_from_decode {O T : Type} (get : O -> result T)
    (pc : O -> option RawExtension) (decode : bytes -> fallible T) : Prop :=
  forall o e, get o = Err e ->
    exists raw inner, pc o = Some (mkRaw (Some raw)) /\ decode raw = inl inner.


(** The validators' environment with another check of the secret's
    kubeconfig; everything else is kept. *)
Definition withSecretCheck (check : Secret -> fallible unit) (env : validator.Env)
  : validator.Env :=
  {| validator.decoder := validator.decoder env;
     validator.lenientDecoder := validator.lenientDecoder env;
     validator.DecodeInfrastructureConfig := validator.DecodeInfrastructureConfig env;
     validator.DecodeControlPlaneConfig := validator.DecodeControlPlaneConfig env;
     validator.DecodeWorkerConfig := validator.DecodeWorkerConfig env;
     validator.DecodeCloudProfileConfig := validator.DecodeCloudProfileConfig env;
     validator.GetCloudProfile := validator.GetCloudProfile env;
     validator.LookupSecretBinding := validator.LookupSecretBinding env;
     validator.LookupSecret := validator.LookupSecret env;
     validator.IsSecretInUseByShoot := validator.IsSecretInUseByShoot env;
     validator.kubevirtType := validator.kubevirtType env;
     validator.ValidateCloudProviderSecret := check;
     validator.ValidateNetworking := validator.ValidateNetworking env;
     validator.ValidateInfrastructureConfig := validator.ValidateInfrastructureConfig env;
     validator.ValidateControlPlaneConfig := validator.ValidateControlPlaneConfig env;
     validator.ValidateWorkers := validator.ValidateWorkers env;
     validator.ValidateWorkerConfig := validator.ValidateWorkerConfig env;
     validator.ValidateInfrastructureConfigUpdate :=
       validator.ValidateInfrastructureConfigUpdate env;
     validator.ValidateControlPlaneConfigUpdate := validator.ValidateControlPlaneConfigUpdate env;
     validator.ValidateWorkersUpdate := validator.ValidateWorkersUpdate env;
     validator.ValidateWorkerConfigUpdate := validator.ValidateWorkerConfigUpdate env |}.

(** The data of the new secret differs from what was stored: there is no
    old object, or the old secret's data is not equal. *)
Definition dataChanged (secret : Secret) (oldObj : option validator.Object) : Prop :=
  match oldObj with
  | Some (validator.SecretObject oldSecret) => secData secret <> secData oldSecret
  | Some _ => False
  | None => True
  end.


(** The delegate with the pools of its worker replaced. *)
Definition withPools (pools : list WorkerPool) (w : worker.workerDelegate)
  : worker.workerDelegate :=
  {| worker.worker :=
       {| wMeta := wMeta (worker.worker w);
          wRegion := wRegion (worker.worker w);
          wSecretRef := wSecretRef (worker.worker w);
          wSSHPublicKey := wSSHPublicKey (worker.worker w);
          wInfrastructureProviderStatus := wInfrastructureProviderStatus (worker.worker w);
          wPools := pools;
          wProviderStatus := wProviderStatus (worker.worker w) |};
     worker.cluster := worker.cluster w;
     worker.cloudProfileConfig := worker.cloudProfileConfig w;
     worker.machineClasses := worker.machineClasses w;
     worker.machineDeployments := worker.machineDeployments w;
     worker.machineImages := worker.machineImages w;
     worker.machineClassVolumes := worker.machineClassVolumes w |}.

(** The delegate after its inputs (worker, cluster, cloud profile config)
    were replaced; the four generated fields are kept. *)
Definition withInputs (worker' : Worker) (cluster' : Cluster)
    (cloudProfileConfig' : option CloudProfileConfig) (w : worker.workerDelegate)
  : worker.workerDelegate :=
  {| worker.worker := worker';
     worker.cluster := cluster';
     worker.cloudProfileConfig := cloudProfileConfig';
     worker.machineClasses := worker.machineClasses w;
     worker.machineDeployments := worker.machineDeployments w;
     worker.machineImages := worker.machineImages w;
     worker.machineClassVolumes := worker.machineClassVolumes w |}.


(** The elements of a slice that may be nil. *)
Definition elements_of {A : Type} (s : option (list A)) : list A := default [] s.

(** What the zone loop emits for the zone of index [zoneIndex] of a pool
    whose per-pool values are [pv]. *)
Definition deploymentAt (env : worker.Env) (w : worker.workerDelegate) (pool : WorkerPool)
    (pv : worker.PoolValues) (zoneIndex : nat) : MachineDeployment :=
  worker.machineDeploymentOf env pool
    (worker.deploymentNameOf w pool zoneIndex)
    (worker.classNameOf w pool (worker.pvHash pv) zoneIndex)
    (int32 (Z.of_nat zoneIndex)) (int32 (Z.of_nat (length (poolZones pool)))).

Definition classAt (env : worker.Env) (w : worker.workerDelegate) (rc : worker.RunContext)
    (pool : WorkerPool) (pv : worker.PoolValues) (zoneIndex : nat) (zone : string)
  : MachineClass :=
  let className := worker.classNameOf w pool (worker.pvHash pv) zoneIndex in
  worker.machineClassOf w rc pool pv className zone
    (fst (worker.rootVolumeOf rc pv className ∅)).

Definition poolDeployments (env : worker.Env) (w : worker.workerDelegate)
    (ppv : WorkerPool * worker.PoolValues) : list MachineDeployment :=
  imap (fun i _ => deploymentAt env w ppv.1 ppv.2 i) (poolZones ppv.1).

Definition poolClasses (env : worker.Env) (w : worker.workerDelegate) (rc : worker.RunContext)
    (ppv : WorkerPool * worker.PoolValues) : list MachineClass :=
  imap (fun i zone => classAt env w rc ppv.1 ppv.2 i zone) (poolZones ppv.1).

(** The machine class volume that goes with a pool's pre-allocated root
    volumes. *)
Definition companionVolume (pv : worker.PoolValues) : DataVolumeSpec :=
  worker.buildDataVolumeSpecWithHTTPSource (worker.pvRootVolumeClassName pv)
    (worker.pvRootVolumeSize pv) (worker.pvImageSourceURL pv).

Definition insertAll {V : Type} (keys : list string) (v : V) (m : gmap string V) : gmap string V :=
  fold_left (fun m k => <[k := v]> m) keys m.

(** One iteration of the pool loop, given the per-pool values. *)
Definition poolStep (env : worker.Env) (w : worker.workerDelegate) (rc : worker.RunContext)
    (acc : worker.Acc) (ppv : WorkerPool * worker.PoolValues) : worker.Acc :=
  rangeFold (worker.zoneBody env w rc ppv.1 ppv.2) 0%nat (poolZones ppv.1)
    {| worker.accDeployments := worker.accDeployments acc;
       worker.accClasses := worker.accClasses acc;
       worker.accImages :=
         worker.appendMachineImage (worker.accImages acc)
           {| imgName := poolImageName ppv.1;
              imgVersion := poolImageVersion ppv.1;
              imgSourceURL := worker.pvImageSourceURL ppv.2 |};
       worker.accVolumes := worker.accVolumes acc |}.

(** How many of the three source kinds a data volume source has set. *)
Definition sourcesSet (source : DataVolumeSource) : nat :=
  ((if sourceHTTP source is Some _ then 1 else 0)
   + (if sourcePVC source is Some _ then 1 else 0)
   + (if sourceBlank source is Some _ then 1 else 0))%nat.

Definition httpSourced (spec : DataVolumeSpec) : Prop :=
  exists url, dvsSource spec = mkSource (Some (mkSourceHTTP url)) None None.

Definition pvcSourced (namespace name : string) (spec : DataVolumeSpec) : Prop :=
  dvsSource spec = mkSource None (Some (mkSourcePVC namespace name)) None.

Definition blankSourced (spec : DataVolumeSpec) : Prop :=
  dvsSource spec = mkSource None None (Some tt).


(** The names the specification gives to the deployments and classes of a
    pool with the given hash: for the zone of 0-based index [i], the
    deployment name [{namespace}-{poolName}-z{i+1}], and the class name
    (also the secret name), which is the deployment name followed by [-]
    and the hash. *)
Definition expectedNames (namespace : string) (ph : WorkerPool * string)
  : list (string * string * string) :=
  imap (fun i _ =>
          let deploymentName := namespace +:+ "-" +:+ poolName ph.1 +:+ "-z" +:+ itoa (i + 1) in
          let className := deploymentName +:+ "-" +:+ ph.2 in
          (deploymentName, className, className))
       (poolZones ph.1).

Definition namesOf (d : MachineDeployment) : string * string * string :=
  (mdName d, mdClassName d, mdSecretName d).


(** The machine class volumes are exactly the companions of the classes
    with a PVC-sourced root volume: every entry is HTTP-sourced and is
    filed under the name of such a class, and every such class has one. *)
Definition volumesConsistent (namespace : string) (classes : list MachineClass)
    (volumes : gmap string DataVolumeSpec) : Prop :=
  (forall name v, volumes !! name = Some v ->
     httpSourced v /\
     exists c, c ∈ classes /\ mcName c = name /\ pvcSourced namespace name (mcRootVolume c)) /\
  (forall c, c ∈ classes -> is_Some (sourcePVC (dvsSource (mcRootVolume c))) ->
     is_Some (volumes !! mcName c)).


(** The pool's machine type name is not in the cloud profile's catalog. *)
Definition unknownMachineType (w : worker.workerDelegate) (pool : WorkerPool) : Prop :=
  poolMachineType pool ∉ (mtName <$> cpMachineTypes (clCloudProfile (worker.cluster w))).

Definition machineTypeNotFound (name : string) : error :=
  Errorf "machine type %q not found in cloud profile" [name].

Definition missingVolume : error :=
  ErrorNew "missing volume in worker pool and storage in machine type".

(** Every volume the pool declares names its volume type. *)
Definition declaresVolumeTypes (pool : WorkerPool) : Prop :=
  (forall volume, poolVolume pool = Some volume -> volType volume <> None) /\
  Forall (fun volume => dvType volume <> None) (poolDataVolumes pool).

(** The machine type has no built-in storage with a storage size. *)
Definition noBuiltinStorage (machineType : MachineType) : Prop :=
  mtStorage machineType = None \/
  exists class, mtStorage machineType = Some (mkStorage class None).

(** The specification's reading of the fail-fast rule, as it stands: a
    pool of unknown machine type makes the run return the not-found error
    and leave the delegate as it was. *)
Definition unknown_type_returns_not_found : Prop :=
  forall env w pool,
    pool ∈ wPools (worker.worker w) -> unknownMachineType w pool ->
    exists name, worker.generateMachineConfig env w = (w, Err (machineTypeNotFound name)).


Definition sumList (l : list Z) : Z := foldr Z.add 0 l.

(** The sum of the shares of the zones of index 0 .. zoneCount-1. *)
Definition sumZones (share : Z -> Z) (zoneCount : nat) : Z :=
  sumList ((fun i : nat => share (Z.of_nat i)) <$> seq 0 zoneCount).

(** The conservation contract of the zone distributor for a total spread
    over [zoneCount] zones: the shares add up to the total, none is
    negative, a total of 0 gives 0 everywhere, and the shares never grow
    with the zone index and differ by at most one, so that the remainder
    sits with the earliest zones. *)
Definition conserves (share : Z -> Z) (total : Z) (zoneCount : nat) : Prop :=
  sumZones share zoneCount = total /\
  (forall i, 0 <= i < Z.of_nat zoneCount -> 0 <= share i) /\
  (total = 0 -> forall i, 0 <= i < Z.of_nat zoneCount -> share i = 0) /\
  (forall i j, 0 <= i <= j -> share j <= share i <= share j + 1).

Definition nonNegative (v : IntOrPercent) : Prop :=
  match v with
  | IntVal n => 0 <= n
  | PercentVal p => 0 <= p
  end.

Definition boundsOf (d : MachineDeployment) : Z * Z * Z * Z :=
  (mdMinimum d, mdMaximum d, mdMaxSurge d, mdMaxUnavailable d).


(** The validators' environment with another structural check of worker
    configs; everything else is kept. *)
Definition withWorkerConfigCheck
    (check : WorkerConfig -> list DataVolume -> Path -> ErrorList) (env : validator.Env)
  : validator.Env :=
  {| validator.decoder := validator.decoder env;
     validator.lenientDecoder := validator.lenientDecoder env;
     validator.DecodeInfrastructureConfig := validator.DecodeInfrastructureConfig env;
     validator.DecodeControlPlaneConfig := validator.DecodeControlPlaneConfig env;
     validator.DecodeWorkerConfig := validator.DecodeWorkerConfig env;
     validator.DecodeCloudProfileConfig := validator.DecodeCloudProfileConfig env;
     validator.GetCloudProfile := validator.GetCloudProfile env;
     validator.LookupSecretBinding := validator.LookupSecretBinding env;
     validator.LookupSecret := validator.LookupSecret env;
     validator.IsSecretInUseByShoot := validator.IsSecretInUseByShoot env;
     validator.kubevirtType := validator.kubevirtType env;
     validator.ValidateCloudProviderSecret := validator.ValidateCloudProviderSecret env;
     validator.ValidateNetworking := validator.ValidateNetworking env;
     validator.ValidateInfrastructureConfig := validator.ValidateInfrastructureConfig env;
     validator.ValidateControlPlaneConfig := validator.ValidateControlPlaneConfig env;
     validator.ValidateWorkers := validator.ValidateWorkers env;
     validator.ValidateWorkerConfig := check;
     validator.ValidateInfrastructureConfigUpdate :=
       validator.ValidateInfrastructureConfigUpdate env;
     validator.ValidateControlPlaneConfigUpdate := validator.ValidateControlPlaneConfigUpdate env;
     validator.ValidateWorkersUpdate := validator.ValidateWorkersUpdate env;
     validator.ValidateWorkerConfigUpdate := validator.ValidateWorkerConfigUpdate env |}.

(** An update of a shoot with the pools "a" and "b", both versions of
    which decode, where pool "a" keeps the worker config [configA] and only
    the worker config of pool "b" differs. *)
Definition onlyPoolBChanged (env : validator.Env) (oldShoot shoot : validator.Shoot)
    (configA : WorkerConfig) : Prop :=
  exists oldValContext currentValContext oldConfigB configB,
    validator.newValidationContext env oldShoot (validator.lenientDecoder env)
      = Ok oldValContext /\
    validator.newValidationContext env shoot (validator.decoder env) = Ok currentValContext /\
    validator.cwName <$> validator.shWorkers oldShoot = ["a"; "b"] /\
    validator.cwName <$> validator.shWorkers shoot = ["a"; "b"] /\
    validator.workerConfig <$> validator.workerConfigsContexts oldValContext
      = [configA; oldConfigB] /\
    validator.workerConfig <$> validator.workerConfigsContexts currentValContext
      = [configA; configB] /\
    oldConfigB <> configB.

(** The specification's reading of the scoping rule, as it stands: on such
    an update the structural check of worker configs is not run on pool
    "a"'s config, so that what the check would answer for that config has
    no bearing on the outcome. *)
Definition unchanged_pool_not_revalidated : Prop :=
  forall env check oldShoot shoot configA,
    onlyPoolBChanged env oldShoot shoot configA ->
    (forall config dataVolumes path,
       config <> configA ->
       check config dataVolumes path = validator.ValidateWorkerConfig env config dataVolumes path) ->
    validator.validateUpdate (withWorkerConfigCheck check env) oldShoot shoot
    = validator.validateUpdate env oldShoot shoot.

(** The errors of the update checks of the two config sections of the
    shoot, each run only when the decoded section differs. *)
Definition sectionUpdateErrors (env : validator.Env)
    (oldValContext currentValContext : validator.validationContext) : ErrorList :=
  (if bool_decide (validator.infrastructureConfig oldValContext
                   <> validator.infrastructureConfig currentValContext)
   then validator.ValidateInfrastructureConfigUpdate env
          (validator.infrastructureConfig oldValContext)
          (validator.infrastructureConfig currentValContext) validator.infrastructureConfigPath
   else [])
  ++
  (if bool_decide (validator.controlPlaneConfig oldValContext
                   <> validator.controlPlaneConfig currentValContext)
   then validator.ValidateControlPlaneConfigUpdate env
          (validator.controlPlaneConfig oldValContext)
          (validator.controlPlaneConfig currentValContext) validator.controlPlaneConfigPath
   else []).

(** The errors of the checks that validateContext runs on the shoot as a
    whole, before it turns to the worker configs. *)
Definition shootErrors (env : validator.Env) (valContext : validator.validationContext)
  : ErrorList :=
  validator.ValidateNetworking env (validator.shNetworking (validator.shoot valContext))
    validator.networkPath
  ++ validator.ValidateInfrastructureConfig env (validator.infrastructureConfig valContext)
       validator.infrastructureConfigPath
  ++ validator.ValidateControlPlaneConfig env (validator.controlPlaneConfig valContext)
       (validator.shKubernetesVersion (validator.shoot valContext))
       validator.controlPlaneConfigPath
  ++ validator.ValidateWorkers env (validator.shWorkers (validator.shoot valContext))
       validator.workersPath.

Module example_admission.

Definition configOf (dnsPolicy : string) : WorkerConfig :=
  mkWorkerConfig None None None dnsPolicy None false false.

(** Decodes a worker payload into a config with that DNS policy;
    every check accepts everything. *)
Definition env : validator.Env :=
  {| validator.decoder := example.decoder;
     validator.lenientDecoder := example.decoder;
     validator.DecodeInfrastructureConfig := fun _ _ => inr zeroInfrastructureConfig;
     validator.DecodeControlPlaneConfig := fun _ _ => inr zeroControlPlaneConfig;
     validator.DecodeWorkerConfig := fun _ raw =>
       match Raw raw with
       | Some payload => inr (configOf (string_of_list_byte payload))
       | None => inl (ExternalError "empty payload")
       end;
     validator.DecodeCloudProfileConfig := fun _ _ => inr zeroCloudProfileConfig;
     validator.GetCloudProfile := fun _ =>
       inr (mkCloudProfile (mkMeta "" "kubevirt") [] [] (Some (mkRaw (Some []))));
     validator.LookupSecretBinding := fun _ _ => inr (mkSecretRef "garden" "cloudprovider");
     validator.LookupSecret := fun _ _ => inr (mkSecret (mkMeta "garden" "cloudprovider") ∅);
     validator.IsSecretInUseByShoot := fun secret _ =>
       inr (bool_decide (Name (secMeta secret) = "cloudprovider"));
     validator.kubevirtType := "kubevirt";
     validator.ValidateCloudProviderSecret := fun secret =>
       match secData secret !! "kubeconfig" with
       | Some _ => inr tt
       | None => inl (ExternalError "missing kubeconfig")
       end;
     validator.ValidateNetworking := fun _ _ => [];
     validator.ValidateInfrastructureConfig := fun _ _ => [];
     validator.ValidateControlPlaneConfig := fun _ _ _ => [];
     validator.ValidateWorkers := fun _ _ => [];
     validator.ValidateWorkerConfig := fun _ _ _ => [];
     validator.ValidateInfrastructureConfigUpdate := fun _ _ _ => [];
     validator.ValidateControlPlaneConfigUpdate := fun _ _ _ => [];
     validator.ValidateWorkersUpdate := fun _ _ _ => [];
     validator.ValidateWorkerConfigUpdate := fun _ _ _ => [] |}.

(** A structural check that rejects the config with the DNS policy
    [Bogus], and that config only. *)
Definition rejectBogus (config : WorkerConfig) (dataVolumes : list DataVolume) (path : Path)
  : ErrorList :=
  if bool_decide (config = configOf "Bogus")
  then [mkFieldError "FieldValueInvalid" path "unsupported dnsPolicy"]
  else [].

Definition workerOf (name dnsPolicy : string) : validator.CoreWorker :=
  {| validator.cwName := name;
     validator.cwProviderConfig := Some (mkRaw (Some (example.b dnsPolicy)));
     validator.cwDataVolumes := [];
     validator.cwRest := None |}.

Definition shootOf (workers : list validator.CoreWorker) : validator.Shoot :=
  {| validator.shMeta := mkMeta "garden-dev" "demo";
     validator.shCloudProfileName := "kubevirt";
     validator.shSecretBindingName := "cloudprovider";
     validator.shNetworking := None;
     validator.shKubernetesVersion := "1.20.4";
     validator.shInfrastructureConfig := None;
     validator.shControlPlaneConfig := None;
     validator.shWorkers := workers |}.

(** Pool "a" keeps its config; pool "b" changes its DNS policy. *)
Definition oldShoot : validator.Shoot :=
  shootOf [workerOf "a" "Bogus"; workerOf "b" "ClusterFirst"].
Definition newShoot : validator.Shoot :=
  shootOf [workerOf "a" "Bogus"; workerOf "b" "Default"].

Definition secretOf (name : string) (data : gmap string bytes) : Secret :=
  mkSecret (mkMeta "garden" name) data.

End example_admission.


Module example_runs.

(** The delegate after generating for the example cluster. *)
Definition generated : worker.workerDelegate :=
  fst (worker.generateMachineConfig example.env example.delegate).

(** Some per-pool values for the pool of the example scenario. *)
Definition valuesA : worker.PoolValues :=
  {| worker.pvWorkerConfig := zeroWorkerConfig;
     worker.pvHash := "hstandard-1";
     worker.pvImageSourceURL := "https://images.example/ubuntu-18.04";
     worker.pvResources := mkResources ∅ None false;
     worker.pvRootVolumeClassName := "default";
     worker.pvRootVolumeSize := mkQuantity 8;
     worker.pvAdditionalVolumes := [] |}.

(** A worker without an SSH public key. *)
Definition noKey : worker.workerDelegate := example.delegateOf [] [example.poolA].

(** The example scenario's pool followed by one of unknown machine type. *)
Definition unknownSecond : worker.workerDelegate :=
  example.delegateOf (example.b "ssh-rsa AAAA") [example.poolA; example.poolUnknownType].

(** The example scenario's pool followed by one without any volume. *)
Definition noVolumeSecond : worker.workerDelegate :=
  example.delegateOf (example.b "ssh-rsa AAAA") [example.poolA; example.poolNoVolume].

(** The validation context of a shoot of the admission example. *)
Definition contextOf (sh : validator.Shoot) (contexts : list validator.workerConfigContext)
  : validator.validationContext :=
  {| validator.shoot := sh;
     validator.infrastructureConfig := zeroInfrastructureConfig;
     validator.controlPlaneConfig := zeroControlPlaneConfig;
     validator.workerConfigsContexts := contexts;
     validator.cloudProfile :=
       mkCloudProfile (mkMeta "" "kubevirt") [] [] (Some (mkRaw (Some [])));
     validator.cloudProfileConfig := zeroCloudProfileConfig |}.

Definition oldContext : validator.validationContext :=
  contextOf example_admission.oldShoot
    [validator.mkWorkerConfigContext (example_admission.configOf "Bogus") [];
     validator.mkWorkerConfigContext (example_admission.configOf "ClusterFirst") []].

Definition newContext : validator.validationContext :=
  contextOf example_admission.newShoot
    [validator.mkWorkerConfigContext (example_admission.configOf "Bogus") [];
     validator.mkWorkerConfigContext (example_admission.configOf "Default") []].

End example_runs.


Definition volumeTypeNotFound (name : string) : error :=
  Errorf "volume type %q not found in cloud profile" [name].

(** [x] is the first element of [l] that satisfies [P]. *)
Definition firstWith {A : Type} (P : A -> Prop) (l : list A) (x : A) : Prop :=
  exists pre post, l = pre ++ x :: post /\ P x /\ Forall (fun y => ~ P y) pre.

(** The delegate with another cloud profile config. *)
Definition withCloudProfileConfig (config : option CloudProfileConfig)
    (w : worker.workerDelegate) : worker.workerDelegate :=
  withInputs (worker.worker w) (worker.cluster w) config w.


(** The additional volume that goes with a data volume of the pool: it
    has the data volume's name and is an empty disk of the storage class
    of the data volume's type and of the data volume's size. *)
Definition additionalVolumeFor (env : worker.Env) (w : worker.workerDelegate)
    (volume : DataVolume) (additional : AdditionalVolume) : Prop :=
  exists type volumeType size,
    dvType volume = Some type /\
    worker.getVolumeType w type = Ok volumeType /\
    worker.ParseQuantity env (dvSize volume) = inr size /\
    additional
    = mkAdditionalVolume (dvName volume)
        (worker.buildDataVolumeSpecWithBlankSource (vtClass volumeType) size).

(** The pool names a volume type, for its root volume or for one of its
    data volumes. *)
Definition usesVolumeType (pool : WorkerPool) (type : string) : Prop :=
  (exists size, poolVolume pool = Some (mkVolume (Some type) size)) \/
  (exists volume, volume ∈ poolDataVolumes pool /\ dvType volume = Some type).


Definition missingKubeconfigField : error :=
  Errorf "missing %q field in secret" ["kubeconfig"].

Definition noKubeconfigFromSecret : error :=
  Errorw "could not get kubeconfig from worker secret reference %w" [] missingKubeconfigField.

(** The labels createOrUpdateMachineClassVolumes puts on a data volume. *)
Definition clusterLabels (env : worker.Env) (w : worker.workerDelegate) : gmap string string :=
  {[ worker.ClusterLabel env := Namespace (wMeta (worker.worker w)) ]}.

Module example_more.

(** The example's collaborators with a worker secret that has lost its
    kubeconfig key. *)
Definition envNoKubeconfig : worker.Env :=
  {| worker.GetSecretByReference := fun _ =>
       inr (mkSecret (mkMeta "garden" "cloudprovider") ∅);
     worker.clientFactoryGetClient := worker.clientFactoryGetClient example.env;
     worker.decoder := worker.decoder example.env;
     worker.SchemeGroupVersion := worker.SchemeGroupVersion example.env;
     worker.schemeConvert := worker.schemeConvert example.env;
     worker.WorkerPoolHash := worker.WorkerPoolHash example.env;
     worker.getMachineImageURL := worker.getMachineImageURL example.env;
     worker.ParseQuantity := worker.ParseQuantity example.env;
     worker.ReadMachineConfiguration := worker.ReadMachineConfiguration example.env;
     worker.percentRoundUp := worker.percentRoundUp example.env;
     worker.chartApply := worker.chartApply example.env;
     worker.ClusterLabel := worker.ClusterLabel example.env;
     worker.CreateOrUpdateDataVolume := worker.CreateOrUpdateDataVolume example.env |}.

(** The example's collaborators with a chart applier that fails. *)
Definition envChartFails : worker.Env :=
  {| worker.GetSecretByReference := worker.GetSecretByReference example.env;
     worker.clientFactoryGetClient := worker.clientFactoryGetClient example.env;
     worker.decoder := worker.decoder example.env;
     worker.SchemeGroupVersion := worker.SchemeGroupVersion example.env;
     worker.schemeConvert := worker.schemeConvert example.env;
     worker.WorkerPoolHash := worker.WorkerPoolHash example.env;
     worker.getMachineImageURL := worker.getMachineImageURL example.env;
     worker.ParseQuantity := worker.ParseQuantity example.env;
     worker.ReadMachineConfiguration := worker.ReadMachineConfiguration example.env;
     worker.percentRoundUp := worker.percentRoundUp example.env;
     worker.chartApply := fun _ _ _ _ => inl (ExternalError "apply failed");
     worker.ClusterLabel := worker.ClusterLabel example.env;
     worker.CreateOrUpdateDataVolume := worker.CreateOrUpdateDataVolume example.env |}.

(** A pool whose data volume names a volume type the catalog lacks. *)
Definition poolBadDataVolume : WorkerPool :=
  {| poolName := "pool-e";
     poolMachineType := "standard-1";
     poolImageName := "ubuntu";
     poolImageVersion := "18.04";
     poolVolume := None;
     poolDataVolumes := [mkDataVolume "scratch" (Some "fast") "20Gi"];
     poolZones := ["z1"];
     poolMinimum := 1;
     poolMaximum := 1;
     poolMaxSurge := IntVal 1;
     poolMaxUnavailable := IntVal 0;
     poolLabels := ∅;
     poolAnnotations := ∅;
     poolTaints := [];
     poolProviderConfig := None;
     poolUserData := [] |}.

Definition badDataVolumeSecond : worker.workerDelegate :=
  example.delegateOf (example.b "ssh-rsa AAAA") [example.poolA; poolBadDataVolume].

End example_more.


(** The name of the worker of index [i] of a shoot ([""] out of range). *)
Definition nameAt (sh : validator.Shoot) (i : nat) : string :=
  from_option validator.cwName "" (validator.shWorkers sh !! i).

(** The errors of the structural check of each worker config of a
    validation context, each under the path of its index. *)
Definition workerConfigErrors (env : validator.Env) (valContext : validator.validationContext)
  : ErrorList :=
  concat (imap (fun i c =>
                  validator.ValidateWorkerConfig env (validator.workerConfig c)
                    (validator.dataVolumes c) (validator.workerConfigPath i))
               (validator.workerConfigsContexts valContext)).

(** The errors of the update check of worker configs: for each pool of the
    new shoot, in order, one check against each pool of the old shoot that
    has the same name and a different decoded config, under the path of
    the new pool's index. *)
Definition workerConfigUpdateErrors (env : validator.Env) (oldShoot shoot : validator.Shoot)
    (oldValContext currentValContext : validator.validationContext) : ErrorList :=
  concat (imap (fun i current =>
    concat (imap (fun j old =>
      if bool_decide (nameAt shoot i = nameAt oldShoot j)
         && bool_decide (validator.workerConfig old <> validator.workerConfig current)
      then validator.ValidateWorkerConfigUpdate env (validator.workerConfig current)
             (validator.workerConfig old) (validator.workerConfigPath i)
      else [])
      (validator.workerConfigsContexts oldValContext)))
    (validator.workerConfigsContexts currentValContext)).

(** No pool of the new shoot differs in its decoded config from a pool of
    the same name of the old shoot. *)
Definition noWorkerConfigChanged (oldShoot shoot : validator.Shoot)
    (oldValContext currentValContext : validator.validationContext) : Prop :=
  forall i j current old,
    validator.workerConfigsContexts currentValContext !! i = Some current ->
    validator.workerConfigsContexts oldValContext !! j = Some old ->
    nameAt shoot i = nameAt oldShoot j ->
    validator.workerConfig old = validator.workerConfig current.

(** The worker config context of a worker: the decoded provider config, or
    the zero config when the worker has none, with the worker's data
    volumes. *)
Definition contextFor (env : validator.Env) (dec : Decoder) (worker : validator.CoreWorker)
    (c : validator.workerConfigContext) : Prop :=
  validator.dataVolumes c = validator.cwDataVolumes worker /\
  match validator.cwProviderConfig worker with
  | Some raw => validator.DecodeWorkerConfig env dec raw = inr (validator.workerConfig c)
  | None => validator.workerConfig c = zeroWorkerConfig
  end.


(** The string consists of decimal digits only. *)
Fixpoint allDigits (s : string) : bool :=
  match s with
  | EmptyString => true
  | String a rest =>
      existsb (Ascii.eqb a) ["0"; "1"; "2"; "3"; "4"; "5"; "6"; "7"; "8"; "9"]%char
      && allDigits rest
  end.

(** The token list that is handed to the pool hash: three tokens per
    network of the infrastructure status. *)
Definition networkTokens (status : InfrastructureStatus) : list string :=
  flat_map (fun network =>
              [netName network; FormatBool (netDefault network); netSHA network])
           (Networks status).

(** The specification's reading of the missing-volume rule, as it stands:
    a pool without a volume whose machine type is in the catalog and has no
    built-in storage with a storage size makes the run return the
    missing-volume error. *)
Definition no_volume_returns_missing_volume : Prop :=
  forall env w pool machineType,
    pool ∈ wPools (worker.worker w) ->
    worker.getMachineType w (poolMachineType pool) = Ok machineType ->
    poolVolume pool = None -> noBuiltinStorage machineType ->
    exists w', worker.generateMachineConfig env w = (w', Err missingVolume).

(** [group] holds the classes of the zones of [pool], in order: one class
    per zone, in that zone, under the class name of the pool and of the
    zone's index, for one hash. *)
Definition classesOfPool (w : worker.workerDelegate) (pool : WorkerPool)
    (group : list MachineClass) : Prop :=
  mcZone <$> group = poolZones pool /\
  exists hash,
    mcName <$> group = imap (fun i _ => worker.classNameOf w pool hash i) (poolZones pool).

(** The classes taken pool by pool: they split into one group per pool of
    the worker, in the order of the pools, the group of a pool holding the
    classes of that pool's zones, each of which satisfies [P] for that
    pool. The groups are as long as the pools' zone lists, so there is one
    such split only. *)
Definition perPool (w : worker.workerDelegate) (P : WorkerPool -> MachineClass -> Prop)
    (classes : list MachineClass) : Prop :=
  exists groups,
    classes = concat groups /\
    Forall2 (fun pool group => classesOfPool w pool group /\ Forall (P pool) group)
      (wPools (worker.worker w)) groups.

(** * Properties *)

(** ** Outcomes *)

(** Reduces the bind of an outcome that is known, and nothing else. *)
Ltac run_step := cbn [mbind result_bind wrap call].

Lemma bind_Ok {A B : Type} (r : result A) (k : A -> result B) (b : B) :
  r ≫= k = Ok b -> exists a, r = Ok a /\ k a = Ok b.
Proof. destruct r as [a | e |]; simpl; intros H; try discriminate. exists a. split; [reflexivity | exact H]. Qed.

Lemma wrap_Ok {A : Type} (format : string) (args : list string) (r : result A) (a : A) :
  wrap format args r = Ok a -> r = Ok a.
Proof. destruct r; simpl; congruence. Qed.

Lemma wrap_Err {A : Type} (format : string) (args : list string) (r : result A) (e : error) :
  wrap format args r = Err e -> exists inner, r = Err inner /\ e = Errorw format args inner.
Proof. destruct r as [a | inner |]; simpl; intros H; try discriminate. exists inner. split; congruence. Qed.

Lemma call_not_Panic {A : Type} (r : fallible A) : call r <> Panic.
Proof. destruct r; discriminate. Qed.

Lemma wrap_call_not_Panic {A : Type} (format : string) (args : list string) (r : fallible A) :
  wrap format args (call r) <> Panic.
Proof. destruct r; discriminate. Qed.

Lemma foldM_app {A St : Type} (body : St -> A -> result St) (xs ys : list A) (acc : St) :
  foldM body (xs ++ ys) acc = foldM body xs acc ≫= foldM body ys.
Proof.
  revert acc. induction xs as [| x xs IH]; intros acc; simpl; [reflexivity |].
  destruct (body acc x); simpl; [apply IH | reflexivity | reflexivity].
Qed.

Lemma foldM_not_Panic {A St : Type} (P : A -> Prop) (body : St -> A -> result St)
    (xs : list A) (acc : St) :
  (forall x acc, P x -> body acc x <> Panic) -> Forall P xs -> foldM body xs acc <> Panic.
Proof.
  intros Hbody Hall. revert acc. induction Hall as [| x xs Hx _ IH]; intros acc; simpl.
  - discriminate.
  - specialize (Hbody x acc Hx).
    destruct (body acc x); simpl; [apply IH | discriminate | contradiction].
Qed.

Lemma foldM_head_Err {A St : Type} (body : St -> A -> result St) (x : A) (xs : list A)
    (acc : St) (e : error) :
  body acc x = Err e -> foldM body (x :: xs) acc = Err e.
Proof. intros H. simpl. rewrite H. reflexivity. Qed.

(** A loop that meets a failing iteration does not complete. *)
Lemma foldM_fails {A St : Type} (body : St -> A -> result St) (xs : list A) (x : A) :
  x ∈ xs -> (forall acc, is_ok (body acc x) = false) ->
  forall acc, is_ok (foldM body xs acc) = false.
Proof.
  intros Hin Hfail. induction xs as [| y ys IH]; intros acc.
  - inversion Hin.
  - simpl. apply elem_of_cons in Hin as [-> | Hin].
    + specialize (Hfail acc). destruct (body acc y); simpl in *; congruence.
    + destruct (body acc y); simpl; [apply IH; exact Hin | reflexivity | reflexivity].
Qed.

(** ** Lists *)

Lemma elem_of_flat_map {A B : Type} (f : A -> list B) (l : list A) (y : B) :
  y ∈ flat_map f l <-> exists x, x ∈ l /\ y ∈ f x.
Proof.
  rewrite list_elem_of_In, in_flat_map. split; intros (x & Hx & Hy); exists x.
  - rewrite !list_elem_of_In. auto.
  - rewrite <- !list_elem_of_In. auto.
Qed.

(** Every pool of a completed run has its values among the zipped pairs. *)
Lemma Forall2_zip_elem {A B : Type} (P : A -> B -> Prop) (l : list A) (k : list B) (x : A) :
  Forall2 P l k -> x ∈ l -> exists y, (x, y) ∈ zip l k /\ P x y.
Proof.
  induction 1 as [| a b l k Hab _ IH]; intros Hin; [inversion Hin |].
  apply elem_of_cons in Hin as [-> | Hin].
  - exists b. split; [left | exact Hab].
  - destruct (IH Hin) as (y & Hy & HP). exists y. split; [right; exact Hy | exact HP].
Qed.

(** ** The provider-config extractors *)

Lemma absent_cases (pc : option RawExtension) :
  absent pc \/ exists raw, pc = Some (mkRaw (Some raw)).
Proof.
  destruct pc as [[[raw |]] |].
  - right. exists raw. reflexivity.
  - left. right. reflexivity.
  - left. left. reflexivity.
Qed.

Ltac extractor_absent :=
  intros o [H | H]; cbv beta delta [helper.GetCloudProfileConfig helper.GetInfrastructureConfig
    helper.GetControlPlaneConfig helper.GetWorkerConfig helper.GetInfrastructureStatus
    helper.GetWorkerStatus]; cbv zeta; rewrite H; reflexivity.

Ltac extractor_error :=
  intros o e; cbv beta delta [helper.GetCloudProfileConfig helper.GetInfrastructureConfig
    helper.GetControlPlaneConfig helper.GetWorkerConfig helper.GetInfrastructureStatus
    helper.GetWorkerStatus]; cbv zeta;
  match goal with |- context [match ?pc with _ => _ end] => destruct pc as [[[? |]] |] end;
  try discriminate;
  intros H; apply wrap_Err in H as (? & H & _);
  let E := fresh "E" in
  match type of H with
  | call ?r = _ => destruct r eqn:E; simpl in H; [| discriminate]
  end;
  do 2 eexists; split; [reflexivity | exact E].

(** C7. Each of the six extractors returns the zero value of its target
    type and no error when the payload is absent (a nil provider config or
    nil raw bytes), and returns an error only when a payload is present and
    the decoder rejects it. *)
Theorem extractors_absent_payload_is_zero (decoder : Decoder) :
  (absent_gives_zero (helper.GetWorkerConfig decoder) poolProviderConfig zeroWorkerConfig /\
   absent_gives_zero (helper.GetInfrastructureStatus decoder) wInfrastructureProviderStatus
     zeroInfrastructureStatus /\
   absent_gives_zero (helper.GetCloudProfileConfig decoder) cpProviderConfig
     zeroCloudProfileConfig /\
   absent_gives_zero (helper.GetInfrastructureConfig decoder) infraProviderConfig
     zeroInfrastructureConfig /\
   absent_gives_zero (helper.GetControlPlaneConfig decoder) cplProviderConfig
     zeroControlPlaneConfig /\
   absent_gives_zero (helper.GetWorkerStatus decoder) wProviderStatus zeroWorkerStatus) /\
  (error_only_from_decode (helper.GetWorkerConfig decoder) poolProviderConfig
     (decodeWorkerConfig decoder) /\
   error_only_from_decode (helper.GetInfrastructureStatus decoder) wInfrastructureProviderStatus
     (decodeInfrastructureStatus decoder) /\
   error_only_from_decode (helper.GetCloudProfileConfig decoder) cpProviderConfig
     (decodeCloudProfileConfig decoder) /\
   error_only_from_decode (helper.GetInfrastructureConfig decoder) infraProviderConfig
     (decodeInfrastructureConfig decoder) /\
   error_only_from_decode (helper.GetControlPlaneConfig decoder) cplProviderConfig
     (decodeControlPlaneConfig decoder) /\
   error_only_from_decode (helper.GetWorkerStatus decoder) wProviderStatus
     (decodeWorkerStatus decoder)).
Proof.
  split.
  - repeat split; extractor_absent.
  - repeat split; extractor_error.
Qed.

(** ** The secret validator *)

(** C10. Given an old and a new secret with equal data, the secret
    validator returns nil whatever the in-use check and the kubeconfig
    validation would answer; given changed data and a secret that no
    kubevirt shoot uses, it returns nil as well; and the outcome depends on
    the kubeconfig validation only for a secret that is in use and whose
    data changed. *)
Theorem secret_validate_scoping (env : validator.Env) (secret : Secret) :
  (forall oldSecret,
     secData secret = secData oldSecret ->
     validator.secretValidate env (Some (validator.SecretObject secret))
       (Some (validator.SecretObject oldSecret)) = Ok tt) /\
  (forall oldObj,
     dataChanged secret oldObj ->
     validator.IsSecretInUseByShoot env secret (validator.kubevirtType env) = inr false ->
     validator.secretValidate env (Some (validator.SecretObject secret)) oldObj = Ok tt) /\
  (forall oldObj,
     dataChanged secret oldObj ->
     validator.IsSecretInUseByShoot env secret (validator.kubevirtType env) = inr true ->
     validator.secretValidate env (Some (validator.SecretObject secret)) oldObj
     = call (validator.ValidateCloudProviderSecret env secret)) /\
  (forall oldObj check,
     validator.secretValidate (withSecretCheck check env)
       (Some (validator.SecretObject secret)) oldObj
     <> validator.secretValidate env (Some (validator.SecretObject secret)) oldObj ->
     dataChanged secret oldObj /\
     validator.IsSecretInUseByShoot env secret (validator.kubevirtType env) = inr true).
Proof.
  split; [| split; [| split]].
  - intros oldSecret Heq. unfold validator.secretValidate.
    rewrite bool_decide_eq_true_2 by exact Heq. reflexivity.
  - intros oldObj Hch Huse. unfold validator.secretValidate.
    destruct oldObj as [[oldSecret | |] |]; simpl in Hch; try contradiction.
    + rewrite bool_decide_eq_false_2 by exact Hch. rewrite Huse. reflexivity.
    + rewrite Huse. reflexivity.
  - intros oldObj Hch Huse. unfold validator.secretValidate.
    destruct oldObj as [[oldSecret | |] |]; simpl in Hch; try contradiction.
    + rewrite bool_decide_eq_false_2 by exact Hch. rewrite Huse. reflexivity.
    + rewrite Huse. reflexivity.
  - intros oldObj check. unfold validator.secretValidate, dataChanged. simpl.
    destruct oldObj as [[oldSecret | |] |]; try congruence.
    + case_bool_decide as Hd; [congruence |].
      destruct (validator.IsSecretInUseByShoot env secret (validator.kubevirtType env))
        as [e | [|]]; simpl; try congruence. intros _. split; [exact Hd | reflexivity].
    + destruct (validator.IsSecretInUseByShoot env secret (validator.kubevirtType env))
        as [e | [|]]; simpl; try congruence. intros _. split; [exact I | reflexivity].
Qed.

(** ** The machine config generator *)

Import worker.

Lemma GetKubeConfig_not_Panic (get : SecretReference -> fallible Secret) (ref : SecretReference) :
  kubevirt.GetKubeConfig get ref <> Panic.
Proof.
  unfold kubevirt.GetKubeConfig. destruct (get ref) as [e | secret]; simpl; [discriminate |].
  destruct (secData secret !! kubevirt.KubeconfigSecretKey); discriminate.
Qed.

Lemma GetInfrastructureStatus_not_Panic (decoder : Decoder) (wk : Worker) :
  helper.GetInfrastructureStatus decoder wk <> Panic.
Proof.
  unfold helper.GetInfrastructureStatus.
  destruct (wInfrastructureProviderStatus wk) as [[[raw |]] |]; try discriminate.
  apply wrap_call_not_Panic.
Qed.

Lemma GetWorkerConfig_not_Panic (decoder : Decoder) (pool : WorkerPool) :
  helper.GetWorkerConfig decoder pool <> Panic.
Proof.
  unfold helper.GetWorkerConfig.
  destruct (poolProviderConfig pool) as [[[raw |]] |]; try discriminate.
  apply wrap_call_not_Panic.
Qed.

Lemma wrap_not_Panic {A : Type} (format : string) (args : list string) (r : result A) :
  r <> Panic -> wrap format args r <> Panic.
Proof. destruct r; simpl; congruence. Qed.

(** The steps before the pool loop never panic. *)
Lemma runContext_not_Panic (env : Env) (w : workerDelegate) : runContext env w <> Panic.
Proof.
  unfold runContext.
  pose proof (GetKubeConfig_not_Panic (GetSecretByReference env) (wSecretRef (worker w))) as Hk.
  destruct (kubevirt.GetKubeConfig _ _) as [kubeconfig | e |]; simpl; try congruence.
  destruct (clientFactoryGetClient env kubeconfig) as [e | namespace]; simpl; try congruence.
  pose proof (GetInfrastructureStatus_not_Panic (decoder env) (worker w)) as Hs.
  destruct (helper.GetInfrastructureStatus _ _) as [status | e |]; simpl; try congruence.
  destruct (schemeConvert env status _) as [e | statusV1]; simpl; try congruence.
  case_bool_decide; congruence.
Qed.

(** A run context exists only for a worker with an SSH public key. *)
Lemma runContext_Ok_ssh (env : Env) (w : workerDelegate) (rc : RunContext) :
  runContext env w = Ok rc -> length (wSSHPublicKey (worker w)) <> 0%nat.
Proof.
  unfold runContext. intros H.
  apply bind_Ok in H as (kubeconfig & _ & H).
  apply bind_Ok in H as (namespace & _ & H).
  apply bind_Ok in H as (status & _ & H).
  apply bind_Ok in H as (statusV1 & _ & H).
  case_bool_decide; [discriminate | assumption].
Qed.

(** The namespace of a run context is the one the client factory gave
    for the kubeconfig of the worker's secret. *)
Lemma runContext_Ok_namespace (env : Env) (w : workerDelegate) (rc : RunContext) :
  runContext env w = Ok rc ->
  kubevirt.GetKubeConfig (GetSecretByReference env) (wSecretRef (worker w))
    = Ok (rcKubeconfig rc) /\
  clientFactoryGetClient env (rcKubeconfig rc) = inr (rcNamespace rc).
Proof.
  unfold runContext. intros H.
  apply bind_Ok in H as (kubeconfig & Hk & H). apply wrap_Ok in Hk.
  apply bind_Ok in H as (namespace & Hn & H). apply wrap_Ok in Hn.
  apply bind_Ok in H as (status & _ & H).
  apply bind_Ok in H as (statusV1 & _ & H).
  case_bool_decide; [discriminate |]. inversion H; subst; clear H. simpl.
  split; [exact Hk |].
  destruct (clientFactoryGetClient env kubeconfig); simpl in Hn; congruence.
Qed.

(** The run context does not depend on the pools. *)
Lemma runContext_withPools (env : Env) (w : workerDelegate) (pools : list WorkerPool) :
  runContext env (withPools pools w) = runContext env w.
Proof. reflexivity. Qed.

(** The delegate's fields are written only by a run that completes. *)
Lemma generateMachineConfig_failed (env : Env) (w : workerDelegate) :
  is_ok (generate env w) = false ->
  fst (generateMachineConfig env w) = w /\ is_ok (snd (generateMachineConfig env w)) = false.
Proof.
  unfold generateMachineConfig. destruct (generate env w); simpl; [discriminate | auto | auto].
Qed.

Lemma generateMachineConfig_Ok (env : Env) (w w' : workerDelegate) :
  generateMachineConfig env w = (w', Ok tt) ->
  exists acc, generate env w = Ok acc /\
    worker w' = worker w /\ cluster w' = cluster w /\ cloudProfileConfig w' = cloudProfileConfig w /\
    machineClasses w' = accClasses acc /\
    machineDeployments w' = Some (accDeployments acc) /\
    machineImages w' = accImages acc /\
    machineClassVolumes w' = accVolumes acc.
Proof.
  unfold generateMachineConfig. destruct (generate env w) as [acc | e |]; intros H;
    inversion H; subst; clear H.
  exists acc. simpl. repeat split; reflexivity.
Qed.

(** C8. With an empty SSH public key generateMachineConfig returns an
    error and leaves the delegate as it was. The failure arises before the
    pool loop: it is the same whatever the pools are, and none of the four
    output fields is written for any of them. *)
Theorem missing_ssh_key_aborts (env : Env) (w : workerDelegate) :
  length (wSSHPublicKey (worker w)) = 0%nat ->
  exists e,
    generateMachineConfig env w = (w, Err e) /\
    forall pools,
      generateMachineConfig env (withPools pools w) = (withPools pools w, Err e).
Proof.
  intros Hssh.
  assert (Hrc : exists e, runContext env w = Err e).
  { destruct (runContext env w) as [rc | e |] eqn:E.
    - apply runContext_Ok_ssh in E. contradiction.
    - exists e. reflexivity.
    - apply runContext_not_Panic in E. contradiction. }
  destruct Hrc as [e He]. exists e.
  assert (Hgen : forall pools, generateMachineConfig env (withPools pools w)
                               = (withPools pools w, Err e)).
  { intros pools. unfold generateMachineConfig, generate.
    rewrite runContext_withPools, He. reflexivity. }
  split; [| exact Hgen].
  unfold generateMachineConfig, generate. rewrite He. reflexivity.
Qed.


(** *** The loops in closed form *)

Lemma elements_of_goAppend {A : Type} (s : option (list A)) (x : A) :
  elements_of (goAppend s x) = elements_of s ++ [x].
Proof. destruct s; reflexivity. Qed.

Lemma goAppend_not_nil {A : Type} (s : option (list A)) (x : A) : goAppend s x <> None.
Proof. destruct s; discriminate. Qed.

Lemma rootVolumeOf_fst (rc : RunContext) (pv : PoolValues) (className : string)
    (m m' : gmap string DataVolumeSpec) :
  fst (rootVolumeOf rc pv className m) = fst (rootVolumeOf rc pv className m').
Proof. unfold rootVolumeOf. destruct (negb _); reflexivity. Qed.

Lemma rootVolumeOf_snd (rc : RunContext) (pv : PoolValues) (className : string)
    (m : gmap string DataVolumeSpec) :
  snd (rootVolumeOf rc pv className m)
  = if DisablePreAllocatedDataVolumes (pvWorkerConfig pv) then m
    else <[className := companionVolume pv]> m.
Proof. unfold rootVolumeOf. destruct (DisablePreAllocatedDataVolumes _); reflexivity. Qed.

Lemma zone_loop (env : Env) (w : workerDelegate) (rc : RunContext) (pool : WorkerPool)
    (pv : PoolValues) (zones : list string) (i : nat) (acc : Acc) :
  let acc' := rangeFold (zoneBody env w rc pool pv) i zones acc in
  accDeployments acc'
    = accDeployments acc ++ imap (fun j _ => deploymentAt env w pool pv (i + j)) zones /\
  elements_of (accClasses acc')
    = elements_of (accClasses acc)
      ++ imap (fun j zone => classAt env w rc pool pv (i + j) zone) zones /\
  (zones <> [] -> accClasses acc' <> None) /\
  accImages acc' = accImages acc /\
  accVolumes acc'
    = if DisablePreAllocatedDataVolumes (pvWorkerConfig pv) then accVolumes acc
      else insertAll (imap (fun j _ => classNameOf w pool (pvHash pv) (i + j)) zones)
             (companionVolume pv) (accVolumes acc).
Proof.
  revert i acc. induction zones as [| zone zones IH]; intros i acc; simpl.
  - rewrite !app_nil_r. repeat split; try congruence.
    destruct (DisablePreAllocatedDataVolumes _); reflexivity.
  - destruct (IH (S i) (zoneBody env w rc pool pv i zone acc)) as (Hd & Hc & Hn & Hi & Hv).
    rewrite Nat.add_0_r.
    split; [| split; [| split; [| split]]].
    + rewrite Hd. simpl. rewrite <- app_assoc. simpl. do 2 f_equal.
      apply imap_ext. intros j x _. simpl. rewrite Nat.add_succ_r. reflexivity.
    + rewrite Hc. simpl. rewrite elements_of_goAppend, <- app_assoc. simpl. do 2 f_equal.
      * unfold classAt. f_equal. apply rootVolumeOf_fst.
      * apply imap_ext. intros j x _. simpl. rewrite Nat.add_succ_r. reflexivity.
    + intros _. destruct zones as [| z zs].
      * simpl. apply goAppend_not_nil.
      * apply Hn. discriminate.
    + rewrite Hi. reflexivity.
    + rewrite Hv. simpl. rewrite rootVolumeOf_snd.
      destruct (DisablePreAllocatedDataVolumes _); [reflexivity |].
      unfold insertAll. simpl. f_equal.
      apply imap_ext. intros j x _. simpl. rewrite Nat.add_succ_r. reflexivity.
Qed.

Lemma poolBody_Ok (env : Env) (w : workerDelegate) (rc : RunContext) (acc acc' : Acc)
    (pool : WorkerPool) :
  poolBody env w rc acc pool = Ok acc' ->
  exists pv, poolValues env w rc pool = Ok pv /\ acc' = poolStep env w rc acc (pool, pv).
Proof.
  unfold poolBody. intros H. apply bind_Ok in H as (pv & Hpv & H).
  exists pv. split; [exact Hpv |]. inversion H. reflexivity.
Qed.

(** A pool loop that completes has computed the values of every pool, and
    its accumulators are the outcome of the infallible steps. *)
Lemma pool_loop_Ok (env : Env) (w : workerDelegate) (rc : RunContext) (pools : list WorkerPool)
    (acc acc' : Acc) :
  foldM (poolBody env w rc) pools acc = Ok acc' ->
  exists pvs,
    Forall2 (fun pool pv => poolValues env w rc pool = Ok pv) pools pvs /\
    acc' = fold_left (poolStep env w rc) (zip pools pvs) acc.
Proof.
  revert acc. induction pools as [| pool pools IH]; intros acc; simpl; intros H.
  - exists []. split; [constructor | congruence].
  - apply bind_Ok in H as (acc1 & Hbody & H).
    apply poolBody_Ok in Hbody as (pv & Hpv & ->).
    apply IH in H as (pvs & Hall & ->).
    exists (pv :: pvs). split; [constructor; assumption | reflexivity].
Qed.

Lemma pool_steps (env : Env) (w : workerDelegate) (rc : RunContext)
    (ppvs : list (WorkerPool * PoolValues)) (acc : Acc) :
  let acc' := fold_left (poolStep env w rc) ppvs acc in
  accDeployments acc' = accDeployments acc ++ flat_map (poolDeployments env w) ppvs /\
  elements_of (accClasses acc')
    = elements_of (accClasses acc) ++ flat_map (poolClasses env w rc) ppvs.
Proof.
  revert acc. induction ppvs as [| [pool pv] ppvs IH]; intros acc; simpl.
  - rewrite !app_nil_r. split; reflexivity.
  - destruct (IH (poolStep env w rc acc (pool, pv))) as (Hd & Hc).
    destruct (zone_loop env w rc pool pv (poolZones pool) 0
                (mkAcc (accDeployments acc) (accClasses acc)
                   (appendMachineImage (accImages acc)
                      (mkMachineImage (poolImageName pool) (poolImageVersion pool)
                         (pvImageSourceURL pv)))
                   (accVolumes acc))) as (Hd1 & Hc1 & _).
    split.
    + rewrite Hd. unfold poolStep at 1. simpl. rewrite Hd1. simpl.
      rewrite <- app_assoc. reflexivity.
    + rewrite Hc. unfold poolStep at 1. simpl. rewrite Hc1. simpl.
      rewrite <- app_assoc. reflexivity.
Qed.

(** A run that completes, in closed form. *)
Lemma generate_Ok (env : Env) (w : workerDelegate) (acc : Acc) :
  generate env w = Ok acc ->
  exists rc pvs,
    runContext env w = Ok rc /\
    Forall2 (fun pool pv => poolValues env w rc pool = Ok pv) (wPools (worker w)) pvs /\
    acc = fold_left (poolStep env w rc) (zip (wPools (worker w)) pvs) acc0 /\
    accDeployments acc = flat_map (poolDeployments env w) (zip (wPools (worker w)) pvs) /\
    elements_of (accClasses acc)
      = flat_map (poolClasses env w rc) (zip (wPools (worker w)) pvs).
Proof.
  unfold generate. intros H. apply bind_Ok in H as (rc & Hrc & H).
  apply pool_loop_Ok in H as (pvs & Hall & Hacc).
  exists rc, pvs. split; [exact Hrc |]. split; [exact Hall |]. split; [exact Hacc |].
  destruct (pool_steps env w rc (zip (wPools (worker w)) pvs) acc0) as (Hd & Hc).
  rewrite Hacc. split; assumption.
Qed.

(** A run over a pool with a zone leaves a non-nil slice of classes. *)
Lemma classes_not_nil (env : Env) (w : workerDelegate) (acc : Acc) (pool : WorkerPool) :
  generate env w = Ok acc -> pool ∈ wPools (worker w) -> poolZones pool <> [] ->
  accClasses acc <> None.
Proof.
  intros Hgen Hpool Hzones.
  apply generate_Ok in Hgen as (rc & pvs & _ & Hall & _ & _ & Hcs).
  destruct (Forall2_zip_elem _ _ _ _ Hall Hpool) as (pv & Hin & _).
  intros Hnil. rewrite Hnil in Hcs. simpl in Hcs.
  destruct (poolZones pool) as [| zone zones] eqn:Hz; [contradiction |].
  assert (Hc : classAt env w rc pool pv 0 zone ∈ flat_map (poolClasses env w rc)
                 (zip (wPools (worker w)) pvs)).
  { apply elem_of_flat_map. exists (pool, pv). split; [exact Hin |].
    unfold poolClasses. simpl. rewrite Hz. left. }
  rewrite <- Hcs in Hc. inversion Hc.
Qed.

(** C9. DeployMachineClasses generates only when [machineClasses] is nil
    and GenerateMachineDeployments only when [machineDeployments] is nil.
    A successful generation assigns the four fields, [machineDeployments]
    to a non-nil slice and, when some pool has a zone, [machineClasses] to
    a non-nil slice too; from then on GenerateMachineDeployments returns
    the stored deployments and leaves the delegate alone, whatever became
    of the worker, the cluster, the cloud profile config and the
    collaborators in between. *)
Theorem generation_is_cached (env : Env) (w : workerDelegate) :
  (forall classes, machineClasses w = Some classes ->
     DeployMachineClasses env w = (w, applyMachineClasses env w)) /\
  (forall deployments, machineDeployments w = Some deployments ->
     GenerateMachineDeployments env w = (w, Ok (Some deployments))) /\
  (forall w1, generateMachineConfig env w = (w1, Ok tt) ->
     (exists acc, generate env w = Ok acc /\
        machineClasses w1 = accClasses acc /\
        machineDeployments w1 = Some (accDeployments acc) /\
        machineImages w1 = accImages acc /\
        machineClassVolumes w1 = accVolumes acc) /\
     machineDeployments w1 <> None /\
     (forall pool, pool ∈ wPools (worker w) -> poolZones pool <> [] ->
        machineClasses w1 <> None) /\
     forall env' worker' cluster' cloudProfileConfig',
       GenerateMachineDeployments env' (withInputs worker' cluster' cloudProfileConfig' w1)
       = (withInputs worker' cluster' cloudProfileConfig' w1, Ok (machineDeployments w1))).
Proof.
  split; [| split].
  - intros classes H. unfold DeployMachineClasses. rewrite H. reflexivity.
  - intros deployments H. unfold GenerateMachineDeployments. rewrite H. reflexivity.
  - intros w1 H. apply generateMachineConfig_Ok in H
      as (acc & Hgen & _ & _ & _ & Hc & Hd & Hi & Hv).
    split; [exists acc; auto |]. split; [congruence |]. split.
    + intros pool Hpool Hzones. rewrite Hc.
      apply (classes_not_nil env w acc pool Hgen Hpool Hzones).
    + intros env' worker' cluster' cpc'. unfold GenerateMachineDeployments. simpl.
      rewrite Hd. reflexivity.
Qed.

Lemma poolValues_Ok (env : Env) (w : workerDelegate) (rc : RunContext) (pool : WorkerPool)
    (pv : PoolValues) :
  poolValues env w rc pool = Ok pv ->
  exists machineType,
    helper.GetWorkerConfig (decoder env) pool = Ok (pvWorkerConfig pv) /\
    getMachineType w (poolMachineType pool) = Ok machineType /\
    WorkerPoolHash env pool (cluster w) (rcNetworksData rc) = inr (pvHash pv) /\
    getMachineImageURL env w (poolImageName pool) (poolImageVersion pool)
      = inr (pvImageSourceURL pv) /\
    pvResources pv = resourceRequirementsOf w machineType (pvWorkerConfig pv) /\
    rootVolumeClassNameAndSize env w pool machineType
      = Ok (pvRootVolumeClassName pv, pvRootVolumeSize pv) /\
    foldM (additionalVolumeBody env w) (poolDataVolumes pool) [] = Ok (pvAdditionalVolumes pv).
Proof.
  unfold poolValues. intros H.
  apply bind_Ok in H as (workerConfig & Hcfg & H). apply wrap_Ok in Hcfg.
  apply bind_Ok in H as (machineType & Hmt & H).
  apply bind_Ok in H as (hash & Hhash & H). apply wrap_Ok in Hhash.
  apply bind_Ok in H as (url & Hurl & H).
  apply bind_Ok in H as ([className size] & Hroot & H).
  apply bind_Ok in H as (additional & Hadd & H).
  inversion H; subst; clear H. simpl.
  exists machineType. repeat split; try assumption.
  - destruct (WorkerPoolHash env pool (cluster w) (rcNetworksData rc)); simpl in Hhash; congruence.
  - destruct (getMachineImageURL env w (poolImageName pool) (poolImageVersion pool));
      simpl in Hurl; congruence.
Qed.

Lemma names_of_pool (env : Env) (w : workerDelegate) (pool : WorkerPool) (pv : PoolValues) :
  namesOf <$> poolDeployments env w (pool, pv)
  = expectedNames (Namespace (wMeta (worker w))) (pool, pvHash pv).
Proof.
  unfold poolDeployments, expectedNames. rewrite fmap_imap. apply imap_ext.
  intros i zone _. reflexivity.
Qed.

Lemma class_names_of_pool (env : Env) (w : workerDelegate) (rc : RunContext) (pool : WorkerPool)
    (pv : PoolValues) :
  mcName <$> poolClasses env w rc (pool, pv) = mdClassName <$> poolDeployments env w (pool, pv).
Proof.
  unfold poolClasses, poolDeployments. rewrite !fmap_imap. apply imap_ext.
  intros i zone _. reflexivity.
Qed.

Lemma fmap_flat_map {A B C : Type} (f : B -> C) (g : A -> list B) (l : list A) :
  f <$> flat_map g l = flat_map (fun x => f <$> g x) l.
Proof. induction l as [| x l IH]; simpl; [reflexivity |]. rewrite fmap_app, IH. reflexivity. Qed.

(** C5. After a successful run, the deployments appear pool by pool and
    zone by zone; the one for the zone of 0-based index [i] is named
    [{namespace}-{poolName}-z{i+1}], its machine class is named after it
    with [-] and the pool's hash appended, and its ClassName and SecretName
    are that class name. *)
Theorem machine_names (env : Env) (w w' : workerDelegate) :
  generateMachineConfig env w = (w', Ok tt) ->
  exists rc hashes deployments,
    runContext env w = Ok rc /\
    Forall2 (fun pool hash =>
               WorkerPoolHash env pool (cluster w) (rcNetworksData rc) = inr hash)
            (wPools (worker w)) hashes /\
    machineDeployments w' = Some deployments /\
    namesOf <$> deployments
      = flat_map (expectedNames (Namespace (wMeta (worker w)))) (zip (wPools (worker w)) hashes) /\
    mcName <$> elements_of (machineClasses w') = mdClassName <$> deployments.
Proof.
  intros H. apply generateMachineConfig_Ok in H as (acc & Hgen & _ & _ & _ & Hc & Hd & _).
  apply generate_Ok in Hgen as (rc & pvs & Hrc & Hall & _ & Hds & Hcs).
  exists rc, (pvHash <$> pvs), (accDeployments acc).
  split; [exact Hrc |]. split; [| split; [exact Hd | split]].
  - clear - Hall. induction Hall as [| pool pv pools pvs Hpv _ IH]; simpl; constructor.
    + apply poolValues_Ok in Hpv as (mt & _ & _ & Hhash & _). exact Hhash.
    + exact IH.
  - rewrite Hds, fmap_flat_map. clear - Hall.
    induction Hall as [| pool pv pools pvs _ _ IH]; simpl; [reflexivity |].
    rewrite names_of_pool, IH. reflexivity.
  - rewrite Hc, Hcs, Hds, !fmap_flat_map. clear.
    induction (zip (wPools (worker w)) pvs) as [| [pool pv] l IH]; simpl; [reflexivity |].
    rewrite class_names_of_pool, IH. reflexivity.
Qed.

(** *** Root volumes and machine class volumes *)

Lemma lookup_insertAll {V : Type} (keys : list string) (v : V) (m : gmap string V) (k : string) :
  insertAll keys v m !! k = if decide (k ∈ keys) then Some v else m !! k.
Proof.
  revert m. induction keys as [| key keys IH]; intros m; simpl.
  - destruct (decide (k ∈ [])) as [Hin | _]; [inversion Hin | reflexivity].
  - unfold insertAll in *. simpl. rewrite IH.
    destruct (decide (k ∈ keys)) as [Hin | Hnin].
    + rewrite decide_True by (right; exact Hin). reflexivity.
    + destruct (decide (k = key)) as [-> | Hne].
      * rewrite decide_True by left. apply lookup_insert_eq.
      * rewrite decide_False by (rewrite elem_of_cons; tauto).
        apply lookup_insert_ne. congruence.
Qed.

Lemma classAt_root (env : Env) (w : workerDelegate) (rc : RunContext) (pool : WorkerPool)
    (pv : PoolValues) (i : nat) (zone : string) :
  mcRootVolume (classAt env w rc pool pv i zone)
  = if DisablePreAllocatedDataVolumes (pvWorkerConfig pv) then companionVolume pv
    else buildDataVolumeSpecWithPVCSource (pvRootVolumeClassName pv) (pvRootVolumeSize pv)
           (rcNamespace rc) (classNameOf w pool (pvHash pv) i).
Proof.
  unfold classAt, rootVolumeOf. simpl.
  destruct (DisablePreAllocatedDataVolumes _); reflexivity.
Qed.

Lemma poolStep_closed (env : Env) (w : workerDelegate) (rc : RunContext) (acc : Acc)
    (pool : WorkerPool) (pv : PoolValues) :
  elements_of (accClasses (poolStep env w rc acc (pool, pv)))
    = elements_of (accClasses acc) ++ poolClasses env w rc (pool, pv) /\
  accVolumes (poolStep env w rc acc (pool, pv))
    = if DisablePreAllocatedDataVolumes (pvWorkerConfig pv) then accVolumes acc
      else insertAll (imap (fun j _ => classNameOf w pool (pvHash pv) j) (poolZones pool))
             (companionVolume pv) (accVolumes acc).
Proof.
  unfold poolStep. simpl.
  match goal with |- context [rangeFold _ _ _ ?a] =>
    destruct (zone_loop env w rc pool pv (poolZones pool) 0 a) as (_ & Hc & _ & _ & Hv)
  end.
  split; [exact Hc | exact Hv].
Qed.

Lemma companionVolume_httpSourced (pv : PoolValues) : httpSourced (companionVolume pv).
Proof. exists (pvImageSourceURL pv). reflexivity. Qed.

Lemma volumesConsistent_step (env : Env) (w : workerDelegate) (rc : RunContext) (acc : Acc)
    (pool : WorkerPool) (pv : PoolValues) :
  volumesConsistent (rcNamespace rc) (elements_of (accClasses acc)) (accVolumes acc) ->
  volumesConsistent (rcNamespace rc)
    (elements_of (accClasses (poolStep env w rc acc (pool, pv))))
    (accVolumes (poolStep env w rc acc (pool, pv))).
Proof.
  intros [Hentries Hclasses].
  destruct (poolStep_closed env w rc acc pool pv) as [-> ->].
  unfold poolClasses. simpl.
  destruct (DisablePreAllocatedDataVolumes (pvWorkerConfig pv)) eqn:Hflag.
  - split.
    + intros name v Hv. destruct (Hentries name v Hv) as (Hhttp & c & Hc & Hname & Hpvc).
      split; [exact Hhttp |]. exists c. rewrite elem_of_app. auto.
    + intros c Hc Hpvc. apply elem_of_app in Hc as [Hc | Hc]; [auto |].
      apply elem_of_lookup_imap in Hc as (i & zone & -> & _).
      rewrite classAt_root, Hflag in Hpvc. destruct Hpvc as [x Hx]. discriminate.
  - split.
    + intros name v. rewrite lookup_insertAll.
      destruct (decide (name ∈ _)) as [Hin | _].
      * intros [= <-]. split; [apply companionVolume_httpSourced |].
        apply elem_of_lookup_imap in Hin as (i & zone & -> & Hzone).
        exists (classAt env w rc pool pv i zone). split; [| split].
        -- apply elem_of_app. right. apply (elem_of_lookup_imap_2 _ _ _ _ Hzone).
        -- reflexivity.
        -- unfold pvcSourced. rewrite classAt_root, Hflag. reflexivity.
      * intros Hv. destruct (Hentries name v Hv) as (Hhttp & c & Hc & Hname & Hpvc).
        split; [exact Hhttp |]. exists c. rewrite elem_of_app. auto.
    + intros c Hc Hpvc. rewrite lookup_insertAll.
      destruct (decide (mcName c ∈ _)) as [_ | Hnin]; [eexists; reflexivity |].
      apply elem_of_app in Hc as [Hc | Hc]; [auto |].
      exfalso. apply Hnin.
      apply elem_of_lookup_imap in Hc as (i & zone & -> & Hzone).
      apply (elem_of_lookup_imap_2 (fun j _ => classNameOf w pool (pvHash pv) j) _ _ _ Hzone).
Qed.

Lemma volumesConsistent_steps (env : Env) (w : workerDelegate) (rc : RunContext)
    (ppvs : list (WorkerPool * PoolValues)) (acc : Acc) :
  volumesConsistent (rcNamespace rc) (elements_of (accClasses acc)) (accVolumes acc) ->
  volumesConsistent (rcNamespace rc)
    (elements_of (accClasses (fold_left (poolStep env w rc) ppvs acc)))
    (accVolumes (fold_left (poolStep env w rc) ppvs acc)).
Proof.
  revert acc. induction ppvs as [| [pool pv] ppvs IH]; intros acc Hacc; simpl; [exact Hacc |].
  apply IH, volumesConsistent_step, Hacc.
Qed.

Lemma volumesConsistent_acc0 (namespace : string) :
  volumesConsistent namespace (elements_of (accClasses acc0)) (accVolumes acc0).
Proof.
  split.
  - intros name v Hv. simpl in Hv. rewrite lookup_empty in Hv. discriminate.
  - intros c Hc. inversion Hc.
Qed.

(** C1. Each of the three builders sets exactly one source, of its own
    kind. In the zone loop, a pool whose worker config leaves
    DisablePreAllocatedDataVolumes false gets a PVC-sourced root volume
    that refers to the provider namespace and the class name, and the
    machine class volumes gain an HTTP-sourced entry under that class
    name; with the flag true the root volume is HTTP-sourced and the
    machine class volumes stay as they were. After a successful run this
    holds for the class of every pool and zone, the namespace being the
    one the client factory gave for the provider cluster, and the machine
    class volumes are exactly the companions of the PVC-rooted classes. *)
Theorem volume_strategy :
  (forall storageClassName storageSize namespace name url,
     let pvc := buildDataVolumeSpecWithPVCSource storageClassName storageSize namespace name in
     let http := buildDataVolumeSpecWithHTTPSource storageClassName storageSize url in
     let blank := buildDataVolumeSpecWithBlankSource storageClassName storageSize in
     (sourcesSet (dvsSource pvc) = 1%nat /\ pvcSourced namespace name pvc) /\
     (sourcesSet (dvsSource http) = 1%nat /\ httpSourced http) /\
     (sourcesSet (dvsSource blank) = 1%nat /\ blankSourced blank)) /\
  (forall env w rc pool pv zoneIndex zone acc,
     let acc' := zoneBody env w rc pool pv zoneIndex zone acc in
     let className := classNameOf w pool (pvHash pv) zoneIndex in
     exists c,
       elements_of (accClasses acc') = elements_of (accClasses acc) ++ [c] /\
       mcName c = className /\
       if DisablePreAllocatedDataVolumes (pvWorkerConfig pv) then
         mcRootVolume c
           = buildDataVolumeSpecWithHTTPSource (pvRootVolumeClassName pv) (pvRootVolumeSize pv)
               (pvImageSourceURL pv) /\
         accVolumes acc' = accVolumes acc
       else
         mcRootVolume c
           = buildDataVolumeSpecWithPVCSource (pvRootVolumeClassName pv) (pvRootVolumeSize pv)
               (rcNamespace rc) className /\
         accVolumes acc'
           = <[className := buildDataVolumeSpecWithHTTPSource (pvRootVolumeClassName pv)
                              (pvRootVolumeSize pv) (pvImageSourceURL pv)]> (accVolumes acc)) /\
  (forall env w w',
     generateMachineConfig env w = (w', Ok tt) ->
     exists rc,
       runContext env w = Ok rc /\
       clientFactoryGetClient env (rcKubeconfig rc) = inr (rcNamespace rc) /\
       (forall pool zoneIndex zone,
          pool ∈ wPools (worker w) -> poolZones pool !! zoneIndex = Some zone ->
          exists workerConfig hash c,
            helper.GetWorkerConfig (decoder env) pool = Ok workerConfig /\
            WorkerPoolHash env pool (cluster w) (rcNetworksData rc) = inr hash /\
            c ∈ elements_of (machineClasses w') /\
            mcName c = classNameOf w pool hash zoneIndex /\
            mcZone c = zone /\
            if DisablePreAllocatedDataVolumes workerConfig then
              httpSourced (mcRootVolume c)
            else
              pvcSourced (rcNamespace rc) (mcName c) (mcRootVolume c) /\
              exists v, machineClassVolumes w' !! mcName c = Some v /\ httpSourced v) /\
       volumesConsistent (rcNamespace rc) (elements_of (machineClasses w'))
         (machineClassVolumes w')).
Proof.
  split; [| split].
  - intros. repeat split; try reflexivity. exists url. reflexivity.
  - intros env w rc pool pv zoneIndex zone acc acc' className.
    exists (machineClassOf w rc pool pv className zone
              (fst (rootVolumeOf rc pv className (accVolumes acc)))).
    split; [apply elements_of_goAppend |]. split; [reflexivity |].
    unfold acc', zoneBody, rootVolumeOf. simpl. fold className.
    destruct (DisablePreAllocatedDataVolumes (pvWorkerConfig pv)); simpl; split; reflexivity.
  - intros env w w' H.
    apply generateMachineConfig_Ok in H as (acc & Hgen & _ & _ & _ & Hc & _ & _ & Hv).
    apply generate_Ok in Hgen as (rc & pvs & Hrc & Hall & Hacc & _ & Hcs).
    assert (Hcons : volumesConsistent (rcNamespace rc) (elements_of (accClasses acc))
                      (accVolumes acc)).
    { rewrite Hacc. apply volumesConsistent_steps, volumesConsistent_acc0. }
    exists rc. split; [exact Hrc |].
    split; [apply (runContext_Ok_namespace env w rc Hrc) |].
    rewrite Hc, Hv. split; [| exact Hcons].
    intros pool zoneIndex zone Hpool Hzone.
    destruct (Forall2_zip_elem _ _ _ _ Hall Hpool) as (pv & Hin & Hpv).
    apply poolValues_Ok in Hpv as (mt & Hcfg & _ & Hhash & _).
    exists (pvWorkerConfig pv), (pvHash pv), (classAt env w rc pool pv zoneIndex zone).
    assert (Hcin : classAt env w rc pool pv zoneIndex zone ∈ elements_of (accClasses acc)).
    { rewrite Hcs. apply elem_of_flat_map. exists (pool, pv). split; [exact Hin |].
      unfold poolClasses. simpl.
      apply (elem_of_lookup_imap_2 (fun i z => classAt env w rc pool pv i z) _ _ _ Hzone). }
    split; [exact Hcfg |]. split; [exact Hhash |]. split; [exact Hcin |].
    split; [reflexivity |]. split; [reflexivity |].
    rewrite classAt_root.
    destruct (DisablePreAllocatedDataVolumes (pvWorkerConfig pv)) eqn:Hflag.
    + apply companionVolume_httpSourced.
    + split; [reflexivity |].
      destruct Hcons as [Hentries Hclasses].
      destruct (Hclasses _ Hcin) as [v Hlookup].
      { rewrite classAt_root, Hflag. eexists. reflexivity. }
      exists v. split; [exact Hlookup |]. apply (Hentries _ _ Hlookup).
Qed.

(** *** Failing runs *)

Lemma getMachineType_unknown (w : workerDelegate) (name : string) :
  name ∉ (mtName <$> cpMachineTypes (clCloudProfile (cluster w))) ->
  getMachineType w name = Err (machineTypeNotFound name).
Proof.
  unfold getMachineType. intros Hnin.
  destruct (find _ _) as [mt |] eqn:E; [| reflexivity].
  apply find_some in E as [Hin Hname]. apply bool_decide_eq_true in Hname.
  exfalso. apply Hnin. rewrite <- Hname. apply list_elem_of_fmap_2, list_elem_of_In, Hin.
Qed.

Lemma getMachineType_Ok (w : workerDelegate) (name : string) (mt : MachineType) :
  getMachineType w name = Ok mt ->
  mt ∈ cpMachineTypes (clCloudProfile (cluster w)) /\ mtName mt = name.
Proof.
  unfold getMachineType. destruct (find _ _) as [mt' |] eqn:E; [| discriminate].
  intros [= <-]. apply find_some in E as [Hin Hname]. apply bool_decide_eq_true in Hname.
  split; [apply list_elem_of_In, Hin | exact Hname].
Qed.

(** The run stops at the first pool whose values cannot be computed, with
    that pool's error, and nothing is written. *)
Lemma run_stops_at (env : Env) (w : workerDelegate) (rc : RunContext)
    (pre post : list WorkerPool) (pool : WorkerPool) (acc : Acc) (e : error) :
  wPools (worker w) = pre ++ pool :: post ->
  runContext env w = Ok rc ->
  foldM (poolBody env w rc) pre acc0 = Ok acc ->
  poolValues env w rc pool = Err e ->
  generateMachineConfig env w = (w, Err e).
Proof.
  intros Hpools Hrc Hpre Hpool.
  assert (Hgen : generate env w = Err e).
  { unfold generate. rewrite Hrc, Hpools.
    change (foldM (poolBody env w rc) (pre ++ pool :: post) acc0 = Err e).
    rewrite foldM_app, Hpre.
    change (foldM (poolBody env w rc) (pool :: post) acc = Err e).
    apply foldM_head_Err. unfold poolBody. rewrite Hpool. reflexivity. }
  unfold generateMachineConfig. rewrite Hgen. reflexivity.
Qed.

(** A run over pools one of which cannot have its values computed does
    not complete, and nothing is written. *)
Lemma run_fails_with (env : Env) (w : workerDelegate) (pool : WorkerPool) :
  pool ∈ wPools (worker w) ->
  (forall rc, is_ok (poolValues env w rc pool) = false) ->
  fst (generateMachineConfig env w) = w /\ is_ok (snd (generateMachineConfig env w)) = false.
Proof.
  intros Hin Hfail. apply generateMachineConfig_failed. unfold generate.
  destruct (runContext env w) as [rc | e |]; simpl; try reflexivity.
  apply (foldM_fails _ _ pool Hin). intros acc. unfold poolBody.
  specialize (Hfail rc). destruct (poolValues env w rc pool); simpl in *; congruence.
Qed.

Lemma getStorageClassNameAndSize_not_Panic (env : Env) (w : workerDelegate) (type size : string) :
  getStorageClassNameAndSize env w type size <> Panic.
Proof.
  unfold getStorageClassNameAndSize, getVolumeType.
  destruct (find _ _); simpl; [| discriminate].
  destruct (ParseQuantity env size); discriminate.
Qed.

Lemma additionalVolumes_not_Panic (env : Env) (w : workerDelegate) (volumes : list DataVolume)
    (acc : list AdditionalVolume) :
  Forall (fun volume => dvType volume <> None) volumes ->
  foldM (additionalVolumeBody env w) volumes acc <> Panic.
Proof.
  apply foldM_not_Panic. intros volume acc' Htype. unfold additionalVolumeBody.
  destruct (dvType volume) as [type |]; [| contradiction].
  pose proof (getStorageClassNameAndSize_not_Panic env w type (dvSize volume)) as Hnp.
  destruct (getStorageClassNameAndSize env w type (dvSize volume)) as [[cls size] | e |];
    simpl; [discriminate | discriminate | contradiction].
Qed.

Lemma poolValues_not_Panic (env : Env) (w : workerDelegate) (rc : RunContext) (pool : WorkerPool) :
  declaresVolumeTypes pool -> poolValues env w rc pool <> Panic.
Proof.
  intros [Hvol Hdata]. unfold poolValues.
  pose proof (GetWorkerConfig_not_Panic (decoder env) pool) as Hcfg.
  destruct (helper.GetWorkerConfig (decoder env) pool) as [cfg | e |]; simpl; try congruence.
  unfold getMachineType. destruct (find _ _) as [mt |]; simpl; [| discriminate].
  destruct (WorkerPoolHash env pool (cluster w) (rcNetworksData rc)) as [e | hash]; simpl;
    [discriminate |].
  destruct (getMachineImageURL env w (poolImageName pool) (poolImageVersion pool)) as [e | url];
    simpl; [discriminate |].
  assert (Hroot : rootVolumeClassNameAndSize env w pool mt <> Panic).
  { unfold rootVolumeClassNameAndSize. destruct (poolVolume pool) as [volume |].
    - specialize (Hvol volume eq_refl). destruct (volType volume) as [type |]; [| contradiction].
      apply getStorageClassNameAndSize_not_Panic.
    - destruct (mtStorage mt) as [[class [size |]] |]; discriminate. }
  destruct (rootVolumeClassNameAndSize env w pool mt) as [[cls size] | e |]; simpl;
    [| discriminate | contradiction].
  pose proof (additionalVolumes_not_Panic env w (poolDataVolumes pool) [] Hdata) as Hadd.
  destruct (foldM (additionalVolumeBody env w) (poolDataVolumes pool) []); simpl; congruence.
Qed.

Lemma pool_loop_not_Panic (env : Env) (w : workerDelegate) (rc : RunContext)
    (pools : list WorkerPool) (acc : Acc) :
  Forall declaresVolumeTypes pools -> foldM (poolBody env w rc) pools acc <> Panic.
Proof.
  apply foldM_not_Panic. intros pool acc' Hpool. unfold poolBody.
  pose proof (poolValues_not_Panic env w rc pool Hpool) as Hnp.
  destruct (poolValues env w rc pool) as [pv | e |]; simpl;
    [discriminate | discriminate | contradiction].
Qed.

Lemma generate_not_Panic (env : Env) (w : workerDelegate) :
  Forall declaresVolumeTypes (wPools (worker w)) -> generate env w <> Panic.
Proof.
  intros Hall. unfold generate.
  pose proof (runContext_not_Panic env w) as Hrc.
  destruct (runContext env w) as [rc | e |]; simpl; [| discriminate | contradiction].
  apply pool_loop_not_Panic, Hall.
Qed.

Lemma poolValues_unknown_type (env : Env) (w : workerDelegate) (rc : RunContext)
    (pool : WorkerPool) :
  unknownMachineType w pool -> is_ok (poolValues env w rc pool) = false.
Proof.
  intros Hunknown. unfold poolValues.
  rewrite (getMachineType_unknown w _ Hunknown).
  destruct (wrap _ _ (helper.GetWorkerConfig _ _)); reflexivity.
Qed.

(** C3, as the code has it. A pool of unknown machine type keeps the run
    from completing, and the delegate's fields stay as they were: nothing
    is produced for any pool, earlier ones included. The run returns the
    first error it meets; that is the machine type's not-found error when
    everything before the lookup went well: the steps before the pool
    loop, the earlier pools, and the decoding of this pool's worker
    config. When every declared volume names its type, the outcome is an
    error return. *)
Theorem unknown_machine_type_aborts (env : Env) (w : workerDelegate) (pool : WorkerPool) :
  pool ∈ wPools (worker w) ->
  unknownMachineType w pool ->
  (fst (generateMachineConfig env w) = w /\
   is_ok (snd (generateMachineConfig env w)) = false) /\
  (Forall declaresVolumeTypes (wPools (worker w)) ->
   exists e, generateMachineConfig env w = (w, Err e)) /\
  (forall rc pre post acc workerConfig,
     wPools (worker w) = pre ++ pool :: post ->
     runContext env w = Ok rc ->
     foldM (poolBody env w rc) pre acc0 = Ok acc ->
     helper.GetWorkerConfig (decoder env) pool = Ok workerConfig ->
     generateMachineConfig env w = (w, Err (machineTypeNotFound (poolMachineType pool)))).
Proof.
  intros Hin Hunknown.
  pose proof (run_fails_with env w pool Hin
                (fun rc => poolValues_unknown_type env w rc pool Hunknown)) as [Hfst Hsnd].
  split; [split; assumption |]. split.
  - intros Hall. pose proof (generate_not_Panic env w Hall) as Hnp.
    unfold generateMachineConfig in *.
    destruct (generate env w) as [acc | e |]; simpl in *;
      [discriminate | exists e; reflexivity | contradiction].
  - intros rc pre post acc workerConfig Hpools Hrc Hpre Hcfg.
    apply (run_stops_at env w rc pre post pool acc _ Hpools Hrc Hpre).
    unfold poolValues. rewrite Hcfg. simpl.
    rewrite (getMachineType_unknown w _ Hunknown). reflexivity.
Qed.

(** C3, as the specification words it, fails: the first of these two pools
    has neither a volume nor a machine type with storage, the second has
    an unknown machine type, and the run returns the first pool's error. *)
Lemma unknown_machine_type_other_error : ~ unknown_type_returns_not_found.
Proof.
  intros H.
  destruct (H example.env
              (example.delegateOf (example.b "ssh-rsa AAAA")
                 [example.poolNoVolume; example.poolUnknownType])
              example.poolUnknownType) as [name Hname].
  - right. left.
  - unfold unknownMachineType. vm_compute. intros Hin.
    repeat (apply elem_of_cons in Hin as [Hin | Hin]; [discriminate |]). inversion Hin.
  - vm_compute in Hname. discriminate.
Qed.

Lemma poolValues_missing_volume (env : Env) (w : workerDelegate) (rc : RunContext)
    (pool : WorkerPool) (machineType : MachineType) :
  getMachineType w (poolMachineType pool) = Ok machineType ->
  poolVolume pool = None -> noBuiltinStorage machineType ->
  rootVolumeClassNameAndSize env w pool machineType = Err missingVolume /\
  is_ok (poolValues env w rc pool) = false /\
  forall workerConfig hash url,
    helper.GetWorkerConfig (decoder env) pool = Ok workerConfig ->
    WorkerPoolHash env pool (cluster w) (rcNetworksData rc) = inr hash ->
    getMachineImageURL env w (poolImageName pool) (poolImageVersion pool) = inr url ->
    poolValues env w rc pool = Err missingVolume.
Proof.
  intros Hmt Hvol Hstorage.
  assert (Hroot : rootVolumeClassNameAndSize env w pool machineType = Err missingVolume).
  { unfold rootVolumeClassNameAndSize. rewrite Hvol.
    destruct Hstorage as [-> | [class ->]]; reflexivity. }
  split; [exact Hroot |]. split.
  - unfold poolValues.
    destruct (helper.GetWorkerConfig _ _); run_step; try reflexivity.
    rewrite Hmt. run_step.
    destruct (WorkerPoolHash env pool (cluster w) (rcNetworksData rc)); run_step;
      try reflexivity.
    destruct (getMachineImageURL env w (poolImageName pool) (poolImageVersion pool));
      run_step; try reflexivity.
    rewrite Hroot. reflexivity.
  - intros workerConfig hash url Hcfg Hhash Hurl.
    unfold poolValues. rewrite Hcfg. run_step. rewrite Hmt. run_step.
    rewrite Hhash. run_step. rewrite Hurl. run_step. rewrite Hroot. reflexivity.
Qed.

(** C6. The root volume's storage class and size come, in this order of
    preference, from the pool's explicit volume (its type looked up in the
    catalog of volume types, its declared size parsed), else from the
    built-in storage of the resolved machine type when that has a storage
    size; the values so resolved are the ones of the root volume of every
    class of the pool. With neither present the run does not complete and
    writes nothing, and the error it returns once it has come as far as this
    pool's volume is the missing-volume error. *)
Theorem root_volume_resolution (env : Env) (w : workerDelegate) (pool : WorkerPool)
    (machineType : MachineType) :
  (forall type size,
     poolVolume pool = Some (mkVolume (Some type) size) ->
     rootVolumeClassNameAndSize env w pool machineType
       = getStorageClassNameAndSize env w type size /\
     (forall volumeType quantity,
        getVolumeType w type = Ok volumeType -> ParseQuantity env size = inr quantity ->
        rootVolumeClassNameAndSize env w pool machineType = Ok (vtClass volumeType, quantity))) /\
  (forall class size,
     poolVolume pool = None -> mtStorage machineType = Some (mkStorage class (Some size)) ->
     rootVolumeClassNameAndSize env w pool machineType = Ok (class, size)) /\
  (poolVolume pool = None -> noBuiltinStorage machineType ->
   rootVolumeClassNameAndSize env w pool machineType = Err missingVolume) /\
  (forall rc pv,
     getMachineType w (poolMachineType pool) = Ok machineType ->
     poolValues env w rc pool = Ok pv ->
     rootVolumeClassNameAndSize env w pool machineType
       = Ok (pvRootVolumeClassName pv, pvRootVolumeSize pv) /\
     forall zoneIndex zone,
       dvsPVC (mcRootVolume (classAt env w rc pool pv zoneIndex zone))
       = Some (pvcSpec (pvRootVolumeClassName pv) (pvRootVolumeSize pv))) /\
  (pool ∈ wPools (worker w) ->
   getMachineType w (poolMachineType pool) = Ok machineType ->
   poolVolume pool = None -> noBuiltinStorage machineType ->
   (fst (generateMachineConfig env w) = w /\
    is_ok (snd (generateMachineConfig env w)) = false) /\
   forall rc pre post acc workerConfig hash url,
     wPools (worker w) = pre ++ pool :: post ->
     runContext env w = Ok rc ->
     foldM (poolBody env w rc) pre acc0 = Ok acc ->
     helper.GetWorkerConfig (decoder env) pool = Ok workerConfig ->
     WorkerPoolHash env pool (cluster w) (rcNetworksData rc) = inr hash ->
     getMachineImageURL env w (poolImageName pool) (poolImageVersion pool) = inr url ->
     generateMachineConfig env w = (w, Err missingVolume)).
Proof.
  split; [| split; [| split; [| split]]].
  - intros type size Hvol.
    assert (Heq : rootVolumeClassNameAndSize env w pool machineType
                  = getStorageClassNameAndSize env w type size).
    { unfold rootVolumeClassNameAndSize. rewrite Hvol. reflexivity. }
    split; [exact Heq |]. intros volumeType quantity Hvt Hq.
    rewrite Heq. unfold getStorageClassNameAndSize. rewrite Hvt, Hq. reflexivity.
  - intros class size Hvol Hst. unfold rootVolumeClassNameAndSize. rewrite Hvol, Hst. reflexivity.
  - intros Hvol Hst.
    unfold rootVolumeClassNameAndSize. rewrite Hvol.
    destruct Hst as [-> | [class ->]]; reflexivity.
  - intros rc pv Hmt Hpv. apply poolValues_Ok in Hpv as (mt & _ & Hmt' & _ & _ & _ & Hroot & _).
    assert (mt = machineType) as -> by congruence.
    split; [exact Hroot |]. intros zoneIndex zone. rewrite classAt_root.
    destruct (DisablePreAllocatedDataVolumes (pvWorkerConfig pv)); reflexivity.
  - intros Hin Hmt Hvol Hst. split.
    + apply (run_fails_with env w pool Hin). intros rc.
      apply (poolValues_missing_volume env w rc pool machineType Hmt Hvol Hst).
    + intros rc pre post acc workerConfig hash url Hpools Hrc Hpre Hcfg Hhash Hurl.
      apply (run_stops_at env w rc pre post pool acc _ Hpools Hrc Hpre).
      destruct (poolValues_missing_volume env w rc pool machineType Hmt Hvol Hst)
        as (_ & _ & Herr).
      apply (Herr workerConfig hash url Hcfg Hhash Hurl).
Qed.

(** C6, as the specification words it, fails: the first of these two pools
    has an unknown machine type, the second has neither a volume nor a
    machine type with storage, and the run returns the first pool's
    not-found error, not the missing-volume error. *)
Lemma missing_volume_other_error : ~ no_volume_returns_missing_volume.
Proof.
  intros H.
  destruct (H example.env
              (example.delegateOf (example.b "ssh-rsa AAAA")
                 [example.poolUnknownType; example.poolNoVolume])
              example.poolNoVolume
              (mkMachineType "standard-2" (mkQuantity 4) (mkQuantity 16) None))
    as [w' Hrun].
  - right. left.
  - reflexivity.
  - reflexivity.
  - left. reflexivity.
  - vm_compute in Hrun. discriminate.
Qed.

(** ** The zone distributor *)

Lemma sumList_app (l k : list Z) : sumList (l ++ k) = sumList l + sumList k.
Proof. unfold sumList. induction l as [| x l IH]; simpl; [reflexivity | rewrite IH; lia]. Qed.

Lemma sumZones_S (share : Z -> Z) (n : nat) :
  sumZones share (S n) = sumZones share n + share (Z.of_nat n).
Proof.
  unfold sumZones. rewrite seq_S, fmap_app, sumList_app. simpl. lia.
Qed.

Lemma sumZones_plus (c : Z) (f : Z -> Z) (n : nat) :
  sumZones (fun i => c + f i) n = c * Z.of_nat n + sumZones f n.
Proof.
  induction n as [| n IH]; [unfold sumZones; simpl; lia |]. rewrite !sumZones_S, IH. lia.
Qed.

Lemma sumZones_indicator (r : Z) (n : nat) :
  0 <= r ->
  sumZones (fun i => if bool_decide (i < r) then 1 else 0) n = Z.min r (Z.of_nat n).
Proof.
  intros Hr. induction n as [| n IH]; [unfold sumZones; simpl; lia |].
  rewrite sumZones_S, IH. case_bool_decide; lia.
Qed.

Lemma DistributeOverZones_conserves (total : Z) (zoneCount : nat) :
  0 <= total -> (1 <= zoneCount)%nat ->
  conserves (fun i => distributor.DistributeOverZones i total (Z.of_nat zoneCount))
    total zoneCount.
Proof.
  intros Htotal Hcount. unfold distributor.DistributeOverZones.
  assert (Hn : 0 < Z.of_nat zoneCount) by lia.
  pose proof (Z.mod_pos_bound total _ Hn) as Hr.
  pose proof (Z.div_pos total _ Htotal Hn) as Hq.
  pose proof (Z.div_mod total (Z.of_nat zoneCount) ltac:(lia)) as Hdm.
  unfold conserves. split; [| split; [| split]].
  - rewrite sumZones_plus, sumZones_indicator by lia. lia.
  - intros i Hi. case_bool_decide; lia.
  - intros H0 i Hi. subst total. rewrite Z.div_0_l, Z.mod_0_l by lia. case_bool_decide; lia.
  - intros i j Hij. do 2 case_bool_decide; lia.
Qed.

Lemma resolve_nonneg (roundUp : bool) (v : IntOrPercent) (reference : Z) :
  nonNegative v -> 0 <= reference -> 0 <= distributor.resolve roundUp v reference.
Proof.
  destruct v as [n | p]; simpl; intros Hv Href; [exact Hv |].
  destruct roundUp; apply Z.div_pos; nia.
Qed.

Lemma int32_small (z : Z) : 0 <= z < 2 ^ 31 -> int32 z = z.
Proof.
  intros Hz. unfold int32. rewrite Z.mod_small; lia.
Qed.

(** The bounds of the deployments of a pool are the distributor's shares
    for the zone indices in order: the conversions to int32 change nothing
    for a zone list of a length below 2^31. *)
Lemma bounds_of_pool (env : Env) (w : workerDelegate) (pool : WorkerPool) (pv : PoolValues) :
  Z.of_nat (length (poolZones pool)) < 2 ^ 31 ->
  let n := Z.of_nat (length (poolZones pool)) in
  boundsOf <$> poolDeployments env w (pool, pv)
  = (fun i : nat =>
       (distributor.DistributeOverZones (Z.of_nat i) (poolMinimum pool) n,
        distributor.DistributeOverZones (Z.of_nat i) (poolMaximum pool) n,
        distributor.DistributePositiveIntOrPercent (percentRoundUp env) (Z.of_nat i)
          (poolMaxSurge pool) n (poolMaximum pool),
        distributor.DistributePositiveIntOrPercent (percentRoundUp env) (Z.of_nat i)
          (poolMaxUnavailable pool) n (poolMinimum pool)))
    <$> seq 0 (length (poolZones pool)).
Proof.
  intros Hlen n. unfold poolDeployments. simpl.
  rewrite fmap_imap, <- imap_seq_0. apply imap_ext. intros i zone Hzone. simpl.
  apply lookup_lt_Some in Hzone.
  unfold boundsOf, deploymentAt, machineDeploymentOf. simpl.
  rewrite !(int32_small (Z.of_nat i)) by lia.
  rewrite !(int32_small (Z.of_nat (length (poolZones pool)))) by lia.
  reflexivity.
Qed.

Lemma sumList_fmap_seq (f : nat -> Z * Z * Z * Z) (g : Z * Z * Z * Z -> Z) (share : Z -> Z)
    (n : nat) :
  (forall i : nat, g (f i) = share (Z.of_nat i)) ->
  sumList (g <$> (f <$> seq 0 n)) = sumZones share n.
Proof.
  intros Hfg. unfold sumZones. rewrite <- list_fmap_compose. f_equal.
  apply list_fmap_ext. intros i x _. simpl. apply Hfg.
Qed.

Lemma sum_of_bound (env : Env) (w : workerDelegate) (pool : WorkerPool) (pv : PoolValues)
    (field : MachineDeployment -> Z) (g : Z * Z * Z * Z -> Z) (share : Z -> Z) (total : Z) :
  Z.of_nat (length (poolZones pool)) < 2 ^ 31 ->
  (forall d, field d = g (boundsOf d)) ->
  (forall i : nat,
     g (distributor.DistributeOverZones (Z.of_nat i) (poolMinimum pool)
          (Z.of_nat (length (poolZones pool))),
        distributor.DistributeOverZones (Z.of_nat i) (poolMaximum pool)
          (Z.of_nat (length (poolZones pool))),
        distributor.DistributePositiveIntOrPercent (percentRoundUp env) (Z.of_nat i)
          (poolMaxSurge pool) (Z.of_nat (length (poolZones pool))) (poolMaximum pool),
        distributor.DistributePositiveIntOrPercent (percentRoundUp env) (Z.of_nat i)
          (poolMaxUnavailable pool) (Z.of_nat (length (poolZones pool))) (poolMinimum pool))
     = share (Z.of_nat i)) ->
  conserves share total (length (poolZones pool)) ->
  sumList (field <$> poolDeployments env w (pool, pv)) = total.
Proof.
  intros Hlen Hfield Hshare [Hsum _].
  rewrite (list_fmap_ext field (g ∘ boundsOf) (poolDeployments env w (pool, pv)))
    by (intros; apply Hfield).
  rewrite list_fmap_compose, (bounds_of_pool env w pool pv Hlen).
  rewrite (sumList_fmap_seq _ g share _ Hshare). exact Hsum.
Qed.

(** C2. For a non-negative total and at least one zone, the shares of the
    zones of index 0 .. N-1 add up to the total, none is negative, a total
    of 0 gives 0 to every zone, and the earlier zones take the remainder:
    for DistributeOverZones over an absolute total, and for
    DistributePositiveIntOrPercent over the bound resolved once against
    the reference. The bounds of the deployments of a pool are these
    shares, so they add up to the pool's minimum and maximum and to its
    resolved surge and unavailable bounds. For the pool with two zones,
    minimum 4, maximum 6, maxSurge 50% and maxUnavailable 0, the
    deployments get minimum 2 and 2, maximum 3 and 3, maxSurge 2 and 1,
    maxUnavailable 0 and 0. *)
Theorem zone_distribution_conserves :
  (forall total zoneCount,
     0 <= total -> (1 <= zoneCount)%nat ->
     conserves (fun i => distributor.DistributeOverZones i total (Z.of_nat zoneCount))
       total zoneCount) /\
  (forall roundUp bound reference zoneCount,
     nonNegative bound -> 0 <= reference -> (1 <= zoneCount)%nat ->
     0 <= distributor.resolve roundUp bound reference /\
     conserves (fun i => distributor.DistributePositiveIntOrPercent roundUp i bound
                           (Z.of_nat zoneCount) reference)
       (distributor.resolve roundUp bound reference) zoneCount) /\
  (forall env w pool pv,
     (1 <= length (poolZones pool))%nat -> Z.of_nat (length (poolZones pool)) < 2 ^ 31 ->
     0 <= poolMinimum pool -> 0 <= poolMaximum pool ->
     nonNegative (poolMaxSurge pool) -> nonNegative (poolMaxUnavailable pool) ->
     let deployments := poolDeployments env w (pool, pv) in
     sumList (mdMinimum <$> deployments) = poolMinimum pool /\
     sumList (mdMaximum <$> deployments) = poolMaximum pool /\
     sumList (mdMaxSurge <$> deployments)
       = distributor.resolve (percentRoundUp env) (poolMaxSurge pool) (poolMaximum pool) /\
     sumList (mdMaxUnavailable <$> deployments)
       = distributor.resolve (percentRoundUp env) (poolMaxUnavailable pool) (poolMinimum pool)) /\
  (forall env w pool pv z1 z2,
     poolZones pool = [z1; z2] ->
     poolMinimum pool = 4 -> poolMaximum pool = 6 ->
     poolMaxSurge pool = PercentVal 50 -> poolMaxUnavailable pool = IntVal 0 ->
     boundsOf <$> poolDeployments env w (pool, pv) = [(2, 3, 2, 0); (2, 3, 1, 0)]).
Proof.
  split; [| split; [| split]].
  - apply DistributeOverZones_conserves.
  - intros roundUp bound reference zoneCount Hbound Href Hcount.
    pose proof (resolve_nonneg roundUp bound reference Hbound Href) as Hres.
    split; [exact Hres |].
    apply (DistributeOverZones_conserves _ zoneCount Hres Hcount).
  - intros env w pool pv Hcount Hlen Hmin Hmax Hsurge Hunav deployments.
    unfold deployments. repeat split.
    + apply (sum_of_bound env w pool pv mdMinimum (fun b => b.1.1.1)
               (fun i => distributor.DistributeOverZones i (poolMinimum pool)
                           (Z.of_nat (length (poolZones pool)))));
        [exact Hlen | reflexivity | reflexivity |].
      apply DistributeOverZones_conserves; assumption.
    + apply (sum_of_bound env w pool pv mdMaximum (fun b => b.1.1.2)
               (fun i => distributor.DistributeOverZones i (poolMaximum pool)
                           (Z.of_nat (length (poolZones pool)))));
        [exact Hlen | reflexivity | reflexivity |].
      apply DistributeOverZones_conserves; assumption.
    + apply (sum_of_bound env w pool pv mdMaxSurge (fun b => b.1.2)
               (fun i => distributor.DistributePositiveIntOrPercent (percentRoundUp env) i
                           (poolMaxSurge pool) (Z.of_nat (length (poolZones pool)))
                           (poolMaximum pool)));
        [exact Hlen | reflexivity | reflexivity |].
      apply DistributeOverZones_conserves; [apply resolve_nonneg |]; assumption.
    + apply (sum_of_bound env w pool pv mdMaxUnavailable (fun b => b.2)
               (fun i => distributor.DistributePositiveIntOrPercent (percentRoundUp env) i
                           (poolMaxUnavailable pool) (Z.of_nat (length (poolZones pool)))
                           (poolMinimum pool)));
        [exact Hlen | reflexivity | reflexivity |].
      apply DistributeOverZones_conserves; [apply resolve_nonneg |]; assumption.
  - intros env w pool pv z1 z2 Hzones Hmin Hmax Hsurge Hunav.
    unfold poolDeployments, deploymentAt, machineDeploymentOf, boundsOf. simpl.
    rewrite Hzones, Hmin, Hmax, Hsurge, Hunav. simpl.
    destruct (percentRoundUp env); reflexivity.
Qed.

(** ** The shoot validator *)

Import validator.

(** A loop that decodes each element and appends the result. *)
Lemma foldM_collect {A B : Type} (f : A -> result B) (xs : list A) (acc res : list B) :
  foldM (fun acc x => y ← f x; Ok (acc ++ [y])) xs acc = Ok res ->
  exists ys, res = acc ++ ys /\ Forall2 (fun x y => f x = Ok y) xs ys.
Proof.
  revert acc. induction xs as [| x xs IH]; intros acc; simpl; intros H.
  - exists []. rewrite app_nil_r. split; [congruence | constructor].
  - apply bind_Ok in H as (acc1 & Hbody & H).
    apply bind_Ok in Hbody as (y & Hy & Hacc). inversion Hacc; subst; clear Hacc.
    apply IH in H as (ys & -> & Hall).
    exists (y :: ys). rewrite <- app_assoc. split; [reflexivity | constructor; assumption].
Qed.

(** A validation context holds the shoot it was built from and one worker
    config context per worker, in order, carrying the worker's data volumes. *)
Lemma newValidationContext_Ok (env : validator.Env) (sh : Shoot) (dec : Decoder)
    (valContext : validationContext) :
  newValidationContext env sh dec = Ok valContext ->
  shoot valContext = sh /\
  dataVolumes <$> workerConfigsContexts valContext = cwDataVolumes <$> shWorkers sh.
Proof.
  unfold newValidationContext. intros H.
  apply bind_Ok in H as (ic & _ & H).
  apply bind_Ok in H as (cpc & _ & H).
  apply bind_Ok in H as (contexts & Hcontexts & H).
  apply bind_Ok in H as (profile & _ & H).
  destruct (cpProviderConfig profile) as [raw |]; [| discriminate].
  apply bind_Ok in H as (profileConfig & _ & H).
  inversion H; subst; clear H. simpl. split; [reflexivity |].
  match type of Hcontexts with
  | foldM ?body _ _ = _ =>
      assert (Hgen : forall wks acc res,
                 foldM body wks acc = Ok res ->
                 dataVolumes <$> res = (dataVolumes <$> acc) ++ (cwDataVolumes <$> wks))
  end.
  { induction wks as [| wk wks IH]; intros acc res; simpl; intros H.
    - inversion H. rewrite app_nil_r. reflexivity.
    - apply bind_Ok in H as (acc1 & Hbody & H).
      apply bind_Ok in Hbody as (cfg & _ & Hacc). inversion Hacc; subst; clear Hacc.
      apply IH in H. rewrite H, fmap_app, <- app_assoc. reflexivity. }
  apply (Hgen _ _ _ Hcontexts).
Qed.

Lemma newValidationContext_withWorkerConfigCheck (env : validator.Env) check (sh : Shoot)
    (dec : Decoder) :
  newValidationContext (withWorkerConfigCheck check env) sh dec = newValidationContext env sh dec.
Proof. reflexivity. Qed.

Lemma two_contexts (contexts : list workerConfigContext) (c1 c2 : WorkerConfig)
    (d1 d2 : list DataVolume) :
  workerConfig <$> contexts = [c1; c2] -> dataVolumes <$> contexts = [d1; d2] ->
  contexts = [mkWorkerConfigContext c1 d1; mkWorkerConfigContext c2 d2].
Proof.
  destruct contexts as [| [x1 y1] [| [x2 y2] [| ? ?]]]; simpl; intros H1 H2;
    try discriminate.
  inversion H1; inversion H2; subst. reflexivity.
Qed.

(** C4, as the code has it. On an update that leaves pool "a"'s decoded
    worker config as it was and changes pool "b"'s, the update check of
    worker configs (ValidateWorkerConfigUpdate) is run for pool "b" only;
    the structural check of worker configs (ValidateWorkerConfig) is then
    run by validateContext on the config of every pool of the new shoot,
    pool "a" as well as pool "b". *)
Theorem update_validation_scope (env : validator.Env) (oldShoot shoot : Shoot)
    (oldValContext currentValContext : validationContext)
    (oldA oldB newA newB : CoreWorker) (configA oldConfigB configB : WorkerConfig) :
  newValidationContext env oldShoot (lenientDecoder env) = Ok oldValContext ->
  newValidationContext env shoot (decoder env) = Ok currentValContext ->
  shWorkers oldShoot = [oldA; oldB] ->
  shWorkers shoot = [newA; newB] ->
  cwName oldA = cwName newA -> cwName oldB = cwName newB -> cwName newA <> cwName newB ->
  workerConfig <$> workerConfigsContexts oldValContext = [configA; oldConfigB] ->
  workerConfig <$> workerConfigsContexts currentValContext = [configA; configB] ->
  oldConfigB <> configB ->
  validateUpdate env oldShoot shoot
  = ToAggregate
      (sectionUpdateErrors env oldValContext currentValContext
       ++ ValidateWorkersUpdate env [oldA; oldB] [newA; newB] workersPath
       ++ ValidateWorkerConfigUpdate env configB oldConfigB (workerConfigPath 1)
       ++ shootErrors env currentValContext
       ++ ValidateWorkerConfig env configA (cwDataVolumes newA) (workerConfigPath 0)
       ++ ValidateWorkerConfig env configB (cwDataVolumes newB) (workerConfigPath 1)).
Proof.
  intros Hold Hnew HoldW HnewW HnameA HnameB Hdistinct HoldC HnewC Hchanged.
  destruct (newValidationContext_Ok _ _ _ _ Hold) as [HoldS HoldD].
  destruct (newValidationContext_Ok _ _ _ _ Hnew) as [HnewS HnewD].
  rewrite HoldW in HoldD. rewrite HnewW in HnewD. simpl in HoldD, HnewD.
  pose proof (two_contexts _ _ _ _ _ HoldC HoldD) as HoldCtx.
  pose proof (two_contexts _ _ _ _ _ HnewC HnewD) as HnewCtx.
  unfold validateUpdate. rewrite Hold, Hnew. run_step.
  assert (Herrs : validateUpdateErrors env oldShoot shoot oldValContext currentValContext
                  = Ok (sectionUpdateErrors env oldValContext currentValContext
                        ++ ValidateWorkersUpdate env [oldA; oldB] [newA; newB] workersPath
                        ++ ValidateWorkerConfigUpdate env configB oldConfigB (workerConfigPath 1)
                        ++ shootErrors env currentValContext
                        ++ ValidateWorkerConfig env configA (cwDataVolumes newA)
                             (workerConfigPath 0)
                        ++ ValidateWorkerConfig env configB (cwDataVolumes newB)
                             (workerConfigPath 1))).
  { unfold validateUpdateErrors, validateContext, sectionUpdateErrors, shootErrors, workerNameAt.
    rewrite HoldCtx, HnewCtx, HoldS, HnewS, HoldW, HnewW. simpl.
    rewrite <- HnameA, <- HnameB.
    rewrite (bool_decide_eq_true_2 (cwName oldA = cwName oldA)) by reflexivity.
    rewrite (bool_decide_eq_true_2 (cwName oldB = cwName oldB)) by reflexivity.
    rewrite (bool_decide_eq_false_2 (configA <> configA)) by (intros H; apply H; reflexivity).
    rewrite (bool_decide_eq_false_2 (cwName oldA = cwName oldB)) by congruence.
    rewrite (bool_decide_eq_false_2 (cwName oldB = cwName oldA)) by congruence.
    rewrite (bool_decide_eq_true_2 (oldConfigB <> configB)) by exact Hchanged.
    simpl. f_equal.
    destruct (bool_decide (infrastructureConfig oldValContext
                           <> infrastructureConfig currentValContext));
      destruct (bool_decide (controlPlaneConfig oldValContext
                             <> controlPlaneConfig currentValContext));
      simpl; rewrite ?app_nil_r, <- ?app_assoc; reflexivity. }
  rewrite Herrs. reflexivity.
Qed.

(** C4, as the specification words it, fails: pool "a"'s config did not
    change and is checked all the same. With a structural check that
    rejects pool "a"'s DNS policy the update of pool "b" is refused, for
    pool "a"'s config; with one that accepts it the update passes. *)
Lemma unchanged_pool_is_revalidated : ~ unchanged_pool_not_revalidated.
Proof.
  intros H.
  specialize (H example_admission.env example_admission.rejectBogus
                example_admission.oldShoot example_admission.newShoot
                (example_admission.configOf "Bogus")).
  assert (Hdiff : validateUpdate
                    (withWorkerConfigCheck example_admission.rejectBogus example_admission.env)
                    example_admission.oldShoot example_admission.newShoot
                  = Err (AggregateError
                           [mkFieldError "FieldValueInvalid" (workerConfigPath 0)
                              "unsupported dnsPolicy"]))
    by (vm_compute; reflexivity).
  assert (Hsame : validateUpdate example_admission.env example_admission.oldShoot
                    example_admission.newShoot = Ok tt)
    by (vm_compute; reflexivity).
  rewrite Hdiff, Hsame in H. discriminate H.
  - eexists _, _, (example_admission.configOf "ClusterFirst"),
      (example_admission.configOf "Default").
    split; [vm_compute; reflexivity |]. split; [vm_compute; reflexivity |].
    repeat split; try (vm_compute; reflexivity).
    vm_compute. discriminate.
  - intros config dvs path Hconfig. unfold example_admission.rejectBogus. simpl.
    rewrite bool_decide_eq_false_2 by exact Hconfig. reflexivity.
Qed.

(** * The properties on the example cluster *)

Lemma extractors_absent_payload_is_zero_witness :
  absent (poolProviderConfig example.poolA) /\
  helper.GetWorkerConfig example.decoder example.poolA = Ok zeroWorkerConfig.
Proof.
  assert (Habsent : absent (poolProviderConfig example.poolA)) by (left; reflexivity).
  split; [exact Habsent |].
  destruct (extractors_absent_payload_is_zero example.decoder) as [[Hzero _] _].
  exact (Hzero example.poolA Habsent).
Defined.

Lemma secret_validate_scoping_witness :
  let secret := example_admission.secretOf "cloudprovider" ∅ in
  secData secret = secData secret /\
  validator.secretValidate example_admission.env (Some (validator.SecretObject secret))
    (Some (validator.SecretObject secret)) = Ok tt.
Proof.
  intros secret.
  destruct (secret_validate_scoping example_admission.env secret) as [Hequal _].
  split; [reflexivity | exact (Hequal secret eq_refl)].
Defined.

Lemma missing_ssh_key_aborts_witness :
  length (wSSHPublicKey (worker.worker example_runs.noKey)) = 0%nat /\
  exists e,
    worker.generateMachineConfig example.env example_runs.noKey = (example_runs.noKey, Err e) /\
    forall pools,
      worker.generateMachineConfig example.env (withPools pools example_runs.noKey)
      = (withPools pools example_runs.noKey, Err e).
Proof.
  split; [reflexivity |].
  exact (missing_ssh_key_aborts example.env example_runs.noKey eq_refl).
Defined.

Lemma generation_is_cached_witness :
  worker.generateMachineConfig example.env example.delegate = (example_runs.generated, Ok tt) /\
  worker.machineDeployments example_runs.generated <> None /\
  forall env' worker' cluster' cloudProfileConfig',
    worker.GenerateMachineDeployments env'
      (withInputs worker' cluster' cloudProfileConfig' example_runs.generated)
    = (withInputs worker' cluster' cloudProfileConfig' example_runs.generated,
       Ok (worker.machineDeployments example_runs.generated)).
Proof.
  assert (Hrun : worker.generateMachineConfig example.env example.delegate
                 = (example_runs.generated, Ok tt)) by (vm_compute; reflexivity).
  split; [exact Hrun |].
  destruct (generation_is_cached example.env example.delegate) as (_ & _ & Hafter).
  destruct (Hafter example_runs.generated Hrun) as (_ & Hnotnil & _ & Hreuse).
  split; [exact Hnotnil | exact Hreuse].
Defined.

Lemma machine_names_witness :
  worker.generateMachineConfig example.env example.delegate = (example_runs.generated, Ok tt) /\
  exists rc hashes deployments,
    worker.runContext example.env example.delegate = Ok rc /\
    Forall2 (fun pool hash =>
               worker.WorkerPoolHash example.env pool (worker.cluster example.delegate)
                 (worker.rcNetworksData rc) = inr hash)
            (wPools (worker.worker example.delegate)) hashes /\
    worker.machineDeployments example_runs.generated = Some deployments /\
    namesOf <$> deployments
      = flat_map (expectedNames (Namespace (wMeta (worker.worker example.delegate))))
          (zip (wPools (worker.worker example.delegate)) hashes) /\
    mcName <$> elements_of (worker.machineClasses example_runs.generated)
      = mdClassName <$> deployments.
Proof.
  assert (Hrun : worker.generateMachineConfig example.env example.delegate
                 = (example_runs.generated, Ok tt)) by (vm_compute; reflexivity).
  split; [exact Hrun |].
  exact (machine_names example.env example.delegate example_runs.generated Hrun).
Defined.

Lemma volume_strategy_witness :
  worker.generateMachineConfig example.env example.delegate = (example_runs.generated, Ok tt) /\
  exists rc,
    worker.runContext example.env example.delegate = Ok rc /\
    volumesConsistent (worker.rcNamespace rc)
      (elements_of (worker.machineClasses example_runs.generated))
      (worker.machineClassVolumes example_runs.generated).
Proof.
  assert (Hrun : worker.generateMachineConfig example.env example.delegate
                 = (example_runs.generated, Ok tt)) by (vm_compute; reflexivity).
  split; [exact Hrun |].
  destruct volume_strategy as (_ & _ & Hruns).
  destruct (Hruns example.env example.delegate example_runs.generated Hrun)
    as (rc & Hrc & _ & _ & Hcons).
  exists rc. split; [exact Hrc | exact Hcons].
Defined.

Lemma zone_distribution_conserves_witness :
  (0 <= 5 /\ (1 <= 2)%nat /\
   conserves (fun i => distributor.DistributeOverZones i 5 (Z.of_nat 2)) 5 2) /\
  (poolZones example.poolA = ["z1"; "z2"] /\
   boundsOf <$> poolDeployments example.env example.delegate (example.poolA, example_runs.valuesA)
   = [(2, 3, 2, 0); (2, 3, 1, 0)]).
Proof.
  destruct zone_distribution_conserves as (Habsolute & _ & _ & Hscenario).
  split.
  - split; [lia |]. split; [lia |]. apply (Habsolute 5 2%nat); lia.
  - split; [reflexivity |].
    apply (Hscenario example.env example.delegate example.poolA example_runs.valuesA "z1" "z2");
      reflexivity.
Defined.

Lemma unknown_machine_type_aborts_witness :
  example.poolUnknownType ∈ wPools (worker.worker example_runs.unknownSecond) /\
  unknownMachineType example_runs.unknownSecond example.poolUnknownType /\
  worker.generateMachineConfig example.env example_runs.unknownSecond
  = (example_runs.unknownSecond, Err (machineTypeNotFound "standard-9")).
Proof.
  assert (Hin : example.poolUnknownType ∈ wPools (worker.worker example_runs.unknownSecond))
    by (right; left).
  assert (Hunknown : unknownMachineType example_runs.unknownSecond example.poolUnknownType)
    by (unfold unknownMachineType; vm_compute; intros H;
        repeat (apply elem_of_cons in H as [H | H]; [discriminate |]); inversion H).
  split; [exact Hin |]. split; [exact Hunknown |].
  destruct (unknown_machine_type_aborts example.env example_runs.unknownSecond
              example.poolUnknownType Hin Hunknown) as (_ & _ & Hfirst).
  eapply (Hfirst _ [example.poolA] [] _ zeroWorkerConfig);
    [reflexivity | vm_compute; reflexivity | vm_compute; reflexivity | reflexivity].
Defined.

Lemma root_volume_resolution_witness :
  (poolVolume example.poolB = Some (mkVolume (Some "default") "20Gi") /\
   worker.rootVolumeClassNameAndSize example.env example.delegate example.poolB
     (mkMachineType "standard-2" (mkQuantity 4) (mkQuantity 16) None)
   = Ok ("standard", mkQuantity 20)) /\
  (example.poolNoVolume ∈ wPools (worker.worker example_runs.noVolumeSecond) /\
   worker.generateMachineConfig example.env example_runs.noVolumeSecond
   = (example_runs.noVolumeSecond, Err missingVolume)).
Proof.
  split.
  - split; [reflexivity |].
    destruct (root_volume_resolution example.env example.delegate example.poolB
                (mkMachineType "standard-2" (mkQuantity 4) (mkQuantity 16) None))
      as (Hexplicit & _).
    destruct (Hexplicit "default" "20Gi" eq_refl) as [_ Hlookup].
    apply (Hlookup (mkVolumeType "default" "standard") (mkQuantity 20)); reflexivity.
  - assert (Hin : example.poolNoVolume ∈ wPools (worker.worker example_runs.noVolumeSecond))
      by (right; left).
    split; [exact Hin |].
    destruct (root_volume_resolution example.env example_runs.noVolumeSecond
                example.poolNoVolume
                (mkMachineType "standard-2" (mkQuantity 4) (mkQuantity 16) None))
      as (_ & _ & _ & _ & Hrun).
    destruct (Hrun Hin eq_refl eq_refl (or_introl eq_refl)) as [_ Hreached].
    eapply (Hreached _ [example.poolA] [] _ zeroWorkerConfig "hstandard-2"
              "https://images.example/ubuntu-18.04");
      [reflexivity | vm_compute; reflexivity | vm_compute; reflexivity
       | reflexivity | reflexivity | reflexivity].
Defined.

Lemma update_validation_scope_witness :
  validator.newValidationContext example_admission.env example_admission.oldShoot
    (validator.lenientDecoder example_admission.env) = Ok example_runs.oldContext /\
  validator.newValidationContext example_admission.env example_admission.newShoot
    (validator.decoder example_admission.env) = Ok example_runs.newContext /\
  validator.validateUpdate
    (withWorkerConfigCheck example_admission.rejectBogus example_admission.env)
    example_admission.oldShoot example_admission.newShoot
  = Err (AggregateError
           [mkFieldError "FieldValueInvalid" (validator.workerConfigPath 0)
              "unsupported dnsPolicy"]).
Proof.
  assert (Hold : validator.newValidationContext example_admission.env
                   example_admission.oldShoot
                   (validator.lenientDecoder example_admission.env)
                 = Ok example_runs.oldContext) by reflexivity.
  assert (Hnew : validator.newValidationContext example_admission.env
                   example_admission.newShoot
                   (validator.decoder example_admission.env)
                 = Ok example_runs.newContext) by reflexivity.
  split; [exact Hold |]. split; [exact Hnew |].
  rewrite (update_validation_scope
             (withWorkerConfigCheck example_admission.rejectBogus example_admission.env)
             example_admission.oldShoot example_admission.newShoot
             example_runs.oldContext example_runs.newContext
             (example_admission.workerOf "a" "Bogus")
             (example_admission.workerOf "b" "ClusterFirst")
             (example_admission.workerOf "a" "Bogus")
             (example_admission.workerOf "b" "Default")
             (example_admission.configOf "Bogus")
             (example_admission.configOf "ClusterFirst")
             (example_admission.configOf "Default")
             Hold Hnew eq_refl eq_refl eq_refl eq_refl
             ltac:(vm_compute; discriminate) eq_refl eq_refl
             ltac:(vm_compute; discriminate)).
  reflexivity.
Defined.

(** The names and bounds of the deployments of the example cluster, in
    full: the zone ordinal in a name counts from 1. *)
Lemma example_deployments :
  (fun d => (namesOf d, boundsOf d))
    <$> elements_of (worker.machineDeployments example_runs.generated)
  = [(("shoot--dev--demo-pool-a-z1", "shoot--dev--demo-pool-a-z1-hstandard-1",
       "shoot--dev--demo-pool-a-z1-hstandard-1"), (2, 3, 2, 0));
     (("shoot--dev--demo-pool-a-z2", "shoot--dev--demo-pool-a-z2-hstandard-1",
       "shoot--dev--demo-pool-a-z2-hstandard-1"), (2, 3, 1, 0));
     (("shoot--dev--demo-pool-b-z1", "shoot--dev--demo-pool-b-z1-hstandard-2",
       "shoot--dev--demo-pool-b-z1-hstandard-2"), (1, 2, 1, 0))].
Proof. vm_compute. reflexivity. Qed.

(** The root volumes of the example cluster: pool-a pre-allocates, pool-b
    does not, and only pool-a's classes have a machine class volume. *)
Lemma example_volumes :
  (fun c => (mcName c, dvsSource (mcRootVolume c)))
    <$> elements_of (worker.machineClasses example_runs.generated)
  = [("shoot--dev--demo-pool-a-z1-hstandard-1",
      mkSource None
        (Some (mkSourcePVC "provider-ns" "shoot--dev--demo-pool-a-z1-hstandard-1")) None);
     ("shoot--dev--demo-pool-a-z2-hstandard-1",
      mkSource None
        (Some (mkSourcePVC "provider-ns" "shoot--dev--demo-pool-a-z2-hstandard-1")) None);
     ("shoot--dev--demo-pool-b-z1-hstandard-2",
      mkSource (Some (mkSourceHTTP "https://images.example/ubuntu-18.04")) None None)] /\
  dom (worker.machineClassVolumes example_runs.generated)
  = ({[ "shoot--dev--demo-pool-a-z1-hstandard-1"; "shoot--dev--demo-pool-a-z2-hstandard-1" ]}
     : gset string).
Proof. split; vm_compute; reflexivity. Qed.

(** A run without pools completes and stores an empty, non-nil slice of
    deployments, but leaves [machineClasses] nil: DeployMachineClasses
    would generate again, GenerateMachineDeployments would not. *)
Lemma example_without_pools :
  let w := example.delegateOf (example.b "ssh-rsa AAAA") [] in
  snd (worker.generateMachineConfig example.env w) = Ok tt /\
  worker.machineDeployments (fst (worker.generateMachineConfig example.env w)) = Some [] /\
  worker.machineClasses (fst (worker.generateMachineConfig example.env w)) = None.
Proof. repeat split. Qed.

(** * Further properties of the code *)

(** ** Catalog lookups *)

(** Looks a constant key up in a map literal. *)
Ltac lookup_literal :=
  repeat (rewrite lookup_insert_ne by discriminate);
  first [apply lookup_insert_eq | apply lookup_singleton_eq].

Lemma find_firstWith {A : Type} (P : A -> Prop) {Pdec : forall x, Decision (P x)} (l : list A)
    (x : A) :
  find (fun y => bool_decide (P y)) l = Some x <-> firstWith P l x.
Proof.
  unfold firstWith. induction l as [| y l IH]; simpl.
  - split; [discriminate |]. intros (pre & post & H & _). destruct pre; discriminate.
  - case_bool_decide as Hy.
    + split.
      * intros [= <-]. exists [], l. repeat split; [exact Hy | constructor].
      * intros (pre & post & Hl & Hx & Hpre). destruct pre as [| z pre]; simpl in Hl.
        -- congruence.
        -- inversion Hl; subst. inversion Hpre; subst. contradiction.
    + rewrite IH. split.
      * intros (pre & post & -> & Hx & Hpre). exists (y :: pre), post.
        repeat split; [exact Hx | constructor; assumption].
      * intros (pre & post & Hl & Hx & Hpre). destruct pre as [| z pre]; simpl in Hl.
        -- inversion Hl; subst. contradiction.
        -- inversion Hl; subst. inversion Hpre; subst. exists pre, post. auto.
Qed.

Lemma find_None_fmap {A : Type} (key : A -> string) (l : list A) (name : string) :
  find (fun y => bool_decide (key y = name)) l = None <-> name ∉ (key <$> l).
Proof.
  induction l as [| y l IH]; simpl.
  - split; [intros _ H; inversion H | reflexivity].
  - rewrite not_elem_of_cons. case_bool_decide as Hy.
    + split; [discriminate | intros [Hne _]; congruence].
    + rewrite IH. split; [intros H; split; [congruence | exact H] | intros [_ H]; exact H].
Qed.

Lemma getVolumeType_unknown (w : workerDelegate) (name : string) :
  getVolumeType w name = Err (volumeTypeNotFound name) <->
  name ∉ (vtName <$> cpVolumeTypes (clCloudProfile (cluster w))).
Proof.
  rewrite <- find_None_fmap. unfold getVolumeType.
  destruct (find _ _); split; intros; try reflexivity; discriminate.
Qed.

(** X1. The three catalog lookups are linear scans with an exact match on
    the name: each returns the first entry of that name, getMachineType
    and getVolumeType fail with their not-found error exactly when no
    entry has the name, and getMachineTypeExtension returns nothing when
    the delegate has no cloud profile config. *)
Theorem catalog_lookups_first_match (w : workerDelegate) (name : string) :
  (forall mt, getMachineType w name = Ok mt <->
     firstWith (fun x => mtName x = name) (cpMachineTypes (clCloudProfile (cluster w))) mt) /\
  (getMachineType w name = Err (machineTypeNotFound name) <->
     name ∉ (mtName <$> cpMachineTypes (clCloudProfile (cluster w)))) /\
  (forall vt, getVolumeType w name = Ok vt <->
     firstWith (fun x => vtName x = name) (cpVolumeTypes (clCloudProfile (cluster w))) vt) /\
  (getVolumeType w name = Err (volumeTypeNotFound name) <->
     name ∉ (vtName <$> cpVolumeTypes (clCloudProfile (cluster w)))) /\
  (forall ext, getMachineTypeExtension w name = Some ext <->
     exists config, worker.cloudProfileConfig w = Some config /\
       firstWith (fun x => mteName x = name) (cpcMachineTypes config) ext) /\
  (worker.cloudProfileConfig w = None -> getMachineTypeExtension w name = None).
Proof.
  split; [| split; [| split; [| split; [| split]]]].
  - intros mt.
    pose proof (find_firstWith (fun x => mtName x = name)
                  (cpMachineTypes (clCloudProfile (cluster w))) mt) as <-.
    unfold getMachineType. destruct (find _ _); split; congruence.
  - rewrite <- find_None_fmap. unfold getMachineType.
    destruct (find _ _); split; intros; try reflexivity; discriminate.
  - intros vt.
    pose proof (find_firstWith (fun x => vtName x = name)
                  (cpVolumeTypes (clCloudProfile (cluster w))) vt) as <-.
    unfold getVolumeType. destruct (find _ _); split; congruence.
  - apply getVolumeType_unknown.
  - intros ext. unfold getMachineTypeExtension.
    destruct (worker.cloudProfileConfig w) as [config |].
    + pose proof (find_firstWith (fun x => mteName x = name) (cpcMachineTypes config) ext)
        as Hfind.
      rewrite Hfind. split.
      * intros H. exists config. split; [reflexivity | exact H].
      * intros (config' & [= <-] & H). exact H.
    + split; [discriminate | intros (config & H & _); discriminate].
  - intros H. unfold getMachineTypeExtension. rewrite H. reflexivity.
Qed.

Lemma catalog_lookups_first_match_witness :
  ("standard-9" ∉ (mtName <$> cpMachineTypes (clCloudProfile (cluster example.delegate)))) /\
  getMachineType example.delegate "standard-9" = Err (machineTypeNotFound "standard-9") /\
  getMachineTypeExtension example.delegate "standard-1" = None.
Proof.
  assert (Hnin : "standard-9"
                 ∉ (mtName <$> cpMachineTypes (clCloudProfile (cluster example.delegate)))).
  { vm_compute. intros H.
    repeat (apply elem_of_cons in H as [H | H]; [discriminate |]). inversion H. }
  destruct (catalog_lookups_first_match example.delegate "standard-9")
    as (_ & Hmissing & _).
  destruct (catalog_lookups_first_match example.delegate "standard-1")
    as (_ & _ & _ & _ & _ & Hnone).
  split; [exact Hnin |]. split; [apply Hmissing, Hnin | apply Hnone; reflexivity].
Defined.

(** ** What a completed run has emitted *)

Lemma zip_elem_Forall2 {A B : Type} (P : A -> B -> Prop) (l : list A) (k : list B) (x : A)
    (y : B) :
  Forall2 P l k -> (x, y) ∈ zip l k -> x ∈ l /\ P x y.
Proof.
  induction 1 as [| a b l k Hab _ IH]; simpl; intros Hin; [inversion Hin |].
  apply elem_of_cons in Hin as [[= -> ->] | Hin].
  - split; [left | exact Hab].
  - destruct (IH Hin) as [Hx HP]. split; [right; exact Hx | exact HP].
Qed.

(** Every class of a completed run is the class of some zone of some pool
    of the worker, built from that pool's values. *)
Lemma class_origin (env : worker.Env) (w w' : workerDelegate) (c : MachineClass) :
  generateMachineConfig env w = (w', Ok tt) ->
  c ∈ elements_of (machineClasses w') ->
  exists rc pool pv zoneIndex zone,
    runContext env w = Ok rc /\
    pool ∈ wPools (worker w) /\
    poolValues env w rc pool = Ok pv /\
    poolZones pool !! zoneIndex = Some zone /\
    c = classAt env w rc pool pv zoneIndex zone.
Proof.
  intros H Hc. apply generateMachineConfig_Ok in H as (acc & Hgen & _ & _ & _ & Hcs & _).
  apply generate_Ok in Hgen as (rc & pvs & Hrc & Hall & _ & _ & Hclasses).
  rewrite Hcs, Hclasses in Hc. apply elem_of_flat_map in Hc as ([pool pv] & Hin & Hc).
  apply (zip_elem_Forall2 _ _ _ _ _ Hall) in Hin as [Hpool Hpv].
  unfold poolClasses in Hc. simpl in Hc.
  apply elem_of_lookup_imap in Hc as (i & zone & -> & Hzone).
  exists rc, pool, pv, i, zone. auto.
Qed.

Lemma concat_fmap_flat_map {A B : Type} (f : A -> list B) (l : list A) :
  concat (f <$> l) = flat_map f l.
Proof. induction l as [| x l IH]; simpl; [reflexivity | rewrite <- IH; reflexivity]. Qed.

(** The classes of a completed run, pool by pool: what holds of the class
    of every zone of a pool whose values were computed holds, pool by
    pool, of the emitted classes. *)
Lemma classes_per_pool (env : worker.Env) (w w' : workerDelegate)
    (P : WorkerPool -> MachineClass -> Prop) :
  generateMachineConfig env w = (w', Ok tt) ->
  (forall rc pool pv zoneIndex zone,
     poolValues env w rc pool = Ok pv -> P pool (classAt env w rc pool pv zoneIndex zone)) ->
  perPool w P (elements_of (machineClasses w')).
Proof.
  intros H HP. apply generateMachineConfig_Ok in H as (acc & Hgen & _ & _ & _ & Hcs & _).
  apply generate_Ok in Hgen as (rc & pvs & _ & Hall & _ & _ & Hclasses).
  exists (poolClasses env w rc <$> zip (wPools (worker w)) pvs).
  split; [rewrite Hcs, Hclasses, concat_fmap_flat_map; reflexivity |].
  clear - Hall HP. induction Hall as [| pool pv pools pvs Hpv _ IH]; simpl; constructor;
    [| exact IH].
  unfold poolClasses. simpl. split; [split |].
  - rewrite fmap_imap. rewrite <- (list_fmap_id (poolZones pool)) at 2.
    rewrite <- imap_const. apply imap_ext. reflexivity.
  - exists (pvHash pv). rewrite fmap_imap. apply imap_ext. reflexivity.
  - apply Forall_forall. intros c Hc.
    apply elem_of_lookup_imap in Hc as (i & zone & -> & _). apply (HP rc pool pv i zone Hpv).
Qed.

(** X2. The machine classes of a completed run, taken pool by pool: every
    class of a pool requests the CPU and the memory of that pool's machine
    type, as found in the catalog, and takes OvercommitGuestOverhead from
    that pool's worker config. It has limits only if the cloud profile
    config has an entry for the machine type that declares limits, and
    then these are its limits; a delegate without cloud profile config
    emits no limits. *)
Theorem class_resources (env : worker.Env) (w w' : workerDelegate) :
  generateMachineConfig env w = (w', Ok tt) ->
  perPool w
    (fun pool c =>
       exists machineType workerConfig,
         getMachineType w (poolMachineType pool) = Ok machineType /\
         helper.GetWorkerConfig (worker.decoder env) pool = Ok workerConfig /\
         resRequests (mcResources c) !! "cpu" = Some (mtCPU machineType) /\
         resRequests (mcResources c) !! "memory" = Some (mtMemory machineType) /\
         dom (resRequests (mcResources c)) = ({[ "cpu"; "memory" ]} : gset string) /\
         resOvercommitGuestOverhead (mcResources c) = OvercommitGuestOverhead workerConfig /\
         (forall limits, resLimits (mcResources c) = Some limits ->
            exists ext declared,
              getMachineTypeExtension w (poolMachineType pool) = Some ext /\
              mteLimits ext = Some declared /\
              limits !! "cpu" = Some (limCPU declared) /\
              limits !! "memory" = Some (limMemory declared)) /\
         (worker.cloudProfileConfig w = None -> resLimits (mcResources c) = None))
    (elements_of (machineClasses w')).
Proof.
  intros Hrun. apply (classes_per_pool env w w' _ Hrun).
  intros rc pool pv i zone Hpv.
  apply poolValues_Ok in Hpv as (mt & Hcfg & Hmt & _ & _ & Hres & _).
  exists mt, (pvWorkerConfig pv).
  destruct (getMachineType_Ok w _ mt Hmt) as [_ Hname].
  split; [exact Hmt |]. split; [exact Hcfg |].
  unfold classAt. simpl. rewrite Hres. unfold resourceRequirementsOf. simpl. rewrite Hname.
  split; [| split; [| split; [| split; [| split]]]].
  - lookup_literal.
  - lookup_literal.
  - rewrite dom_insert_L, dom_singleton_L. reflexivity.
  - reflexivity.
  - intros limits Hlimits.
    destruct (getMachineTypeExtension w (poolMachineType pool)) as [ext |]; [| discriminate].
    destruct (mteLimits ext) as [declared |] eqn:Hdeclared; [| discriminate].
    inversion Hlimits; subst; clear Hlimits. exists ext, declared.
    split; [reflexivity |]. split; [exact Hdeclared |]. split.
    + lookup_literal.
    + lookup_literal.
  - intros Hnone. unfold getMachineTypeExtension. rewrite Hnone. reflexivity.
Qed.

(** X3. Every machine class of a completed run carries its own name in the
    machineclass tag, the worker's namespace in the cluster tag and the role
    node; it has the worker's region, a zone of its pool, the worker's one,
    non-empty SSH public key, and as secret the pool's user data and the
    kubeconfig found in the worker's secret. *)
Theorem class_metadata (env : worker.Env) (w w' : workerDelegate) (c : MachineClass) :
  generateMachineConfig env w = (w', Ok tt) ->
  c ∈ elements_of (machineClasses w') ->
  mcTags c !! "mcm.gardener.cloud/machineclass" = Some (mcName c) /\
  mcTags c !! "mcm.gardener.cloud/cluster" = Some (Namespace (wMeta (worker w))) /\
  mcTags c !! "mcm.gardener.cloud/role" = Some "node" /\
  mcRegion c = wRegion (worker w) /\
  mcSSHKeys c = [string_of_list_byte (wSSHPublicKey (worker w))] /\
  wSSHPublicKey (worker w) <> [] /\
  exists pool kubeconfig,
    pool ∈ wPools (worker w) /\
    mcZone c ∈ poolZones pool /\
    mcSecretCloudConfig c = string_of_list_byte (poolUserData pool) /\
    kubevirt.GetKubeConfig (GetSecretByReference env) (wSecretRef (worker w)) = Ok kubeconfig /\
    mcSecretKubeconfig c = string_of_list_byte kubeconfig.
Proof.
  intros Hrun Hc.
  destruct (class_origin env w w' c Hrun Hc)
    as (rc & pool & pv & i & zone & Hrc & Hpool & _ & Hzone & ->).
  unfold classAt. simpl.
  split; [| split; [| split; [| split; [| split; [| split]]]]].
  - lookup_literal.
  - lookup_literal.
  - lookup_literal.
  - reflexivity.
  - reflexivity.
  - pose proof (runContext_Ok_ssh env w rc Hrc) as Hssh.
    destruct (wSSHPublicKey (worker w)); [contradiction | discriminate].
  - exists pool, (rcKubeconfig rc).
    split; [exact Hpool |]. split; [apply list_elem_of_lookup; eauto |].
    split; [reflexivity |].
    split; [apply (runContext_Ok_namespace env w rc Hrc) | reflexivity].
Qed.

(** X4. A completed run has emitted one machine class and one deployment
    per zone of each pool, in the order of the pools and of their zones. *)
Theorem classes_follow_zones (env : worker.Env) (w w' : workerDelegate) :
  generateMachineConfig env w = (w', Ok tt) ->
  mcZone <$> elements_of (machineClasses w') = flat_map poolZones (wPools (worker w)) /\
  length (elements_of (machineDeployments w')) = length (elements_of (machineClasses w')) /\
  length (elements_of (machineClasses w'))
  = sum_list (length ∘ poolZones <$> wPools (worker w)).
Proof.
  intros H. apply generateMachineConfig_Ok in H as (acc & Hgen & _ & _ & _ & Hc & Hd & _).
  apply generate_Ok in Hgen as (rc & pvs & _ & Hall & _ & Hds & Hcs).
  rewrite Hc, Hd, Hcs. simpl. rewrite Hds.
  assert (Hzones : mcZone <$> flat_map (poolClasses env w rc) (zip (wPools (worker w)) pvs)
                   = flat_map poolZones (wPools (worker w))).
  { rewrite fmap_flat_map. clear - Hall.
    induction Hall as [| pool pv pools pvs _ _ IH]; simpl; [reflexivity |].
    rewrite IH. f_equal. unfold poolClasses. simpl. rewrite fmap_imap.
    rewrite <- (list_fmap_id (poolZones pool)) at 2. rewrite <- imap_const.
    apply imap_ext. reflexivity. }
  split; [exact Hzones |]. split.
  - rewrite <- (length_fmap mdClassName), <- (length_fmap mcName). f_equal.
    rewrite !fmap_flat_map. clear.
    induction (zip (wPools (worker w)) pvs) as [| [pool pv] l IH]; simpl; [reflexivity |].
    rewrite class_names_of_pool, IH. reflexivity.
  - rewrite <- (length_fmap mcZone), Hzones. clear.
    induction (wPools (worker w)) as [| pool pools IH]; simpl; [reflexivity |].
    rewrite length_app, IH. reflexivity.
Qed.

Lemma classes_follow_zones_witness :
  generateMachineConfig example.env example.delegate = (example_runs.generated, Ok tt) /\
  mcZone <$> elements_of (machineClasses example_runs.generated) = ["z1"; "z2"; "z1"] /\
  length (elements_of (machineDeployments example_runs.generated)) = 3%nat.
Proof.
  assert (Hrun : generateMachineConfig example.env example.delegate
                 = (example_runs.generated, Ok tt)) by (vm_compute; reflexivity).
  destruct (classes_follow_zones example.env example.delegate example_runs.generated Hrun)
    as (Hzones & Hsame & Hcount).
  split; [exact Hrun |]. split; [exact Hzones |]. rewrite Hsame, Hcount. reflexivity.
Defined.

Lemma additional_volumes_Ok (env : worker.Env) (w : workerDelegate) (volumes : list DataVolume)
    (acc res : list AdditionalVolume) :
  foldM (additionalVolumeBody env w) volumes acc = Ok res ->
  exists additional, res = acc ++ additional /\
    Forall2 (additionalVolumeFor env w) volumes additional.
Proof.
  revert acc. induction volumes as [| volume volumes IH]; intros acc; simpl; intros H.
  - exists []. rewrite app_nil_r. split; [congruence | constructor].
  - apply bind_Ok in H as (acc1 & Hbody & H).
    apply IH in H as (additional & -> & Hall).
    unfold additionalVolumeBody in Hbody.
    destruct (dvType volume) as [type |] eqn:Htype; [| discriminate].
    apply bind_Ok in Hbody as ([class size] & Hstorage & Hacc).
    inversion Hacc; subst; clear Hacc.
    unfold getStorageClassNameAndSize in Hstorage.
    apply bind_Ok in Hstorage as (volumeType & Hvt & Hstorage).
    apply bind_Ok in Hstorage as (size' & Hsize & Hstorage). apply wrap_Ok in Hsize.
    inversion Hstorage; subst; clear Hstorage.
    eexists (_ :: additional). rewrite <- app_assoc. split; [reflexivity |].
    constructor; [| exact Hall].
    exists type, volumeType, size. repeat split; try assumption.
    destruct (ParseQuantity env (dvSize volume)); simpl in Hsize; congruence.
Qed.



Lemma class_resources_witness :
  generateMachineConfig example.env example.delegate = (example_runs.generated, Ok tt) /\
  perPool example.delegate (fun pool c => resLimits (mcResources c) = None)
    (elements_of (machineClasses example_runs.generated)).
Proof.
  assert (Hrun : generateMachineConfig example.env example.delegate
                 = (example_runs.generated, Ok tt)) by (vm_compute; reflexivity).
  split; [exact Hrun |].
  destruct (class_resources example.env example.delegate example_runs.generated Hrun)
    as (groups & Hsplit & Hall).
  exists groups. split; [exact Hsplit |].
  apply (Forall2_impl _ _ _ _ Hall). intros pool group [Hgroup Hresources].
  split; [exact Hgroup |]. apply (Forall_impl _ _ _ Hresources).
  intros c (mt & cfg & _ & _ & _ & _ & _ & _ & _ & Hnone). apply Hnone. reflexivity.
Defined.

Lemma class_metadata_witness :
  generateMachineConfig example.env example.delegate = (example_runs.generated, Ok tt) /\
  forall c, c ∈ elements_of (machineClasses example_runs.generated) ->
    mcTags c !! "mcm.gardener.cloud/machineclass" = Some (mcName c).
Proof.
  assert (Hrun : generateMachineConfig example.env example.delegate
                 = (example_runs.generated, Ok tt)) by (vm_compute; reflexivity).
  split; [exact Hrun |]. intros c Hc.
  apply (class_metadata example.env example.delegate example_runs.generated c Hrun Hc).
Defined.

(** ** Storage classes and volume types *)

(** X6. getStorageClassNameAndSize looks the volume type up before it
    parses the size: an unknown type gives the not-found error whatever
    the size is, a known type with an unparsable size gives the wrapped
    parse error. A pool that names a volume type missing from the catalog,
    for its root volume or for a data volume, keeps the run from
    completing, and nothing is written. *)
Theorem unknown_volume_type_aborts (env : worker.Env) (w : workerDelegate) :
  (forall type size,
     type ∉ (vtName <$> cpVolumeTypes (clCloudProfile (cluster w))) ->
     getStorageClassNameAndSize env w type size = Err (volumeTypeNotFound type)) /\
  (forall type size volumeType e,
     getVolumeType w type = Ok volumeType -> ParseQuantity env size = inl e ->
     getStorageClassNameAndSize env w type size
     = Err (Errorw "could not parse volume size %q as quantity %w" [size] e)) /\
  (forall pool type,
     pool ∈ wPools (worker w) -> usesVolumeType pool type ->
     type ∉ (vtName <$> cpVolumeTypes (clCloudProfile (cluster w))) ->
     fst (generateMachineConfig env w) = w /\
     is_ok (snd (generateMachineConfig env w)) = false).
Proof.
  assert (Hunknown : forall type size,
            type ∉ (vtName <$> cpVolumeTypes (clCloudProfile (cluster w))) ->
            getStorageClassNameAndSize env w type size = Err (volumeTypeNotFound type)).
  { intros type size Hnin. unfold getStorageClassNameAndSize.
    apply getVolumeType_unknown in Hnin. rewrite Hnin. reflexivity. }
  split; [exact Hunknown |]. split.
  - intros type size volumeType e Hvt Hparse. unfold getStorageClassNameAndSize.
    rewrite Hvt. run_step. rewrite Hparse. reflexivity.
  - intros pool type Hpool Huses Hnin.
    apply (run_fails_with env w pool Hpool). intros rc.
    destruct (poolValues env w rc pool) as [pv | e |] eqn:Hpv; [| reflexivity | reflexivity].
    exfalso. apply poolValues_Ok in Hpv as (mt & _ & _ & _ & _ & _ & Hroot & Hadd).
    destruct Huses as [[size Hvolume] | (volume & Hin & Htype)].
    + unfold rootVolumeClassNameAndSize in Hroot. rewrite Hvolume in Hroot. simpl in Hroot.
      rewrite (Hunknown type size Hnin) in Hroot. discriminate.
    + apply additional_volumes_Ok in Hadd as (additional & _ & Hall).
      apply list_elem_of_lookup in Hin as [i Hi].
      destruct (Forall2_lookup_l _ _ _ _ _ Hall Hi) as (av & _ & type' & vt & size & Htype' & Hvt & _).
      assert (type' = type) as -> by congruence.
      apply getVolumeType_unknown in Hnin. congruence.
Qed.

Lemma unknown_volume_type_aborts_witness :
  example_more.poolBadDataVolume ∈ wPools (worker example_more.badDataVolumeSecond) /\
  usesVolumeType example_more.poolBadDataVolume "fast" /\
  fst (generateMachineConfig example.env example_more.badDataVolumeSecond)
  = example_more.badDataVolumeSecond /\
  is_ok (snd (generateMachineConfig example.env example_more.badDataVolumeSecond)) = false.
Proof.
  assert (Hin : example_more.poolBadDataVolume
                ∈ wPools (worker example_more.badDataVolumeSecond)) by (right; left).
  assert (Huses : usesVolumeType example_more.poolBadDataVolume "fast").
  { right. exists (mkDataVolume "scratch" (Some "fast") "20Gi"). split; [left | reflexivity]. }
  split; [exact Hin |]. split; [exact Huses |].
  destruct (unknown_volume_type_aborts example.env example_more.badDataVolumeSecond)
    as (_ & _ & Haborts).
  apply (Haborts example_more.poolBadDataVolume "fast" Hin Huses).
  vm_compute. intros H.
  repeat (apply elem_of_cons in H as [H | H]; [discriminate |]). inversion H.
Defined.

(** ** The kubeconfig of the worker's secret *)

(** X7. GetKubeConfig returns the bytes stored under the key kubeconfig of
    the referenced secret, and exactly then succeeds; a secret without
    that key gives the missing-field error. With such a secret
    generateMachineConfig fails with that error wrapped and writes
    nothing, so DeployMachineClasses and GenerateMachineDeployments fail
    the same way on a delegate that has nothing generated, and
    createOrUpdateMachineClassVolumes fails before it creates any volume. *)
Theorem missing_kubeconfig_key (env : worker.Env) (w : workerDelegate) :
  (forall kubeconfig,
     kubevirt.GetKubeConfig (GetSecretByReference env) (wSecretRef (worker w)) = Ok kubeconfig <->
     exists secret,
       GetSecretByReference env (wSecretRef (worker w)) = inr secret /\
       secData secret !! "kubeconfig" = Some kubeconfig) /\
  (forall secret,
     GetSecretByReference env (wSecretRef (worker w)) = inr secret ->
     secData secret !! "kubeconfig" = None ->
     kubevirt.GetKubeConfig (GetSecretByReference env) (wSecretRef (worker w))
       = Err missingKubeconfigField /\
     generateMachineConfig env w = (w, Err noKubeconfigFromSecret) /\
     createOrUpdateMachineClassVolumes env w = Err noKubeconfigFromSecret /\
     (machineClasses w = None ->
      DeployMachineClasses env w = (w, Err noKubeconfigFromSecret)) /\
     (machineDeployments w = None ->
      GenerateMachineDeployments env w = (w, Err noKubeconfigFromSecret))).
Proof.
  split.
  - intros kubeconfig. unfold kubevirt.GetKubeConfig, kubevirt.KubeconfigSecretKey.
    destruct (GetSecretByReference env (wSecretRef (worker w))) as [e | secret]; run_step.
    + split; [discriminate | intros (secret & H & _); discriminate].
    + split.
      * intros H. exists secret. split; [reflexivity |].
        destruct (secData secret !! "kubeconfig"); congruence.
      * intros (secret' & [= <-] & ->). reflexivity.
  - intros secret Hsecret Hkey.
    assert (Hget : kubevirt.GetKubeConfig (GetSecretByReference env) (wSecretRef (worker w))
                   = Err missingKubeconfigField).
    { unfold kubevirt.GetKubeConfig, kubevirt.KubeconfigSecretKey.
      rewrite Hsecret. run_step. rewrite Hkey. reflexivity. }
    assert (Hgen : generateMachineConfig env w = (w, Err noKubeconfigFromSecret)).
    { unfold generateMachineConfig, generate, runContext. rewrite Hget. reflexivity. }
    split; [exact Hget |]. split; [exact Hgen |]. split; [| split].
    + unfold createOrUpdateMachineClassVolumes. rewrite Hget. reflexivity.
    + intros Hnil. unfold DeployMachineClasses. rewrite Hnil, Hgen. reflexivity.
    + intros Hnil. unfold GenerateMachineDeployments. rewrite Hnil, Hgen. reflexivity.
Qed.

Lemma missing_kubeconfig_key_witness :
  GetSecretByReference example_more.envNoKubeconfig (wSecretRef (worker example.delegate))
    = inr (mkSecret (mkMeta "garden" "cloudprovider") ∅) /\
  DeployMachineClasses example_more.envNoKubeconfig example.delegate
    = (example.delegate, Err noKubeconfigFromSecret).
Proof.
  split; [reflexivity |].
  destruct (missing_kubeconfig_key example_more.envNoKubeconfig example.delegate) as [_ Hmissing].
  destruct (Hmissing (mkSecret (mkMeta "garden" "cloudprovider") ∅) eq_refl eq_refl)
    as (_ & _ & _ & Hdeploy & _).
  apply Hdeploy. reflexivity.
Defined.

(** The class names of a completed run are the class names of its
    deployments, in order. *)
Lemma machine_names_general (env : worker.Env) (w w' : workerDelegate) :
  generateMachineConfig env w = (w', Ok tt) ->
  mcName <$> elements_of (machineClasses w') = mdClassName <$> elements_of (machineDeployments w')
  /\ machineDeployments w' <> None.
Proof.
  intros H. apply generateMachineConfig_Ok in H as (acc & Hgen & _ & _ & _ & Hc & Hd & _).
  apply generate_Ok in Hgen as (rc & pvs & _ & _ & _ & Hds & Hcs).
  rewrite Hc, Hd, Hcs. simpl. rewrite Hds. split; [| discriminate].
  rewrite !fmap_flat_map. clear.
  induction (zip (wPools (worker w)) pvs) as [| [pool pv] l IH]; simpl; [reflexivity |].
  rewrite class_names_of_pool, IH. reflexivity.
Qed.

Lemma generated_is_reused (env : worker.Env) (w w1 : workerDelegate) :
  generateMachineConfig env w = (w1, Ok tt) ->
  forall env', GenerateMachineDeployments env' w1 = (w1, Ok (machineDeployments w1)).
Proof.
  intros Hgen env'. apply generateMachineConfig_Ok in Hgen as (acc & _ & _ & _ & _ & _ & Hd & _).
  unfold GenerateMachineDeployments. rewrite Hd. reflexivity.
Qed.

(** ** Machine class volumes and the chart *)

Lemma foldM_unit_Ok {A : Type} (f : A -> result unit) (l : list A) :
  foldM (fun _ x => f x) l tt = Ok tt <-> Forall (fun x => f x = Ok tt) l.
Proof.
  induction l as [| x l IH]; simpl.
  - split; [constructor | reflexivity].
  - rewrite Forall_cons. destruct (f x) as [[] | e |]; simpl.
    + rewrite IH. tauto.
    + split; [discriminate | intros [H _]; discriminate].
    + split; [discriminate | intros [H _]; discriminate].
Qed.

Lemma foldM_unit_Err {A : Type} (f : A -> result unit) (l : list A) (e : error) :
  foldM (fun _ x => f x) l tt = Err e -> exists x, x ∈ l /\ f x = Err e.
Proof.
  induction l as [| x l IH]; simpl; [discriminate |].
  destruct (f x) as [[] | e' |] eqn:Hx; simpl.
  - intros H. destruct (IH H) as (y & Hy & Hfy). exists y. split; [right; exact Hy | exact Hfy].
  - intros [= <-]. exists x. split; [left | exact Hx].
  - discriminate.
Qed.

(** X8. Once the kubeconfig is at hand, createOrUpdateMachineClassVolumes
    succeeds exactly when CreateOrUpdateDataVolume succeeds for every entry
    of machineClassVolumes, called with the entry's name, the cluster
    label and the entry's spec; an error it returns is the error of one
    failing entry, wrapped with that entry's name. This holds in whatever
    order the map is traversed. *)
Theorem machine_class_volumes_all_or_error (env : worker.Env) (w : workerDelegate)
    (kubeconfig : bytes) :
  kubevirt.GetKubeConfig (GetSecretByReference env) (wSecretRef (worker w)) = Ok kubeconfig ->
  (createOrUpdateMachineClassVolumes env w = Ok tt <->
   forall name spec,
     machineClassVolumes w !! name = Some spec ->
     CreateOrUpdateDataVolume env kubeconfig name (clusterLabels env w) spec = inr tt) /\
  (forall e,
     createOrUpdateMachineClassVolumes env w = Err e ->
     exists name spec inner,
       machineClassVolumes w !! name = Some spec /\
       CreateOrUpdateDataVolume env kubeconfig name (clusterLabels env w) spec = inl inner /\
       e = Errorw "could not create or update data volume %q %w" [name] inner).
Proof.
  intros Hk. unfold createOrUpdateMachineClassVolumes. rewrite Hk. run_step.
  fold (clusterLabels env w). split.
  - rewrite foldM_unit_Ok, Forall_forall. split.
    + intros H name spec Hlookup.
      specialize (H (name, spec)). simpl in H.
      destruct (CreateOrUpdateDataVolume env kubeconfig name (clusterLabels env w) spec)
        as [e | []]; [| reflexivity].
      exfalso. assert (Hin : (name, spec) ∈ map_to_list (machineClassVolumes w))
        by (apply elem_of_map_to_list; exact Hlookup).
      specialize (H Hin). discriminate.
    + intros H [name spec] Hin. simpl. apply elem_of_map_to_list in Hin.
      rewrite (H name spec Hin). reflexivity.
  - intros e He. apply foldM_unit_Err in He as ([name spec] & Hin & Herr). simpl in Herr.
    apply elem_of_map_to_list in Hin. apply wrap_Err in Herr as (inner & Hinner & ->).
    exists name, spec, inner. split; [exact Hin |]. split; [| reflexivity].
    destruct (CreateOrUpdateDataVolume env kubeconfig name (clusterLabels env w) spec);
      simpl in Hinner; congruence.
Qed.

Lemma machine_class_volumes_all_or_error_witness :
  kubevirt.GetKubeConfig (GetSecretByReference example.env)
    (wSecretRef (worker example_runs.generated)) = Ok (example.b "kubeconfig-data") /\
  createOrUpdateMachineClassVolumes example.env example_runs.generated = Ok tt.
Proof.
  assert (Hk : kubevirt.GetKubeConfig (GetSecretByReference example.env)
                 (wSecretRef (worker example_runs.generated))
               = Ok (example.b "kubeconfig-data")) by reflexivity.
  split; [exact Hk |].
  destruct (machine_class_volumes_all_or_error example.env example_runs.generated _ Hk)
    as [Hiff _].
  apply Hiff. reflexivity.
Defined.

(** X9. DeployMachineClasses on a delegate without machine classes: when
    it succeeds, it has generated the config, applied the chart to the
    generated classes and created the machine class volumes, and a later
    GenerateMachineDeployments returns, without generating again,
    deployments whose class names are the names of the applied classes.
    When the chart cannot be applied, the error is the applier's, wrapped,
    no machine class volume is created, and the delegate still holds the
    generated config. *)
Theorem deploy_then_deployments (env : worker.Env) (w w1 : workerDelegate) :
  machineClasses w = None ->
  (DeployMachineClasses env w = (w1, Ok tt) ->
   generateMachineConfig env w = (w1, Ok tt) /\
   chartApply env "machine-class" (Namespace (wMeta (worker w))) "machine-class"
     (machineClasses w1) = inr tt /\
   createOrUpdateMachineClassVolumes env w1 = Ok tt /\
   (forall env', GenerateMachineDeployments env' w1 = (w1, Ok (machineDeployments w1))) /\
   mcName <$> elements_of (machineClasses w1)
   = mdClassName <$> elements_of (machineDeployments w1)) /\
  (forall e,
     generateMachineConfig env w = (w1, Ok tt) ->
     chartApply env "machine-class" (Namespace (wMeta (worker w))) "machine-class"
       (machineClasses w1) = inl e ->
     DeployMachineClasses env w
     = (w1, Err (Errorw "could not apply machine-class chart %w" [] e)) /\
     forall env', GenerateMachineDeployments env' w1 = (w1, Ok (machineDeployments w1))).
Proof.
  intros Hnil. split.
  - intros Hdeploy. unfold DeployMachineClasses in Hdeploy. rewrite Hnil in Hdeploy.
    destruct (generateMachineConfig env w) as [w' r] eqn:Hgen.
    destruct r as [[] | e |]; [| discriminate | discriminate].
    injection Hdeploy as -> Happly.
    pose proof (generateMachineConfig_Ok env w w1 Hgen) as (acc & _ & Hw & _).
    unfold applyMachineClasses in Happly.
    apply bind_Ok in Happly as ([] & Hchart & Hvolumes). apply wrap_Ok in Hchart.
    rewrite Hw in Hchart.
    split; [reflexivity |]. split.
    { destruct (chartApply env "machine-class" (Namespace (wMeta (worker w))) "machine-class"
                  (machineClasses w1)) as [e | []]; simpl in Hchart; congruence. }
    split; [exact Hvolumes |]. split; [apply (generated_is_reused env w w1 Hgen) |].
    destruct (machine_names_general env w w1 Hgen) as [Hnames _]. exact Hnames.
  - intros e Hgen Hchart. split; [| apply (generated_is_reused env w w1 Hgen)].
    pose proof (generateMachineConfig_Ok env w w1 Hgen) as (acc & _ & Hw & _).
    unfold DeployMachineClasses. rewrite Hnil, Hgen. unfold applyMachineClasses.
    rewrite Hw, Hchart. reflexivity.
Qed.

Lemma deploy_then_deployments_witness :
  machineClasses example.delegate = None /\
  DeployMachineClasses example.env example.delegate = (example_runs.generated, Ok tt) /\
  (forall env', GenerateMachineDeployments env' example_runs.generated
                = (example_runs.generated, Ok (machineDeployments example_runs.generated))) /\
  DeployMachineClasses example_more.envChartFails example.delegate
  = (example_runs.generated,
     Err (Errorw "could not apply machine-class chart %w" [] (ExternalError "apply failed"))).
Proof.
  assert (Hdeploy : DeployMachineClasses example.env example.delegate
                    = (example_runs.generated, Ok tt)) by (vm_compute; reflexivity).
  split; [reflexivity |]. split; [exact Hdeploy |].
  destruct (deploy_then_deployments example.env example.delegate example_runs.generated
              eq_refl) as [Hok _].
  destruct (Hok Hdeploy) as (_ & _ & _ & Hreuse & _).
  split; [exact Hreuse |].
  destruct (deploy_then_deployments example_more.envChartFails example.delegate
              example_runs.generated eq_refl) as [_ Hfail].
  apply (Hfail (ExternalError "apply failed")); [vm_compute; reflexivity | reflexivity].
Defined.

(** ** When a run completes *)





(** ** The shoot validator in general *)

Lemma rangeFold_append {A : Type} (f : nat -> A -> ErrorList) (xs : list A) (i : nat)
    (acc : ErrorList) :
  rangeFold (fun i x acc => acc ++ f i x) i xs acc
  = acc ++ concat (imap (fun j x => f (i + j)%nat x) xs).
Proof.
  revert i acc. induction xs as [| x xs IH]; intros i acc; simpl.
  - rewrite app_nil_r. reflexivity.
  - rewrite IH, Nat.add_0_r, <- app_assoc. do 2 f_equal.
    f_equal. apply imap_ext. intros j y _. simpl. rewrite Nat.add_succ_r. reflexivity.
Qed.

Lemma rangeFoldM_append {A : Type} (body : nat -> A -> ErrorList -> result ErrorList)
    (f : nat -> A -> ErrorList) (xs : list A) (i : nat) (acc : ErrorList) :
  (forall k x acc, xs !! k = Some x -> body (i + k)%nat x acc = Ok (acc ++ f (i + k)%nat x)) ->
  rangeFoldM body i xs acc = Ok (acc ++ concat (imap (fun k x => f (i + k)%nat x) xs)).
Proof.
  revert i acc. induction xs as [| x xs IH]; intros i acc Hbody; simpl.
  - rewrite app_nil_r. reflexivity.
  - pose proof (Hbody 0%nat x acc eq_refl) as H0. rewrite Nat.add_0_r in H0.
    rewrite H0. run_step. rewrite IH.
    + rewrite Nat.add_0_r, <- app_assoc. do 4 f_equal.
      apply imap_ext. intros j y _. simpl. rewrite Nat.add_succ_r. reflexivity.
    + intros k y acc' Hk. specialize (Hbody (S k) y acc' Hk).
      rewrite Nat.add_succ_r in Hbody. exact Hbody.
Qed.

Lemma rangeFoldM_from_0 {A : Type} (body : nat -> A -> ErrorList -> result ErrorList)
    (f : nat -> A -> ErrorList) (xs : list A) (acc : ErrorList) :
  (forall k x acc, xs !! k = Some x -> body k x acc = Ok (acc ++ f k x)) ->
  rangeFoldM body 0 xs acc = Ok (acc ++ concat (imap f xs)).
Proof.
  intros Hbody. rewrite (rangeFoldM_append body f xs 0 acc).
  - reflexivity.
  - intros k x acc' Hk. simpl. apply Hbody, Hk.
Qed.

Lemma validateContext_closed (env : validator.Env) (valContext : validationContext) :
  validateContext env valContext
  = shootErrors env valContext ++ workerConfigErrors env valContext.
Proof.
  unfold validateContext, shootErrors, workerConfigErrors.
  rewrite rangeFold_append. simpl. rewrite <- !app_assoc. reflexivity.
Qed.

(** The worker config contexts of a validation context, one per worker. *)
Lemma newValidationContext_workers (env : validator.Env) (sh : Shoot) (dec : Decoder)
    (valContext : validationContext) :
  newValidationContext env sh dec = Ok valContext ->
  Forall2 (contextFor env dec) (shWorkers sh) (workerConfigsContexts valContext) /\
  is_Some (cpProviderConfig (cloudProfile valContext)) /\
  GetCloudProfile env (shCloudProfileName sh) = inr (cloudProfile valContext).
Proof.
  unfold newValidationContext. intros H.
  apply bind_Ok in H as (ic & _ & H).
  apply bind_Ok in H as (cpc & _ & H).
  apply bind_Ok in H as (contexts & Hcontexts & H).
  apply bind_Ok in H as (profile & Hprofile & H). apply wrap_Ok in Hprofile.
  destruct (cpProviderConfig profile) as [raw |] eqn:Hraw; [| discriminate].
  apply bind_Ok in H as (profileConfig & _ & H).
  inversion H; subst; clear H. simpl.
  split; [| split; [rewrite Hraw; eexists; reflexivity |]].
  - match type of Hcontexts with
    | foldM ?body _ _ = _ =>
        assert (Hgen : forall wks acc res,
                   foldM body wks acc = Ok res ->
                   exists cs, res = acc ++ cs /\ Forall2 (contextFor env dec) wks cs)
    end.
    { induction wks as [| wk wks IH]; intros acc res; simpl; intros H.
      - exists []. rewrite app_nil_r. split; [congruence | constructor].
      - apply bind_Ok in H as (acc1 & Hbody & H).
        apply bind_Ok in Hbody as (cfg & Hcfg & Hacc). inversion Hacc; subst; clear Hacc.
        apply IH in H as (cs & -> & Hall).
        eexists (_ :: cs). rewrite <- app_assoc. split; [reflexivity |].
        constructor; [| exact Hall]. split; [reflexivity |]. simpl.
        destruct (cwProviderConfig wk) as [raw' |].
        + apply wrap_Ok in Hcfg.
          destruct (DecodeWorkerConfig env dec raw'); simpl in Hcfg; congruence.
        + congruence. }
    destruct (Hgen _ _ _ Hcontexts) as (cs & -> & Hall). exact Hall.
  - destruct (GetCloudProfile env (shCloudProfileName sh)); simpl in Hprofile; congruence.
Qed.

Lemma workerNameAt_Ok (sh : Shoot) (i : nat) :
  is_Some (shWorkers sh !! i) -> workerNameAt sh i = Ok (nameAt sh i).
Proof. unfold workerNameAt, nameAt. intros [wk ->]. reflexivity. Qed.

Lemma validateUpdateErrors_closed (env : validator.Env) (oldShoot shoot : Shoot)
    (oldValContext currentValContext : validationContext) :
  length (workerConfigsContexts oldValContext) = length (shWorkers oldShoot) ->
  length (workerConfigsContexts currentValContext) = length (shWorkers shoot) ->
  validateUpdateErrors env oldShoot shoot oldValContext currentValContext
  = Ok (sectionUpdateErrors env oldValContext currentValContext
        ++ ValidateWorkersUpdate env (shWorkers (validator.shoot oldValContext))
             (shWorkers (validator.shoot currentValContext)) workersPath
        ++ workerConfigUpdateErrors env oldShoot shoot oldValContext currentValContext
        ++ validateContext env currentValContext).
Proof.
  intros Hold Hnew. unfold validateUpdateErrors.
  pose (inner := fun (current : workerConfigContext) (i j : nat) (old : workerConfigContext) =>
          if bool_decide (nameAt shoot i = nameAt oldShoot j)
             && bool_decide (workerConfig old <> workerConfig current)
          then ValidateWorkerConfigUpdate env (workerConfig current) (workerConfig old)
                 (workerConfigPath i)
          else []).
  rewrite (rangeFoldM_from_0 _
             (fun i current =>
                concat (imap (inner current i) (workerConfigsContexts oldValContext)))).
  - run_step. unfold workerConfigUpdateErrors, sectionUpdateErrors. f_equal.
    destruct (bool_decide (infrastructureConfig oldValContext
                           <> infrastructureConfig currentValContext));
      destruct (bool_decide (controlPlaneConfig oldValContext
                             <> controlPlaneConfig currentValContext));
      simpl; rewrite ?app_nil_r, <- ?app_assoc; reflexivity.
  - intros i current acc Hi.
    assert (Hwi : is_Some (shWorkers shoot !! i)).
    { apply lookup_lt_is_Some. rewrite <- Hnew. apply (lookup_lt_Some _ _ _ Hi). }
    apply (rangeFoldM_from_0 _ (inner current i)).
    intros j old acc' Hj.
    assert (Hwj : is_Some (shWorkers oldShoot !! j)).
    { apply lookup_lt_is_Some. rewrite <- Hold. apply (lookup_lt_Some _ _ _ Hj). }
    rewrite (workerNameAt_Ok shoot i Hwi), (workerNameAt_Ok oldShoot j Hwj). run_step.
    unfold inner.
    destruct (bool_decide (nameAt shoot i = nameAt oldShoot j)
              && bool_decide (workerConfig old <> workerConfig current));
      [reflexivity | rewrite app_nil_r; reflexivity].
Qed.

(** X11. The update validation of a shoot whose two versions decode, for
    any number of pools: its errors are those of the update checks of the
    changed config sections, of the update check of the workers, of the
    update check of worker configs, run for every pair of a new and an old
    pool of the same name whose decoded configs differ and for no other
    pair, and of the full validation of the new shoot, in this order;
    the shoot passes exactly when there is none. In particular an index
    into the worker lists is never out of range, and when no pool changed
    its config against the old pool of its name, the update check of
    worker configs contributes nothing. *)
Theorem update_errors_in_general (env : validator.Env) (oldShoot shoot : Shoot)
    (oldValContext currentValContext : validationContext) :
  newValidationContext env oldShoot (lenientDecoder env) = Ok oldValContext ->
  newValidationContext env shoot (decoder env) = Ok currentValContext ->
  validateUpdate env oldShoot shoot
  = ToAggregate
      (sectionUpdateErrors env oldValContext currentValContext
       ++ ValidateWorkersUpdate env (shWorkers oldShoot) (shWorkers shoot) workersPath
       ++ workerConfigUpdateErrors env oldShoot shoot oldValContext currentValContext
       ++ shootErrors env currentValContext
       ++ workerConfigErrors env currentValContext) /\
  (noWorkerConfigChanged oldShoot shoot oldValContext currentValContext ->
   workerConfigUpdateErrors env oldShoot shoot oldValContext currentValContext = []).
Proof.
  intros Hold Hnew.
  destruct (newValidationContext_Ok _ _ _ _ Hold) as [HoldS _].
  destruct (newValidationContext_Ok _ _ _ _ Hnew) as [HnewS _].
  destruct (newValidationContext_workers _ _ _ _ Hold) as [HoldW _].
  destruct (newValidationContext_workers _ _ _ _ Hnew) as [HnewW _].
  apply Forall2_length in HoldW, HnewW.
  split.
  - unfold validateUpdate. rewrite Hold, Hnew. run_step.
    rewrite (validateUpdateErrors_closed env oldShoot shoot oldValContext currentValContext)
      by congruence.
    run_step. rewrite HoldS, HnewS, validateContext_closed. reflexivity.
  - intros Hsame. unfold workerConfigUpdateErrors.
    assert (Hnil : forall (ls : list ErrorList), Forall (fun l => l = []) ls -> concat ls = []).
    { induction 1 as [| l ls -> _ IH]; [reflexivity | exact IH]. }
    apply Hnil. apply Forall_forall. intros l Hl.
    apply elem_of_lookup_imap in Hl as (i & current & -> & Hi).
    apply Hnil. apply Forall_forall. intros l Hl.
    apply elem_of_lookup_imap in Hl as (j & old & -> & Hj).
    case_bool_decide as Hname; [| reflexivity].
    rewrite (bool_decide_eq_false_2 (workerConfig old <> workerConfig current));
      [reflexivity |].
    intros Hne. apply Hne. apply (Hsame i j current old Hi Hj Hname).
Qed.

Lemma update_errors_in_general_witness :
  newValidationContext example_admission.env example_admission.oldShoot
    (lenientDecoder example_admission.env) = Ok example_runs.oldContext /\
  newValidationContext example_admission.env example_admission.oldShoot
    (decoder example_admission.env) = Ok example_runs.oldContext /\
  noWorkerConfigChanged example_admission.oldShoot example_admission.oldShoot
    example_runs.oldContext example_runs.oldContext /\
  workerConfigUpdateErrors example_admission.env example_admission.oldShoot
    example_admission.oldShoot example_runs.oldContext example_runs.oldContext = [].
Proof.
  assert (Hsame : noWorkerConfigChanged example_admission.oldShoot example_admission.oldShoot
                    example_runs.oldContext example_runs.oldContext).
  { intros i j current old Hi Hj Hname.
    destruct i as [| [| i]]; destruct j as [| [| j]]; simpl in Hi, Hj;
      try discriminate; inversion Hi; inversion Hj; subst;
      try reflexivity; vm_compute in Hname; discriminate. }
  split; [reflexivity |]. split; [reflexivity |]. split; [exact Hsame |].
  apply (update_errors_in_general example_admission.env example_admission.oldShoot
           example_admission.oldShoot example_runs.oldContext example_runs.oldContext
           eq_refl eq_refl).
  exact Hsame.
Defined.

Lemma newValidationContext_not_Panic (env : validator.Env) (sh : Shoot) (dec : Decoder) :
  newValidationContext env sh dec <> Panic.
Proof.
  unfold newValidationContext.
  destruct (shInfrastructureConfig sh) as [raw |];
    [destruct (DecodeInfrastructureConfig env dec raw) |]; run_step; try discriminate.
  all: destruct (shControlPlaneConfig sh) as [raw' |];
    [destruct (DecodeControlPlaneConfig env dec raw') |]; run_step; try discriminate.
  all: match goal with
       | |- context [foldM ?body ?l ?a] =>
           assert (Hloop : foldM body l a <> Panic);
           [ apply (foldM_not_Panic (fun _ => True)); [| apply Forall_true; exact (fun _ => I)];
             intros wk acc _;
             destruct (cwProviderConfig wk) as [raw'' |];
             [destruct (DecodeWorkerConfig env dec raw'') |]; discriminate
           | destruct (foldM body l a) as [contexts | e |]; run_step;
             [| discriminate | contradiction] ]
       end.
  all: destruct (GetCloudProfile env (shCloudProfileName sh)) as [e | profile]; run_step;
    try discriminate.
  all: destruct (cpProviderConfig profile) as [raw3 |]; try discriminate.
  all: destruct (DecodeCloudProfileConfig env dec raw3); discriminate.
Qed.

Lemma ToAggregate_not_Panic (errs : ErrorList) : ToAggregate errs <> Panic.
Proof. destruct errs; discriminate. Qed.

Lemma validateShootSecret_not_Panic (env : validator.Env) (sh : Shoot) :
  validateShootSecret env sh <> Panic.
Proof.
  unfold validateShootSecret.
  destruct (LookupSecretBinding env _ _) as [e | ref]; run_step; [discriminate |].
  destruct (LookupSecret env _ _) as [e | secret]; run_step; [discriminate |].
  apply call_not_Panic.
Qed.

(** X12. Validation of a new shoot: once its configs decode, all errors of
    the structural checks (of the shoot, then of each worker config under
    the path of its index) are returned together, and the shoot's secret is
    looked up and checked only when there is no such error; when a config
    does not decode, that error is returned and nothing is checked. *)
Theorem create_collects_errors (env : validator.Env) (sh : Shoot) :
  (forall valContext,
     newValidationContext env sh (decoder env) = Ok valContext ->
     (shootErrors env valContext ++ workerConfigErrors env valContext = [] ->
      validateCreate env sh = validateShootSecret env sh) /\
     (shootErrors env valContext ++ workerConfigErrors env valContext <> [] ->
      validateCreate env sh
      = Err (AggregateError (shootErrors env valContext ++ workerConfigErrors env valContext)))) /\
  (forall e,
     newValidationContext env sh (decoder env) = Err e -> validateCreate env sh = Err e).
Proof.
  split.
  - intros valContext Hctx. unfold validateCreate. rewrite Hctx. run_step.
    rewrite validateContext_closed.
    destruct (shootErrors env valContext ++ workerConfigErrors env valContext) as [| e errs].
    + split; [reflexivity | intros H; contradiction].
    + split; [discriminate | reflexivity].
  - intros e Hctx. unfold validateCreate. rewrite Hctx. reflexivity.
Qed.

Lemma create_collects_errors_witness :
  newValidationContext
    (withWorkerConfigCheck example_admission.rejectBogus example_admission.env)
    example_admission.newShoot
    (decoder (withWorkerConfigCheck example_admission.rejectBogus example_admission.env))
  = Ok example_runs.newContext /\
  validateCreate (withWorkerConfigCheck example_admission.rejectBogus example_admission.env)
    example_admission.newShoot
  = Err (AggregateError
           [mkFieldError "FieldValueInvalid" (workerConfigPath 0) "unsupported dnsPolicy"]).
Proof.
  split; [reflexivity |].
  destruct (create_collects_errors
              (withWorkerConfigCheck example_admission.rejectBogus example_admission.env)
              example_admission.newShoot) as [Hok _].
  destruct (Hok example_runs.newContext eq_refl) as [_ Herrors].
  rewrite Herrors; [reflexivity | vm_compute; discriminate].
Defined.

(** X13. The shoot validator never fails with a run-time panic, whatever
    the objects, the decoders and the checks are: the indices into the
    worker lists of the update path are always in range, because a
    validation context has one worker config context per worker. *)
Theorem shoot_validate_never_panics (env : validator.Env) (new old : option Object) :
  shootValidate env new old <> Panic.
Proof.
  unfold shootValidate.
  destruct new as [[secret | sh | t] |]; try discriminate.
  destruct old as [[oldSecret | oldShoot | t] |]; try discriminate.
  - unfold validateUpdate.
    pose proof (newValidationContext_not_Panic env oldShoot (lenientDecoder env)) as Hold.
    destruct (newValidationContext env oldShoot (lenientDecoder env))
      as [oldValContext | e |] eqn:HoldE; run_step; [| discriminate | contradiction].
    pose proof (newValidationContext_not_Panic env sh (decoder env)) as Hnew.
    destruct (newValidationContext env sh (decoder env))
      as [currentValContext | e |] eqn:HnewE; run_step; [| discriminate | contradiction].
    destruct (newValidationContext_workers _ _ _ _ HoldE) as [HoldW _].
    destruct (newValidationContext_workers _ _ _ _ HnewE) as [HnewW _].
    apply Forall2_length in HoldW, HnewW.
    rewrite (validateUpdateErrors_closed env oldShoot sh oldValContext currentValContext)
      by congruence.
    run_step. apply ToAggregate_not_Panic.
  - unfold validateCreate.
    pose proof (newValidationContext_not_Panic env sh (decoder env)) as Hnew.
    destruct (newValidationContext env sh (decoder env)) as [valContext | e |]; run_step;
      [| discriminate | contradiction].
    destruct (validateContext env valContext) as [| e errs]; run_step; [| discriminate].
    apply validateShootSecret_not_Panic.
Qed.

(** X14. A validation context mirrors the shoot it was built from: it
    holds one worker config context per worker, in order, with the worker's
    data volumes and with the decoded provider config, or the zero config
    for a worker without provider config; a provider config that is present
    is handed to the decoder even when its raw bytes are nil. The cloud
    profile it holds is the one fetched under the shoot's cloud profile
    name, and it has a provider config. *)
Theorem validation_context_mirrors_shoot (env : validator.Env) (sh : Shoot) (dec : Decoder)
    (valContext : validationContext) :
  newValidationContext env sh dec = Ok valContext ->
  validator.shoot valContext = sh /\
  Forall2 (contextFor env dec) (shWorkers sh) (workerConfigsContexts valContext) /\
  length (workerConfigsContexts valContext) = length (shWorkers sh) /\
  GetCloudProfile env (shCloudProfileName sh) = inr (cloudProfile valContext) /\
  is_Some (cpProviderConfig (cloudProfile valContext)).
Proof.
  intros H.
  destruct (newValidationContext_Ok _ _ _ _ H) as [Hshoot _].
  destruct (newValidationContext_workers _ _ _ _ H) as (Hworkers & Hconfig & Hprofile).
  split; [exact Hshoot |]. split; [exact Hworkers |].
  split; [symmetry; apply (Forall2_length _ _ _ Hworkers) |].
  split; [exact Hprofile | exact Hconfig].
Qed.

Lemma validation_context_mirrors_shoot_witness :
  newValidationContext example_admission.env example_admission.newShoot example.decoder
  = Ok example_runs.newContext /\
  length (workerConfigsContexts example_runs.newContext)
  = length (shWorkers example_admission.newShoot).
Proof.
  split; [reflexivity |].
  apply (validation_context_mirrors_shoot example_admission.env example_admission.newShoot
           example.decoder example_runs.newContext eq_refl).
Defined.

(** ** The secret validator's errors *)

(** X15. The secret validator rejects a new object that is not a secret
    and an old object that is not a secret, whatever else holds, and it
    fails closed: when the data changed (or the secret is new) and the
    in-use check itself fails, the secret is rejected with that error
    wrapped, and its kubeconfig is not looked at. *)
Theorem secret_validate_errors (env : validator.Env) :
  (forall new old,
     (forall secret, new <> Some (SecretObject secret)) ->
     secretValidate env new old = Err (Errorf "wrong object type %T" [typeOf new])) /\
  (forall secret old,
     old <> None -> (forall oldSecret, old <> Some (SecretObject oldSecret)) ->
     secretValidate env (Some (SecretObject secret)) old
     = Err (Errorf "wrong object type %T for old object" [typeOf old])) /\
  (forall secret old e check,
     dataChanged secret old ->
     IsSecretInUseByShoot env secret (kubevirtType env) = inl e ->
     secretValidate (withSecretCheck check env) (Some (SecretObject secret)) old
     = Err (Errorw "could not check if secret is in use by shoot %w" [] e)).
Proof.
  split; [| split].
  - intros new old Hnew. unfold secretValidate.
    destruct new as [[secret | sh | t] |]; try reflexivity.
    exfalso. apply (Hnew secret). reflexivity.
  - intros secret old Hsome Hold. unfold secretValidate.
    destruct old as [[oldSecret | sh | t] |]; try reflexivity.
    + exfalso. apply (Hold oldSecret). reflexivity.
    + contradiction.
  - intros secret old e check Hchanged Huse. unfold secretValidate. simpl.
    destruct old as [[oldSecret | sh | t] |]; simpl in Hchanged; try contradiction.
    + rewrite bool_decide_eq_false_2 by exact Hchanged. rewrite Huse. reflexivity.
    + rewrite Huse. reflexivity.
Qed.

Lemma secret_validate_errors_witness :
  (forall secret, Some (OtherObject "*v1.ConfigMap") <> Some (SecretObject secret)) /\
  secretValidate example_admission.env (Some (OtherObject "*v1.ConfigMap")) None
  = Err (Errorf "wrong object type %T" ["*v1.ConfigMap"]).
Proof.
  assert (Hother : forall secret,
             Some (OtherObject "*v1.ConfigMap") <> Some (SecretObject secret))
    by (intros secret; discriminate).
  split; [exact Hother |].
  destruct (secret_validate_errors example_admission.env) as [Hwrong _].
  apply (Hwrong (Some (OtherObject "*v1.ConfigMap")) None Hother).
Defined.

(** ** Deployment names *)

Lemma itoa_allDigits (n : nat) : allDigits (itoa n) = true.
Proof.
  unfold itoa. induction (Nat.to_uint n) as [| d IH | d IH | d IH | d IH | d IH | d IH | d IH
                                             | d IH | d IH | d IH]; simpl;
    [reflexivity | exact IH ..].
Qed.

Lemma itoa_inj (n m : nat) : itoa n = itoa m -> n = m.
Proof.
  unfold itoa. intros H. apply DecimalNat.Unsigned.to_uint_inj.
  assert (Hsome : Some (Nat.to_uint n) = Some (Nat.to_uint m))
    by (rewrite <- !NilEmpty.usu, H; reflexivity).
  congruence.
Qed.

Lemma append_empty (s : string) : "" +:+ s = s.
Proof. reflexivity. Qed.

Lemma append_String (c : ascii) (a s : string) : String c a +:+ s = String c (a +:+ s).
Proof. reflexivity. Qed.

Ltac push_append := rewrite ?append_String, ?append_empty.

Lemma allDigits_no_dash (x rest : string) : allDigits (x +:+ String "-" rest) = false.
Proof.
  induction x as [| a x IH]; push_append; simpl; [reflexivity |].
  rewrite IH. apply andb_false_r.
Qed.

Lemma append_cancel_l (p a b : string) : p +:+ a = p +:+ b -> a = b.
Proof. induction p as [| c p IH]; push_append; [auto | intros [= H]; auto]. Qed.

(** A name and a decimal ordinal joined by [-z] can be told apart again. *)
Lemma dash_z_split (a b d1 d2 : string) :
  allDigits d1 = true -> allDigits d2 = true ->
  a +:+ "-z" +:+ d1 = b +:+ "-z" +:+ d2 -> a = b /\ d1 = d2.
Proof.
  intros H1 H2. revert b. induction a as [| c a IH]; intros b.
  - destruct b as [| c2 [| c3 b]]; push_append; intros H.
    + inversion H. split; reflexivity.
    + exfalso. inversion H.
    + exfalso. inversion H; subst. rewrite allDigits_no_dash in H1. discriminate.
  - destruct b as [| c2 b].
    + destruct a as [| c3 a]; push_append; intros H; exfalso.
      * inversion H.
      * inversion H; subst. rewrite allDigits_no_dash in H2. discriminate.
    + push_append. intros H. inversion H; subst.
      match goal with Heq : a +:+ _ = b +:+ _ |- _ => destruct (IH b Heq) as [-> ->] end.
      split; reflexivity.
Qed.

Lemma deploymentNameOf_inj (w : workerDelegate) (pool1 pool2 : WorkerPool) (i1 i2 : nat) :
  deploymentNameOf w pool1 i1 = deploymentNameOf w pool2 i2 ->
  poolName pool1 = poolName pool2 /\ i1 = i2.
Proof.
  unfold deploymentNameOf. intros H.
  apply append_cancel_l in H. apply (append_cancel_l "-") in H.
  apply dash_z_split in H as [Hname Hord]; try apply itoa_allDigits.
  split; [exact Hname |]. apply itoa_inj in Hord. lia.
Qed.

Lemma deployment_names_of_pool (env : worker.Env) (w : workerDelegate) (pool : WorkerPool)
    (pv : PoolValues) :
  mdName <$> poolDeployments env w (pool, pv)
  = (fun i => deploymentNameOf w pool i) <$> seq 0 (length (poolZones pool)).
Proof.
  unfold poolDeployments. simpl. rewrite fmap_imap, <- imap_seq_0.
  apply imap_ext. reflexivity.
Qed.

(** X16. The name of a deployment determines its pool name and its zone
    index: [{namespace}-{poolName}-z{ordinal}] can be read back, whatever
    characters the pool names contain. Hence the deployments of a completed
    run over pools of pairwise distinct names have pairwise distinct names. *)
Theorem deployment_names_unique (env : worker.Env) (w w' : workerDelegate) :
  (forall pool1 pool2 i1 i2,
     deploymentNameOf w pool1 i1 = deploymentNameOf w pool2 i2 ->
     poolName pool1 = poolName pool2 /\ i1 = i2) /\
  (generateMachineConfig env w = (w', Ok tt) ->
   NoDup (poolName <$> wPools (worker w)) ->
   NoDup (mdName <$> elements_of (machineDeployments w'))).
Proof.
  split; [apply deploymentNameOf_inj |].
  intros H Hnodup. apply generateMachineConfig_Ok in H as (acc & Hgen & _ & _ & _ & _ & Hd & _).
  apply generate_Ok in Hgen as (rc & pvs & _ & Hall & _ & Hds & _).
  rewrite Hd. simpl. rewrite Hds, fmap_flat_map. clear - Hall Hnodup.
  induction Hall as [| pool pv pools pvs _ _ IH]; simpl; [constructor |].
  rewrite fmap_cons in Hnodup. apply NoDup_cons in Hnodup as [Hfresh Hrest].
  apply NoDup_app. split; [| split; [| apply IH, Hrest]].
  - rewrite deployment_names_of_pool. apply NoDup_fmap_2_strong; [| apply NoDup_seq].
    intros i j _ _ Heq. apply (deploymentNameOf_inj w pool pool i j Heq).
  - intros name Hhere Hthere. apply Hfresh.
    rewrite deployment_names_of_pool in Hhere.
    apply list_elem_of_fmap in Hhere as (i & -> & _).
    apply elem_of_flat_map in Hthere as ([pool' pv'] & Hin & Hname).
    rewrite deployment_names_of_pool in Hname.
    apply list_elem_of_fmap in Hname as (j & Heq & _).
    apply deploymentNameOf_inj in Heq as [-> _].
    apply elem_of_zip_l in Hin. apply list_elem_of_fmap_2, Hin.
Qed.

Lemma deployment_names_unique_witness :
  generateMachineConfig example.env example.delegate = (example_runs.generated, Ok tt) /\
  NoDup (poolName <$> wPools (worker example.delegate)) /\
  NoDup (mdName <$> elements_of (machineDeployments example_runs.generated)).
Proof.
  assert (Hrun : generateMachineConfig example.env example.delegate
                 = (example_runs.generated, Ok tt)) by (vm_compute; reflexivity).
  assert (Hpools : NoDup (poolName <$> wPools (worker example.delegate))).
  { change (NoDup ["pool-a"; "pool-b"]).
    apply NoDup_cons. split; [| apply NoDup_singleton].
    intros H. apply list_elem_of_singleton in H. discriminate. }
  split; [exact Hrun |]. split; [exact Hpools |].
  apply (deployment_names_unique example.env example.delegate example_runs.generated);
    assumption.
Defined.

(** ** Network tokens *)

Lemma extractors_absent_status (decoder : Decoder) (wk : Worker) :
  absent (wInfrastructureProviderStatus wk) ->
  forall status, helper.GetInfrastructureStatus decoder wk = Ok status ->
  status = zeroInfrastructureStatus.
Proof.
  intros [H | H] status; unfold helper.GetInfrastructureStatus; rewrite H; congruence.
Qed.

(** X17. Before the pool loop the infrastructure status is decoded and
    flattened into the tokens of the pool hash: the name, [true] or
    [false], and the SHA of each network, in order, so three tokens per
    network and none when the worker carries no status. In a completed
    run the hash of every pool was computed from the pool, the cluster and
    these same tokens, and every machine class carries the networks of the
    converted status. *)
Theorem network_tokens (env : worker.Env) (w : workerDelegate) (rc : RunContext) :
  runContext env w = Ok rc ->
  exists status converted,
    helper.GetInfrastructureStatus (worker.decoder env) (worker w) = Ok status /\
    rcNetworksData rc = networkTokens status /\
    length (rcNetworksData rc) = (3 * length (Networks status))%nat /\
    (absent (wInfrastructureProviderStatus (worker w)) -> rcNetworksData rc = []) /\
    schemeConvert env status
      (mkStatusV1alpha1 (SchemeGroupVersion env) "InfrastructureStatus" []) = inr converted /\
    rcNetworks rc = v1Networks converted /\
    (forall pool pv,
       poolValues env w rc pool = Ok pv ->
       WorkerPoolHash env pool (cluster w) (networkTokens status) = inr (pvHash pv)) /\
    (forall pool pv zoneIndex zone,
       mcNetworks (classAt env w rc pool pv zoneIndex zone) = v1Networks converted).
Proof.
  unfold runContext. intros H.
  apply bind_Ok in H as (kubeconfig & _ & H).
  apply bind_Ok in H as (namespace & _ & H).
  apply bind_Ok in H as (status & Hstatus & H). apply wrap_Ok in Hstatus.
  apply bind_Ok in H as (converted & Hconv & H). apply wrap_Ok in Hconv.
  case_bool_decide; [discriminate |]. inversion H; subst; clear H. simpl.
  exists status, converted. fold (networkTokens status).
  split; [exact Hstatus |]. split; [reflexivity |]. split; [| split; [| split; [| split; [| split]]]].
  - unfold networkTokens. induction (Networks status) as [| n ns IH]; simpl; [reflexivity |].
    rewrite IH. lia.
  - intros Habsent.
    rewrite (extractors_absent_status (worker.decoder env) (worker w) Habsent status Hstatus).
    reflexivity.
  - destruct (schemeConvert env status _); simpl in Hconv; congruence.
  - reflexivity.
  - intros pool pv Hpv. apply poolValues_Ok in Hpv as (mt & _ & _ & Hhash & _). exact Hhash.
  - reflexivity.
Qed.

Lemma network_tokens_witness :
  exists rc,
    runContext example.env example.delegate = Ok rc /\
    rcNetworksData rc = ["default"; "true"; "1f2e"].
Proof.
  assert (Hrc : exists rc, runContext example.env example.delegate = Ok rc)
    by (eexists; vm_compute; reflexivity).
  destruct Hrc as [rc Hrc]. exists rc. split; [exact Hrc |].
  destruct (network_tokens example.env example.delegate rc Hrc)
    as (status & converted & Hstatus & Htokens & _).
  rewrite Htokens. vm_compute in Hstatus. inversion Hstatus. reflexivity.
Defined.
